(** * pdf-to-excel: table extraction, workbook layout and annotation geometry

    A shallow embedding of [src/pdf_to_excel.py] (class
    [PDFToExcelConverter]): the conversion pipeline of
    [convert_single_file] / [convert_files], and the editor's mouse
    handlers, [finish_move_annotation] and [save_pdf].

    Conventions.
    - Python values that reach a DataFrame are [value]s: [None], a [str]
      or an [int].
    - A Python exception is the [Raise] branch of [result].
    - Python floats (canvas and page coordinates, the zoom level) are
      exact rationals [Q]; rounding is not modelled.
    - pdfplumber, PyMuPDF, the workbook writer and the modal dialogs are
      collaborators: their answers are inputs of the model (Section
      variables or arguments), and a collaborator call that the source
      does not guard is taken to return. *)

From Stdlib Require Import String Ascii List ZArith QArith Qabs Lia Lqa DecimalString.
From stdpp Require Import base option list strings gmap.

Local Open Scope string_scope.
Local Open Scope nat_scope.
Local Open Scope list_scope.

(** ** Python values and exceptions *)

Inductive value : Type :=
  | VNone
  | VStr (s : string)
  | VInt (n : nat).

Global Instance value_eq_dec : EqDecision value.
Proof. solve_decision. Defined.

(** [bool(x)] for the values the source tests: [if text:] . *)
Definition truthy (v : value) : bool :=
  match v with
  | VNone => false
  | VStr s => negb (String.eqb s "")
  | VInt n => negb (Nat.eqb n 0)
  end.

(** [str(n)] for a non-negative [int]. *)
Definition str_of_nat (n : nat) : string :=
  NilEmpty.string_of_uint (Nat.to_uint n).

(** [len(s)] for a [str]. A string is held as its UTF-8 bytes; its
    characters are the bytes that are not continuation bytes 10xxxxxx. *)
Fixpoint str_len (s : string) : nat :=
  match s with
  | EmptyString => 0
  | String (Ascii _ _ _ _ _ _ false true) s' => str_len s'
  | String _ s' => S (str_len s')
  end.

Inductive exn : Type :=
  (* pandas: "{passed} columns passed, passed data had {had} columns" *)
  | ValueError (passed had : nat)
  | KeyError (label : value)
  | IndexError
  (* Exception("PDF에서 추출할 내용이 없습니다.") : no extractable content *)
  | NoContent
  (* whatever a collaborator raised (open, write, save) *)
  | External (msg : string).

Global Instance exn_eq_dec : EqDecision exn.
Proof. solve_decision. Defined.

Inductive result (A : Type) : Type :=
  | Ok (a : A)
  | Raise (e : exn).
Arguments Ok {A} a.
Arguments Raise {A} e.

Global Instance result_ret : MRet result := fun _ a => Ok a.
Global Instance result_bind : MBind result := fun _ _ f m =>
  match m with
  | Ok a => f a
  | Raise e => Raise e
  end.

(** [for x in l: s = f(s, x)], where the body may raise. *)
Fixpoint for_each {A S : Type} (f : S -> A -> result S) (l : list A) (s : S)
  : result S :=
  match l with
  | [] => Ok s
  | x :: l' => s' ← f s x; for_each f l' s'
  end.

(** [enumerate(l)] *)
Fixpoint enumerate_from {A : Type} (i : nat) (l : list A) : list (nat * A) :=
  match l with
  | [] => []
  | x :: l' => (i, x) :: enumerate_from (S i) l'
  end.
Definition enumerate {A : Type} (l : list A) : list (nat * A) :=
  enumerate_from 0 l.

(** [row + [x] * (n - len(row))] *)
Definition pad_right {A : Type} (x : A) (n : nat) (row : list A) : list A :=
  row ++ repeat x (n - length row).

(** [max(len(row) for row in rows)], 0 for no rows. *)
Definition max_len {A : Type} (rows : list (list A)) : nat :=
  foldr (fun row k => Nat.max (length row) k) 0 rows.

(** ** The part of pandas the converter uses *)

Module Pandas.

(** A frame with a default [RangeIndex]: column labels and the rows. *)
Record DataFrame : Type := mkDataFrame {
  columns : list value;
  rows : list (list value)
}.

(** Every row has one cell per column. *)
Definition rectangular (df : DataFrame) : Prop :=
  Forall (fun row => length row = length (columns df)) (rows df).

(** [pd.DataFrame(data, columns=header)] for a list of lists.
    pandas lays the rows out in an object array as wide as the longest
    row (short rows are filled with [None]) and then requires one label
    per column of that array. *)
Definition DataFrame_new (data : list (list value)) (header : list value)
  : result DataFrame :=
  match data with
  | [] => Ok (mkDataFrame header [])
  | _ =>
      let k := max_len data in
      if decide (length header = k)
      then Ok (mkDataFrame header (map (pad_right VNone k) data))
      else Raise (ValueError (length header) k)
  end.

(** [pd.DataFrame(rows)] : default integer labels. *)
Definition DataFrame_of_rows (data : list (list value)) : DataFrame :=
  let k := max_len data in
  mkDataFrame (map VInt (seq 0 k)) (map (pad_right VNone k) data).

(** [df[label] = scalar] : overwrite the columns that carry the label,
    or append a new column. *)
Definition setitem (df : DataFrame) (label v : value) : DataFrame :=
  if decide (label ∈ columns df)
  then mkDataFrame (columns df)
         (map (fun row =>
                 zip_with (fun c x => if decide (c = label) then v else x)
                          (columns df) row)
              (rows df))
  else mkDataFrame (columns df ++ [label]) (map (fun row => row ++ [v]) (rows df)).

(** Keep the positions whose mask bit is set. *)
Fixpoint take_mask {A : Type} (mask : list bool) (row : list A) : list A :=
  match mask, row with
  | b :: mask', x :: row' =>
      if b then x :: take_mask mask' row' else take_mask mask' row'
  | _, _ => []
  end.

(** [df.drop(labels, axis=1, errors='ignore')] *)
Definition drop_labels (labels : list value) (df : DataFrame) : DataFrame :=
  let mask := map (fun c => bool_decide (c ∉ labels)) (columns df) in
  mkDataFrame (take_mask mask (columns df)) (map (take_mask mask) (rows df)).

(** [df.fillna('')] : missing cells become the empty string; labels stay. *)
Definition fill (v : value) : value :=
  match v with
  | VNone => VStr ""
  | _ => v
  end.
Definition fillna (df : DataFrame) : DataFrame :=
  mkDataFrame (columns df) (map (map fill) (rows df)).

(** [df[label].iloc[0]] : the cells of the first row under [label]; one
    cell when the label is unique. *)
Definition getitem_iloc0 (df : DataFrame) (label : value)
  : result (list value) :=
  if decide (label ∈ columns df)
  then match rows df with
       | [] => Raise IndexError
       | row :: _ =>
           Ok (take_mask (map (fun c => bool_decide (c = label)) (columns df)) row)
       end
  else Raise (KeyError label).

End Pandas.
Export Pandas.

(** ** The converter: [convert_single_file] *)

Module Converter.

(** A table as [page.extract_tables()] returns it: rows of cells, a cell
    being a [str] or [None]. *)
Definition RawTable : Type := list (list value).

Record Page : Type := mkPage {
  extract_tables : list RawTable;   (* page.extract_tables() *)
  extract_text : value              (* page.extract_text() *)
}.

(** One [to_excel] call: the sheet, its header line ([None] for
    [header=False]) and its rows. *)
Record Sheet : Type := mkSheet {
  sheet_name : string;
  sheet_header : option (list value);
  sheet_rows : list (list value)
}.

Definition to_excel (df : DataFrame) (name : string) (header : bool) : Sheet :=
  mkSheet name (if header then Some (columns df) else None) (rows df).

(** [bool(l)] for a list. *)
Definition list_truthy {A : Type} (l : list A) : bool :=
  negb (Nat.eqb (length l) 0).

(** [[f"Col{i}" for i in range(n)]] *)
Definition col_names (n : nat) : list value :=
  map (fun i => VStr ("Col" +:+ str_of_nat i)) (seq 0 n).

(** Line 1513: [table[0] if table[0] else [f"Col{i}" for i in range(...)]] *)
Definition table_header (table : RawTable) : list value :=
  if list_truthy (nth 0 table [])
  then nth 0 table []
  else col_names (if 1 <? length table then length (nth 1 table []) else 1).

(** Line 1514: [table[1:] if len(table) > 1 else []] *)
Definition table_data (table : RawTable) : list (list value) :=
  if 1 <? length table then skipn 1 table else [].

Definition provenance : list value := [VStr "_page"; VStr "_table"].

(** Lines 1512-1519, the body of the loop over the tables of a page:
    the frame the table adds to [all_tables], if any. *)
Definition table_frame (page_num table_idx : nat) (table : RawTable)
  : result (option DataFrame) :=
  if list_truthy table && (0 <? length table)
  then
    let header := table_header table in
    let data := table_data table in
    if list_truthy data
    then
      df ← DataFrame_new data header;
      let df := setitem df (VStr "_page") (VInt (page_num + 1)) in
      let df := setitem df (VStr "_table") (VInt (table_idx + 1)) in
      Ok (Some df)
    else Ok None
  else Ok None.

(** Lines 1511-1519: one turn of the loop over the tables of a page. *)
Definition collect_table (page_num : nat) (all_tables : list DataFrame)
    (item : nat * RawTable) : result (list DataFrame) :=
  let '(table_idx, table) := item in
  o ← table_frame page_num table_idx table;
  match o with
  | Some df => Ok (all_tables ++ [df])
  | None => Ok all_tables
  end.

(** Lines 1508-1519: one turn of the loop over the pages. *)
Definition collect_page (all_tables : list DataFrame) (item : nat * Page)
  : result (list DataFrame) :=
  let '(page_num, page) := item in
  for_each (collect_table page_num) (enumerate (extract_tables page)) all_tables.

(** Lines 1505-1519. *)
Definition extract_all_tables (pages : list Page) : result (list DataFrame) :=
  for_each collect_page (enumerate pages) [].

(** Lines 1523-1530: the rows [{'Page': page_num + 1, 'Content': text}]. *)
Definition text_data (pages : list Page) : list (list value) :=
  flat_map
    (fun '(page_num, page) =>
       let text := extract_text page in
       if truthy text then [[VInt (page_num + 1); text]] else [])
    (enumerate pages).

(** Line 1533: [pd.DataFrame(text_data)] for a list of such dicts. *)
Definition text_frame (records : list (list value)) : DataFrame :=
  mkDataFrame [VStr "Page"; VStr "Content"] records.

Definition drop_provenance (df : DataFrame) : DataFrame :=
  drop_labels provenance df.

(** Lines 1541-1547: header, data rows and a blank row per table. *)
Definition block (df : DataFrame) : list (list value) :=
  let df := drop_provenance df in
  columns df :: rows df ++ [repeat (VStr "") (length (columns df))].

(** Lines 1541-1552. *)
Definition all_rows (all_tables : list DataFrame) : list (list value) :=
  let all_rows := flat_map block all_tables in
  let max_cols := if list_truthy all_rows then max_len all_rows else 1 in
  map (fun row =>
         if length row <? max_cols
         then pad_right (VStr "") max_cols row
         else row)
      all_rows.

(** Lines 1554-1556. *)
Definition merged_sheet (all_tables : list DataFrame) : Sheet :=
  let merged_df := DataFrame_of_rows (all_rows all_tables) in
  let merged_df := fillna merged_df in
  to_excel merged_df "All Tables" false.

(** [str(v)] *)
Definition str (v : value) : string :=
  match v with
  | VNone => "None"
  | VStr s => s
  | VInt n => str_of_nat n
  end.

Section Convert.

(** [pdfplumber.open(path).pages], or what opening raised. *)
Variable pdfplumber_open : string -> result (list Page).
(** Opening the workbook at a path for writing. *)
Variable writer_open : string -> result unit.
(** The text form of a pandas [Series]: what [df[label].iloc[0]] is when
    the label is carried by more than one column. *)
Variable series_repr : list value -> string.

(** [f"{x}"] for [x = df[label].iloc[0]]. *)
Definition format_cell (cells : list value) : string :=
  match cells with
  | [v] => str v
  | _ => series_repr cells
  end.

(** Line 1563. *)
Definition make_sheet_name (page table : list value) : string :=
  substring 0 31 ("Page" +:+ format_cell page +:+ "_Table" +:+ format_cell table).

(** Lines 1559-1564: one turn of the loop over the frames. *)
Definition separate_step (sheets : list Sheet) (item : nat * DataFrame)
  : result (list Sheet) :=
  let '(idx, df) := item in
  page ← getitem_iloc0 df (VStr "_page");
  table ← getitem_iloc0 df (VStr "_table");
  let df := drop_provenance df in
  let df := fillna df in
  Ok (sheets ++ [to_excel df (make_sheet_name page table) true]).

(** Lines 1558-1564. *)
Definition separate_sheets (all_tables : list DataFrame) : result (list Sheet) :=
  for_each separate_step (enumerate all_tables) [].

(** Lines 1503-1564. [disk] maps the path of each workbook file to the
    sheets written to it. *)
Definition convert_single_file (pdf_path excel_path : string) (merge_tables : bool)
    (disk : gmap string (list Sheet)) : result (gmap string (list Sheet)) :=
  pdf ← pdfplumber_open pdf_path;
  all_tables ← extract_all_tables pdf;
  if negb (list_truthy all_tables)
  then
    pdf ← pdfplumber_open pdf_path;
    let text_data := text_data pdf in
    if list_truthy text_data
    then
      let df := text_frame text_data in
      _ ← writer_open excel_path;
      Ok (<[excel_path := [to_excel df "Text Content" true]]> disk)
    else Raise NoContent
  else
    _ ← writer_open excel_path;
    if merge_tables
    then Ok (<[excel_path := [merged_sheet all_tables]]> disk)
    else
      sheets ← separate_sheets all_tables;
      Ok (<[excel_path := sheets]> disk).

(** *** The batch loop: [convert_files] *)

(** [Path(p).name] *)
Variable path_name : string -> string.

(** The text of the progress label. *)
Inductive Progress : Type :=
  | Waiting
  (* f"변환 중: {name} ({k}/{total})" *)
  | Converting (name : string) (k total : nat)
  (* "변환 완료!" *)
  | Completed.

(** The message boxes queued with [root.after(0, ...)]. *)
Inductive Dialog : Type :=
  (* showerror("오류", f"파일 변환 실패: {name}\n{str(e)}") *)
  | ConversionFailed (name : string) (e : exn)
  (* showinfo("완료", "변환이 완료되었습니다.") *)
  | ConversionDone.

Record Gui : Type := mkGui {
  disk : gmap string (list Sheet);
  progress_var : Progress;
  progress_bar : Q;
  after_queue : list Dialog
}.

(** Lines 1488-1497, the body of the loop over the queued files. *)
Definition convert_step (merge_tables : bool) (total_files : nat) (gui : Gui)
    (job : nat * (string * string)) : Gui :=
  let '(idx, (pdf_path, excel_path)) := job in
  let progress := Converting (path_name pdf_path) (idx + 1) total_files in
  let bar := (inject_Z (Z.of_nat idx) / inject_Z (Z.of_nat total_files) * 100)%Q in
  match convert_single_file pdf_path excel_path merge_tables (disk gui) with
  | Ok disk' => mkGui disk' progress bar (after_queue gui)
  | Raise e =>
      mkGui (disk gui) progress bar
            (after_queue gui ++ [ConversionFailed (path_name pdf_path) e])
  end.

(** Lines 1484-1501. *)
Definition convert_files (save_paths : list (string * string)) (merge_tables : bool)
    (gui : Gui) : Gui :=
  let total_files := length save_paths in
  let gui := foldl (convert_step merge_tables total_files) gui (enumerate save_paths) in
  mkGui (disk gui) Completed 100%Q (after_queue gui ++ [ConversionDone]).

End Convert.

End Converter.

(** ** The editor: coordinates, mouse handlers, move and save *)

Module Editor.

Local Open Scope Q_scope.

Definition Point : Type := Q * Q.
Definition Color : Type := Q * Q * Q.

(** [fitz.Rect] *)
Record Rect : Type := mkRect { x0 : Q; y0 : Q; x1 : Q; y1 : Q }.

(** [a < b] on floats, as a test. *)
Definition Qltb (a b : Q) : bool :=
  match a ?= b with
  | Lt => true
  | _ => false
  end.

(** [rect.normalize()] : swap the corners that are out of order. *)
Definition normalize (r : Rect) : Rect :=
  let r := if Qltb (x1 r) (x0 r) then mkRect (x1 r) (y0 r) (x0 r) (y1 r) else r in
  if Qltb (y1 r) (y0 r) then mkRect (x0 r) (y1 r) (x1 r) (y0 r) else r.

(** [self.current_tool], one of the names [set_tool] is called with. *)
Inductive Tool : Type :=
  | tool_select | tool_line | tool_circle | tool_rect
  | tool_highlight | tool_note | tool_text | tool_redact.

Global Instance Tool_eq_dec : EqDecision Tool.
Proof. solve_decision. Defined.

(** What the handlers read of an annotation of the current page. *)
Record Annot : Type := mkAnnot {
  xref : nat;                      (* annot.xref *)
  annot_type : nat;                (* annot.type[0] *)
  rect : Rect;                     (* annot.rect *)
  vertices : option (list Point)   (* annot.vertices *)
}.

(** The annotation a method is called on: the one the preceding [Add...]
    call returned, or one of the page, named by its xref. *)
Inductive Target : Type :=
  | Created
  | Existing (xref : nat).

(** The calls the handlers make on the open document and its current
    page, in order; [Save] is recorded when the call returns. *)
Inductive PdfCall : Type :=
  | AddLineAnnot (p1 p2 : Point)
  | AddCircleAnnot (r : Rect)
  | AddRectAnnot (r : Rect)
  | AddHighlightAnnot (quad : Rect)
  | AddTextAnnot (p : Point) (text : string)
  | AddFreetextAnnot (r : Rect) (text : string) (fontsize : Z)
                     (text_color fill : Color)
  | AddRedactAnnot (r : Rect)
  | ApplyRedactions
  | SetColors (t : Target) (stroke : Color) (fill : option Color)
  | SetBorder (t : Target) (width : Z)
  | SetOpacity (t : Target) (o : Q)
  | SetVertices (t : Target) (vs : list Point)
  | SetRect (t : Target) (r : Rect)
  | Update (t : Target)
  | Save (path : string).

(** The message boxes of [save_pdf]. *)
Inductive Message : Type :=
  | NothingToSave                 (* showwarning: no PDF is open *)
  | Saved (path : string)         (* showinfo *)
  | SaveFailed (e : exn).         (* showerror *)

Record Editor : Type := mkEditor {
  current_pdf : option string;
  current_page : nat;
  zoom_level : Q;
  current_tool : Tool;
  current_color : Color;
  fill_color : option Color;
  no_fill_var : bool;
  opacity : Q;
  line_width : Z;
  drag_start : option Point;
  temp_shape : option nat;
  selected_annot_xref : option nat;
  is_moving : bool;
  moving_annot_rect : option Rect;
  move_preview : option nat;
  modified : bool;
  calls : list PdfCall;
  messages : list Message
}.

Definition set_drag_start (d : option Point) (e : Editor) : Editor :=
  mkEditor (current_pdf e) (current_page e) (zoom_level e) (current_tool e)
    (current_color e) (fill_color e) (no_fill_var e) (opacity e) (line_width
    e) (d) (temp_shape e) (selected_annot_xref e) (is_moving e)
    (moving_annot_rect e) (move_preview e) (modified e) (calls e) (messages e).

Definition set_temp_shape (t : option nat) (e : Editor) : Editor :=
  mkEditor (current_pdf e) (current_page e) (zoom_level e) (current_tool e)
    (current_color e) (fill_color e) (no_fill_var e) (opacity e) (line_width
    e) (drag_start e) (t) (selected_annot_xref e) (is_moving e)
    (moving_annot_rect e) (move_preview e) (modified e) (calls e) (messages e).

Definition set_selected_annot_xref (x : option nat) (e : Editor) : Editor :=
  mkEditor (current_pdf e) (current_page e) (zoom_level e) (current_tool e)
    (current_color e) (fill_color e) (no_fill_var e) (opacity e) (line_width
    e) (drag_start e) (temp_shape e) (x) (is_moving e) (moving_annot_rect e)
    (move_preview e) (modified e) (calls e) (messages e).

Definition set_is_moving (b : bool) (e : Editor) : Editor :=
  mkEditor (current_pdf e) (current_page e) (zoom_level e) (current_tool e)
    (current_color e) (fill_color e) (no_fill_var e) (opacity e) (line_width
    e) (drag_start e) (temp_shape e) (selected_annot_xref e) (b)
    (moving_annot_rect e) (move_preview e) (modified e) (calls e) (messages e).

Definition set_moving_annot_rect (r : option Rect) (e : Editor) : Editor :=
  mkEditor (current_pdf e) (current_page e) (zoom_level e) (current_tool e)
    (current_color e) (fill_color e) (no_fill_var e) (opacity e) (line_width
    e) (drag_start e) (temp_shape e) (selected_annot_xref e) (is_moving e) (r)
    (move_preview e) (modified e) (calls e) (messages e).

Definition set_move_preview (p : option nat) (e : Editor) : Editor :=
  mkEditor (current_pdf e) (current_page e) (zoom_level e) (current_tool e)
    (current_color e) (fill_color e) (no_fill_var e) (opacity e) (line_width
    e) (drag_start e) (temp_shape e) (selected_annot_xref e) (is_moving e)
    (moving_annot_rect e) (p) (modified e) (calls e) (messages e).

Definition set_modified (b : bool) (e : Editor) : Editor :=
  mkEditor (current_pdf e) (current_page e) (zoom_level e) (current_tool e)
    (current_color e) (fill_color e) (no_fill_var e) (opacity e) (line_width
    e) (drag_start e) (temp_shape e) (selected_annot_xref e) (is_moving e)
    (moving_annot_rect e) (move_preview e) (b) (calls e) (messages e).

Definition emit (cs : list PdfCall) (e : Editor) : Editor :=
  mkEditor (current_pdf e) (current_page e) (zoom_level e) (current_tool e)
    (current_color e) (fill_color e) (no_fill_var e) (opacity e) (line_width
    e) (drag_start e) (temp_shape e) (selected_annot_xref e) (is_moving e)
    (moving_annot_rect e) (move_preview e) (modified e) (calls e ++ cs)
    (messages e).

Definition show (m : Message) (e : Editor) : Editor :=
  mkEditor (current_pdf e) (current_page e) (zoom_level e) (current_tool e)
    (current_color e) (fill_color e) (no_fill_var e) (opacity e) (line_width
    e) (drag_start e) (temp_shape e) (selected_annot_xref e) (is_moving e)
    (moving_annot_rect e) (move_preview e) (modified e) (calls e) (messages e
    ++ [m]).

Section Handlers.

(** [canvas.canvasx], [canvas.canvasy] : window to canvas coordinates. *)
Variable canvasx canvasy : Q -> Q.
(** [rect.contains(point)] *)
Variable rect_contains : Rect -> Point -> bool.
(** [self.current_pdf.save(path, garbage=4, deflate=True)] *)
Variable document_save : string -> result unit.

(** Lines 740-748. *)
Definition canvas_to_pdf (e : Editor) (x y : Q) : Point :=
  let canvas_x := canvasx x in
  let canvas_y := canvasy y in
  let zoom := zoom_level e * 1.5 in
  let pdf_x := canvas_x / zoom in
  let pdf_y := canvas_y / zoom in
  (pdf_x, pdf_y).

(** Lines 750-756. *)
Definition canvas_to_pdf_point (e : Editor) (canvas_coords : Point) : Point :=
  let '(x, y) := canvas_coords in
  let zoom := zoom_level e * 1.5 in
  let pdf_x := x / zoom in
  let pdf_y := y / zoom in
  (pdf_x, pdf_y).

(** Lines 671-673: a page point on the canvas. *)
Definition pdf_to_canvas_point (e : Editor) (p : Point) : Point :=
  let zoom := zoom_level e * 1.5 in
  (fst p * zoom, snd p * zoom).

(** Lines 666-677: the rectangle drawn around the selected annotation. *)
Definition highlight_selected_annot (e : Editor) (rect : Rect) : Rect :=
  let '(x0, y0) := pdf_to_canvas_point e (x0 rect, y0 rect) in
  let '(x1, y1) := pdf_to_canvas_point e (x1 rect, y1 rect) in
  mkRect (x0 - 3) (y0 - 3) (x1 + 3) (y1 + 3).

Definition drag_rect (e : Editor) (start end_ : Point) : Rect :=
  let p1 := canvas_to_pdf_point e start in
  let p2 := canvas_to_pdf_point e end_ in
  normalize (mkRect (fst p1) (snd p1) (fst p2) (snd p2)).

(** [if not self.no_fill_var.get() and self.fill_color] *)
Definition chosen_fill (e : Editor) : option Color :=
  if no_fill_var e then None else fill_color e.

(** Lines 872-887. *)
Definition draw_line_annot (start end_ : Point) (e : Editor) : Editor :=
  let p1 := canvas_to_pdf_point e start in
  let p2 := canvas_to_pdf_point e end_ in
  set_modified true
    (emit [AddLineAnnot p1 p2;
           SetColors Created (current_color e) None;
           SetBorder Created (line_width e);
           SetOpacity Created (opacity e);
           Update Created] e).

Definition fill_calls (e : Editor) : list PdfCall :=
  match chosen_fill e with
  | Some f => [SetColors Created (current_color e) (Some f)]
  | None => []
  end.

(** Lines 889-909. *)
Definition draw_circle_annot (start end_ : Point) (e : Editor) : Editor :=
  set_modified true
    (emit ([AddCircleAnnot (drag_rect e start end_);
            SetColors Created (current_color e) None]
           ++ fill_calls e
           ++ [SetBorder Created (line_width e);
               SetOpacity Created (opacity e);
               Update Created]) e).

(** Lines 911-931. *)
Definition draw_rect_annot (start end_ : Point) (e : Editor) : Editor :=
  set_modified true
    (emit ([AddRectAnnot (drag_rect e start end_);
            SetColors Created (current_color e) None]
           ++ fill_calls e
           ++ [SetBorder Created (line_width e);
               SetOpacity Created (opacity e);
               Update Created]) e).

(** Lines 933-955. *)
Definition add_highlight (start end_ : Point) (e : Editor) : Editor :=
  set_modified true
    (emit [AddHighlightAnnot (drag_rect e start end_);
           SetColors Created (current_color e) None;
           SetOpacity Created (opacity e);
           Update Created] e).

(** Lines 1217-1234; [apply_now] is the answer to the confirmation box. *)
Definition add_redaction (start end_ : Point) (apply_now : bool) (e : Editor)
  : Editor :=
  set_modified true
    (emit (AddRedactAnnot (drag_rect e start end_)
           :: (if apply_now then [ApplyRedactions] else [])) e).

(** Lines 957-975; [text] is what the user typed, if anything. *)
Definition add_sticky_note (x y : Q) (text : option string) (e : Editor)
  : Editor :=
  match current_pdf e, text with
  | Some _, Some text =>
      if truthy (VStr text)
      then
        let point := canvas_to_pdf e x y in
        set_modified true
          (emit [AddTextAnnot point text;
                 SetColors Created (current_color e) None;
                 SetOpacity Created (opacity e);
                 Update Created] e)
      else e
  | _, _ => e
  end.

(** Lines 977-1018. *)
Definition add_text_box (x y : Q) (text : option string) (font_size : option Z)
    (e : Editor) : Editor :=
  match current_pdf e, text with
  | Some _, Some text =>
      if truthy (VStr text)
      then
        let font_size := default 12%Z font_size in
        let point := canvas_to_pdf e x y in
        let width :=
          inject_Z (Z.of_nat (str_len text)) * inject_Z font_size * 0.6 + 20 in
        let height := inject_Z font_size + 10 in
        let rect :=
          mkRect (fst point) (snd point) (fst point + width) (snd point + height) in
        let fill_col := default (1, 1, 1) (chosen_fill e) in
        set_modified true
          (emit [AddFreetextAnnot rect text font_size (current_color e) fill_col;
                 SetOpacity Created (opacity e);
                 Update Created] e)
      else e
  | _, _ => e
  end.

Definition has_xref (x : nat) (annot : Annot) : bool := Nat.eqb (xref annot) x.

(** Lines 1020-1054. *)
Definition select_annotation_at (x y : Q) (annots : list Annot) (e : Editor)
  : Editor :=
  match current_pdf e with
  | None => e
  | Some _ =>
      let point := canvas_to_pdf e x y in
      match List.find (fun annot => rect_contains (rect annot) point) annots with
      | Some annot => set_selected_annot_xref (Some (xref annot)) e
      | None => set_selected_annot_xref None e
      end
  end.

(** Lines 1056-1067. *)
Definition check_click_on_selected (x y : Q) (annots : list Annot) (e : Editor)
  : bool :=
  match current_pdf e, selected_annot_xref e with
  | Some _, Some sel =>
      let point := canvas_to_pdf e x y in
      match List.find (has_xref sel) annots with
      | Some annot => rect_contains (rect annot) point
      | None => false
      end
  | _, _ => false
  end.

(** Lines 1069-1080. *)
Definition start_move_annotation (annots : list Annot) (e : Editor) : Editor :=
  match current_pdf e, selected_annot_xref e with
  | Some _, Some sel =>
      match List.find (has_xref sel) annots with
      | Some annot => set_moving_annot_rect (Some (rect annot)) e
      | None => e
      end
  | _, _ => e
  end.

(** Lines 758-779. *)
Definition on_mouse_press (ex ey : Q) (annots : list Annot)
    (text : option string) (font_size : option Z) (e : Editor) : Editor :=
  match current_pdf e with
  | None => e
  | Some _ =>
      let x := canvasx ex in
      let y := canvasy ey in
      let e := set_drag_start (Some (x, y)) e in
      match current_tool e with
      | tool_select =>
          if bool_decide (selected_annot_xref e <> None)
             && check_click_on_selected ex ey annots e
          then start_move_annotation annots (set_is_moving true e)
          else select_annotation_at ex ey annots e
      | tool_note => add_sticky_note ex ey text e
      | tool_text => add_text_box ex ey text font_size e
      | _ => e
      end
  end.

(** The calls of lines 1145-1161 on the annotation that is moved. *)
Definition move_calls (annot : Annot) (dx dy : Q) : list PdfCall :=
  let old_rect := rect annot in
  let new_rect :=
    mkRect (x0 old_rect + dx) (y0 old_rect + dy)
           (x1 old_rect + dx) (y1 old_rect + dy) in
  let target := Existing (xref annot) in
  (if Nat.eqb (annot_type annot) 3
   then match vertices annot with
        | Some (v0 :: v1 :: _) =>
            [SetVertices target [(fst v0 + dx, snd v0 + dy);
                                 (fst v1 + dx, snd v1 + dy)]]
        | _ => []
        end
   else [SetRect target new_rect])
  ++ [Update target].

(** Lines 1109-1168. [self.drag_start] is set whenever [on_mouse_release]
    gets here. *)
Definition finish_move_annotation (x y : Q) (annots : list Annot) (e : Editor)
  : Editor :=
  let e := set_move_preview None e in
  match moving_annot_rect e, selected_annot_xref e, drag_start e with
  | Some _, Some sel, Some (sx, sy) =>
      let zoom := zoom_level e * 1.5 in
      let dx := (x - sx) / zoom in
      let dy := (y - sy) / zoom in
      if Qltb (Qabs dx) 1 && Qltb (Qabs dy) 1
      then set_moving_annot_rect None e
      else
        let e :=
          match List.find (has_xref sel) annots with
          | Some annot => set_modified true (emit (move_calls annot dx dy) e)
          | None => e
          end in
        set_moving_annot_rect None e
  | _, _, _ => e
  end.

(** The tools that draw by dragging. *)
Definition draws_by_drag (t : Tool) : bool :=
  match t with
  | tool_line | tool_circle | tool_rect | tool_highlight | tool_redact => true
  | _ => false
  end.

(** Lines 795-836; [apply_now] answers the box [add_redaction] opens. *)
Definition on_mouse_release (ex ey : Q) (annots : list Annot) (apply_now : bool)
    (e : Editor) : Editor :=
  match current_pdf e, drag_start e with
  | Some _, Some (sx, sy) =>
      let x := canvasx ex in
      let y := canvasy ey in
      if bool_decide (current_tool e = tool_select) && is_moving e
      then
        set_drag_start None
          (set_is_moving false (finish_move_annotation x y annots e))
      else
        let min_size := 5 in
        if Qltb (Qabs (x - sx)) min_size && Qltb (Qabs (y - sy)) min_size
           && negb (bool_decide
                      (current_tool e ∈ [tool_select; tool_note; tool_text]))
        then set_drag_start None (set_temp_shape None e)
        else
          let e :=
            match current_tool e with
            | tool_line => draw_line_annot (sx, sy) (x, y) e
            | tool_circle => draw_circle_annot (sx, sy) (x, y) e
            | tool_rect => draw_rect_annot (sx, sy) (x, y) e
            | tool_highlight => add_highlight (sx, sy) (x, y) e
            | tool_redact => add_redaction (sx, sy) (x, y) apply_now e
            | _ => e
            end in
          set_drag_start None (set_temp_shape None e)
  | _, _ => e
  end.

(** Lines 1236-1255; [save_path] is the file dialog's answer, empty when
    the dialog is cancelled. *)
Definition save_pdf (save_path : string) (e : Editor) : Editor :=
  match current_pdf e with
  | None => show NothingToSave e
  | Some _ =>
      if truthy (VStr save_path)
      then
        match document_save save_path with
        | Ok _ => show (Saved save_path) (set_modified false (emit [Save save_path] e))
        | Raise ex => show (SaveFailed ex) e
        end
      else e
  end.

End Handlers.

End Editor.

Import Converter Editor.

(** ** Notions used to state the properties *)

(** A frame as [table_frame] leaves it: both provenance columns are
    there and there is a first row to read them from. *)
Definition tagged (df : DataFrame) : Prop :=
  VStr "_page" ∈ columns df /\ VStr "_table" ∈ columns df /\ rows df <> [].


(** Normalization as the specification words it: whatever the table,
    its data rows come out padded with empty strings to the length of
    its header, missing cells as empty strings. *)
Definition normalized_as_stated (table : RawTable) : Prop :=
  forall page_num table_idx, exists df,
    table_frame page_num table_idx table = Ok (Some df) /\
    let t := fillna (drop_provenance df) in
    rows t =
      map (fun row => pad_right (VStr "") (length (table_header table)) (map fill row))
          (table_data table) /\
    Forall (fun row => length row = length (table_header table)) (rows t).

(** The text fallback as the specification words it: one record for
    each page of the document. *)
Definition one_record_per_page (pages : list Page) : Prop :=
  text_data pages =
    map (fun '(page_num, page) => [VInt (page_num + 1); extract_text page])
        (enumerate pages).

(** What a batch leaves on disk and in the message queue, file after
    file, whatever the position of a file in the queue. *)
Fixpoint batch_effect (pdfplumber_open : string -> result (list Page))
    (writer_open : string -> result unit) (series_repr : list value -> string)
    (path_name : string -> string) (merge_tables : bool)
    (save_paths : list (string * string))
    (d : gmap string (list Sheet)) (q : list Dialog)
  : gmap string (list Sheet) * list Dialog :=
  match save_paths with
  | [] => (d, q)
  | (pdf_path, excel_path) :: rest =>
      match convert_single_file pdfplumber_open writer_open series_repr
              pdf_path excel_path merge_tables d with
      | Ok d' =>
          batch_effect pdfplumber_open writer_open series_repr path_name
            merge_tables rest d' q
      | Raise e =>
          batch_effect pdfplumber_open writer_open series_repr path_name
            merge_tables rest d (q ++ [ConversionFailed (path_name pdf_path) e])
      end
  end.

(** A document store with two readable files, for the examples. *)
Definition sample_open (path : string) : result (list Page) :=
  if String.eqb path "a.pdf" then Ok [mkPage [] (VStr "text of a")]
  else if String.eqb path "c.pdf" then Ok [mkPage [] (VStr "text of c")]
  else Raise (External "cannot open").

(** An editor with a document open at 100%, a press recorded at
    (100, 100) and nothing modified, for the examples. *)
Definition sample_editor (tool : Tool) : Editor :=
  mkEditor (Some "a.pdf") 0 1%Q tool (1, 0, 0)%Q None true 1%Q 2%Z
           (Some (100, 100)%Q) None None false None None false [] [].

(** The same editor in the middle of moving annotation 7. *)
Definition sample_moving : Editor :=
  mkEditor (Some "a.pdf") 0 1%Q tool_select (1, 0, 0)%Q None true 1%Q 2%Z
           (Some (100, 100)%Q) None (Some 7) true
           (Some (mkRect 10 10 50 40)%Q) None false [] [].

Definition sample_rect_annot : Annot :=
  mkAnnot 7 4 (mkRect 10 10 50 40)%Q None.

Definition sample_line_annot : Annot :=
  mkAnnot 7 3 (mkRect 10 10 50 40)%Q (Some [(10, 10)%Q; (50, 40)%Q]).

(** The call by which a drag tool creates its shape. *)
Definition creates (t : Tool) (c : PdfCall) : bool :=
  match t, c with
  | tool_line, AddLineAnnot _ _ => true
  | tool_circle, AddCircleAnnot _ => true
  | tool_rect, AddRectAnnot _ => true
  | tool_highlight, AddHighlightAnnot _ => true
  | tool_redact, AddRedactAnnot _ => true
  | _, _ => false
  end.

(** A rectangle moved by a vector. *)
Definition translate (r : Rect) (dx dy : Q) : Rect :=
  mkRect (x0 r + dx) (y0 r + dy) (x1 r + dx) (y1 r + dy).

(** ** More of the editor: zoom, navigation, continuous view, preview *)

Module Viewer.

Local Open Scope Q_scope.

Definition set_zoom_level (z : Q) (e : Editor) : Editor :=
  mkEditor (current_pdf e) (current_page e) z (current_tool e) (current_color
    e) (fill_color e) (no_fill_var e) (opacity e) (line_width e) (drag_start
    e) (temp_shape e) (selected_annot_xref e) (is_moving e) (moving_annot_rect
    e) (move_preview e) (modified e) (calls e) (messages e).

Definition set_current_page (n : nat) (e : Editor) : Editor :=
  mkEditor (current_pdf e) n (zoom_level e) (current_tool e) (current_color e)
    (fill_color e) (no_fill_var e) (opacity e) (line_width e) (drag_start e)
    (temp_shape e) (selected_annot_xref e) (is_moving e) (moving_annot_rect e)
    (move_preview e) (modified e) (calls e) (messages e).

(** Lines 1413-1416: [min(3.0, self.zoom_level + 0.1)]. *)
Definition zoom_in (e : Editor) : Editor :=
  let z := zoom_level e + 0.1 in
  set_zoom_level (if Qltb z 3 then z else 3) e.

(** Lines 1418-1421: [max(0.5, self.zoom_level - 0.1)]. *)
Definition zoom_out (e : Editor) : Editor :=
  let z := zoom_level e - 0.1 in
  set_zoom_level (if Qltb 0.5 z then z else 0.5) e.

(** Lines 483-487. *)
Definition reset_zoom (e : Editor) : Editor := set_zoom_level 1 e.

(** Lines 426-431; [zoom_percent] is the number read from the combobox
    text. *)
Definition on_zoom_combo_change (zoom_percent : Z) (e : Editor) : Editor :=
  set_zoom_level (inject_Z zoom_percent / 100) e.

(** The percentages the combobox offers (line 251). *)
Definition zoom_combo_values : list Z := [50; 75; 100; 125; 150; 200]%Z.

(** The editor with the page count of the open document, the view mode
    and the page offsets of the continuous view. *)
Record View : Type := mkView {
  editor : Editor;
  total_pages : nat;
  continuous : bool;           (* self.view_mode == "continuous" *)
  page_positions : list Z
}.

Definition with_editor (e : Editor) (v : View) : View :=
  mkView e (total_pages v) (continuous v) (page_positions v).

(** Lines 456-472. *)
Definition go_to_page (page : Z) (v : View) : View :=
  match current_pdf (editor v) with
  | None => v
  | Some _ =>
      if ((0 <=? page) && (page <? Z.of_nat (total_pages v)))%Z
      then
        with_editor
          (set_selected_annot_xref None
             (set_current_page (Z.to_nat page) (editor v))) v
      else v
  end.

(** Lines 474-476. *)
Definition go_to_first_page (v : View) : View := go_to_page 0 v.

(** Lines 478-481. *)
Definition go_to_last_page (v : View) : View :=
  match current_pdf (editor v) with
  | None => v
  | Some _ => go_to_page (Z.of_nat (total_pages v) - 1) v
  end.

(** Lines 443-450; [entry] is the number typed in the spinbox, [None]
    when it is not a number. *)
Definition on_page_spinbox_change (entry : option Z) (v : View) : View :=
  match entry with
  | None => v
  | Some n =>
      let page := (n - 1)%Z in
      if ((0 <=? page) && (page <? Z.of_nat (total_pages v))
          && negb (page =? Z.of_nat (current_page (editor v))))%Z
      then go_to_page page v
      else v
  end.

(** Lines 1383-1396. *)
Definition prev_page (v : View) : View :=
  match current_pdf (editor v) with
  | None => v
  | Some _ =>
      if (0 <? current_page (editor v))%nat
      then
        with_editor
          (set_selected_annot_xref None
             (set_current_page (current_page (editor v) - 1) (editor v))) v
      else v
  end.

(** Lines 1398-1411. *)
Definition next_page (v : View) : View :=
  match current_pdf (editor v) with
  | None => v
  | Some _ =>
      if (Z.of_nat (current_page (editor v)) <? Z.of_nat (total_pages v) - 1)%Z
      then
        with_editor
          (set_selected_annot_xref None
             (set_current_page (current_page (editor v) + 1) (editor v))) v
      else v
  end.

(** Lines 1358-1378: the offsets appended to [page_positions], page
    after page, [current_y] growing by the page's height and a gap of
    10. *)
Fixpoint positions_from (pix_height : nat -> Z) (current_y : Z)
    (pages : list nat) : list Z :=
  match pages with
  | [] => []
  | i :: rest =>
      current_y :: positions_from pix_height (current_y + pix_height i + 10)%Z rest
  end.

(** Lines 1343-1381; [pix_height i] is the height in pixels of page [i]
    as rendered at the current zoom. *)
Definition render_continuous (pix_height : nat -> Z) (v : View) : View :=
  match current_pdf (editor v) with
  | None => v
  | Some _ =>
      mkView (editor v) (total_pages v) (continuous v)
             (positions_from pix_height 0 (seq 0 (total_pages v)))
  end.

(** Lines 517-533: the page whose span holds [center_y], if any. *)
Fixpoint page_at (center_y : Q) (i : nat) (positions : list Z) : option nat :=
  match positions with
  | [] => None
  | pos :: rest =>
      match rest with
      | next :: _ =>
          if negb (Qltb center_y (inject_Z pos)) && Qltb center_y (inject_Z next)
          then Some i
          else page_at center_y (S i) rest
      | [] =>
          if negb (Qltb center_y (inject_Z pos)) then Some i else None
      end
  end.

(** Lines 506-533; [scroll_top] is [canvas.canvasy(0)] and
    [canvas_height] is [canvas.winfo_height()]. *)
Definition update_current_page_from_scroll (scroll_top : Q) (canvas_height : Z)
    (v : View) : View :=
  match page_positions v with
  | [] => v
  | _ =>
      let center_y := scroll_top + inject_Z canvas_height / 2 in
      match page_at center_y 0 (page_positions v) with
      | Some i => with_editor (set_current_page i (editor v)) v
      | None => v
      end
  end.

(** Lines 498-504. *)
Definition on_scroll_changed (scroll_top : Q) (canvas_height : Z) (v : View)
  : View :=
  match continuous v, current_pdf (editor v) with
  | true, Some _ => update_current_page_from_scroll scroll_top canvas_height v
  | _, _ => v
  end.

(** Lines 1082-1107: the preview rectangle drawn on the canvas, if a
    move is under way. [self.drag_start] is set whenever [on_mouse_drag]
    gets here. *)
Definition preview_move_annotation (x y : Q) (e : Editor) : option Rect :=
  match moving_annot_rect e, drag_start e with
  | Some r, Some (sx, sy) =>
      let dx := x - sx in
      let dy := y - sy in
      let zoom := zoom_level e * 1.5 in
      Some (mkRect (x0 r * zoom + dx) (y0 r * zoom + dy)
                   (x1 r * zoom + dx) (y1 r * zoom + dy))
  | _, _ => None
  end.

End Viewer.
Import Viewer.

(** The annotations of a page among which [point] falls in none. *)
Definition misses (rect_contains : Rect -> Point -> bool) (point : Point)
    (annots : list Annot) : Prop :=
  Forall (fun annot => rect_contains (rect annot) point = false) annots.

(** The tables of a document that have rows after row 0. *)
Definition tables_with_data (pages : list Page) : list RawTable :=
  List.filter (fun table => 1 <? length table) (flat_map extract_tables pages).

(** The tables of a document, each with the 0-based number of its page
    and its 0-based place among the tables of that page, in page order
    and then table order. *)
Definition indexed_tables (pages : list Page) : list (nat * nat * RawTable) :=
  flat_map
    (fun '(page_num, page) =>
       map (fun '(table_idx, table) => (page_num, table_idx, table))
           (enumerate (extract_tables page)))
    (enumerate pages).

(** A table has data when it has a row after row 0. *)
Definition has_data (item : nat * nat * RawTable) : bool :=
  1 <? length item.2.

(** The tables of a document that have data, numbered as above. *)
Definition data_tables (pages : list Page) : list (nat * nat * RawTable) :=
  List.filter has_data (indexed_tables pages).

(** The header of a table as the specification words it: row 0 as it
    stands when it has cells, and otherwise Col0..ColN-1 with N the
    length of row 1, or 1 without a row 1. *)
Definition stated_header (table : RawTable) : list value :=
  match table with
  | [] => []
  | row0 :: rest =>
      match row0, rest with
      | _ :: _, _ => row0
      | [], row1 :: _ => col_names (length row1)
      | [], [] => col_names 1
      end
  end.

(** The longest row after row 0 is as long as the header. *)
Definition header_fits (item : nat * nat * RawTable) : Prop :=
  max_len (tail item.2) = length (stated_header item.2).

(** No header cell is named _page or _table. *)
Definition header_free (item : nat * nat * RawTable) : Prop :=
  Forall (fun c => c ∉ provenance) (stated_header item.2).

(** The frame of a table as the specification words it: that header,
    the rows after row 0 as data, short rows filled with [None], and the
    1-based page and table numbers in the columns _page and _table. *)
Definition stated_frame (item : nat * nat * RawTable) : DataFrame :=
  let '(page_num, table_idx, table) := item in
  let header := stated_header table in
  mkDataFrame (header ++ [VStr "_page"; VStr "_table"])
    (map (fun row =>
            pad_right VNone (length header) row
            ++ [VInt (page_num + 1); VInt (table_idx + 1)])
         (tail table)).

(** Extraction as the specification words it: whatever the tables,
    [all_tables] holds that frame for each table with data, and nothing
    for the others. *)
Definition header_rules_as_stated (pages : list Page) : Prop :=
  extract_all_tables pages = Ok (map stated_frame (data_tables pages)).

(** The sheet of a table in separate mode as the specification words
    it: named Page{page}_Table{table}, cut to 31 characters, after the
    1-based numbers of the table, and holding the normalized table. *)
Definition stated_sheet (item : nat * nat * RawTable) : Sheet :=
  let '(page_num, table_idx, table) := item in
  let header := stated_header table in
  mkSheet
    (substring 0 31
       ("Page" +:+ str_of_nat (page_num + 1) +:+ "_Table" +:+ str_of_nat (table_idx + 1)))
    (Some header)
    (map (fun row => pad_right (VStr "") (length header) (map fill row))
         (tail table)).

(** Separate mode as the specification words it: whenever the tables
    with data can be normalized, the workbook holds that sheet for each
    of them, whatever the header cells are. *)
Definition separate_as_stated (series_repr : list value -> string)
    (pages : list Page) : Prop :=
  data_tables pages <> [] ->
  Forall header_fits (data_tables pages) ->
  forall pdf_path excel_path disk,
    convert_single_file (fun _ => Ok pages) (fun _ => Ok ()) series_repr
      pdf_path excel_path false disk
    = Ok (<[excel_path := map stated_sheet (data_tables pages)]> disk).

(** An editor shown in continuous view, three pages of 100, 200 and 50
    pixels, for the examples. *)
Definition sample_view : View :=
  render_continuous
    (fun i => match i with 0%nat => 100 | 1%nat => 200 | _ => 50 end)%Z
    (mkView (sample_editor tool_select) 3 true []).

(** ** Lists: padding, widths and masks *)

Lemma length_pad_right {A : Type} (x : A) (n : nat) (row : list A) :
  length (pad_right x n row) = Nat.max n (length row).
Proof. unfold pad_right. rewrite length_app, repeat_length. lia. Qed.


Lemma max_len_ge {A : Type} (rows : list (list A)) (row : list A) :
  row ∈ rows -> length row <= max_len rows.
Proof.
  induction rows as [|r rows IH]; intros Hin.
  - inversion Hin.
  - apply elem_of_cons in Hin as [->|Hin]; simpl; [lia|].
    specialize (IH Hin). lia.
Qed.



Lemma map_fill_pad_right (n : nat) (row : list value) :
  map fill (pad_right VNone n row) = pad_right (VStr "") n (map fill row).
Proof.
  unfold pad_right. rewrite map_app, length_map. f_equal.
  induction (n - length row) as [|k IH]; simpl; [done|]. by rewrite IH.
Qed.

Lemma map_fill_pad_blank (n : nat) (row : list value) :
  map fill (pad_right (VStr "") n row) = pad_right (VStr "") n (map fill row).
Proof.
  unfold pad_right. rewrite map_app, length_map. f_equal.
  induction (n - length row) as [|k IH]; simpl; [done|]. by rewrite IH.
Qed.

Lemma take_mask_app {A : Type} (m1 m2 : list bool) (r1 r2 : list A) :
  length m1 = length r1 ->
  take_mask (m1 ++ m2) (r1 ++ r2) = take_mask m1 r1 ++ take_mask m2 r2.
Proof.
  revert r1. induction m1 as [|b m1 IH]; intros [|x r1] Hlen; simpl in *; try lia.
  - done.
  - destruct b; simpl; rewrite IH by lia; done.
Qed.

Lemma take_mask_all {A : Type} (m : list bool) (r : list A) :
  Forall (fun b => b = true) m -> length m = length r -> take_mask m r = r.
Proof.
  revert r. induction m as [|b m IH]; intros [|x r] Hall Hlen; simpl in *; try lia.
  - done.
  - inversion Hall as [|? ? Hb Hall']; subst. rewrite IH by (done || lia). done.
Qed.

Lemma length_take_mask {A B : Type} (m : list bool) (r1 : list A) (r2 : list B) :
  length r1 = length r2 -> length (take_mask m r1) = length (take_mask m r2).
Proof.
  revert r1 r2. induction m as [|b m IH]; intros [|x r1] [|y r2] Hlen;
    simpl in *; try lia.
  destruct b; simpl; rewrite (IH r1 r2) by lia; done.
Qed.

(** ** Table extraction (lines 1511-1519) *)

Lemma length_col_names (n : nat) : length (col_names n) = n.
Proof. unfold col_names. by rewrite length_map, length_seq. Qed.

Lemma col_names_lookup (n i : nat) :
  i < n -> col_names n !! i = Some (VStr ("Col" +:+ str_of_nat i)).
Proof.
  intros Hi. unfold col_names. rewrite list_lookup_fmap.
  rewrite lookup_seq_lt by done. done.
Qed.

Lemma for_each_inv {A S : Type} (P : S -> Prop) (f : S -> A -> result S)
    (l : list A) :
  (forall s x s', P s -> f s x = Ok s' -> P s') ->
  forall s s', P s -> for_each f l s = Ok s' -> P s'.
Proof.
  intros Hstep. induction l as [|x l IH]; intros s s' Hs Hrun; simpl in Hrun.
  - by inversion Hrun; subst.
  - destruct (f s x) as [s1|e] eqn:Hf; simpl in Hrun; [|done].
    eapply IH; [|exact Hrun]. eapply Hstep; eauto.
Qed.

Lemma table_data_tail (row0 : list value) (rest : list (list value)) :
  table_data (row0 :: rest) = rest.
Proof. unfold table_data. destruct rest; reflexivity. Qed.

Lemma table_frame_rows (page_num table_idx : nat) (row0 row1 : list value)
    (rest : list (list value)) :
  table_frame page_num table_idx (row0 :: row1 :: rest) =
    df ← DataFrame_new (row1 :: rest) (table_header (row0 :: row1 :: rest));
    Ok (Some (setitem (setitem df (VStr "_page") (VInt (page_num + 1)))
                      (VStr "_table") (VInt (table_idx + 1)))).
Proof. reflexivity. Qed.

Example table_frame_spec_example :
  (df ← table_frame 0 0 [[VStr "A"; VStr "B"]; [VStr "1"; VStr "2"]; [VStr "3"]];
   Ok (fillna (drop_provenance (default (mkDataFrame [] []) df))))
  = Ok (mkDataFrame [VStr "A"; VStr "B"]
          [[VStr "1"; VStr "2"]; [VStr "3"; VStr ""]]).
Proof. reflexivity. Qed.

Example table_frame_synthetic_header :
  table_frame 2 0 [[]; [VStr "x"; VNone]]
  = Ok (Some (mkDataFrame [VStr "Col0"; VStr "Col1"; VStr "_page"; VStr "_table"]
                [[VStr "x"; VNone; VInt 3; VInt 1]])).
Proof. reflexivity. Qed.

(** ** Normalization (lines 1516-1519 and 1561-1562) *)

Lemma setitem_fresh (df : DataFrame) (label v : value) :
  label ∉ columns df ->
  setitem df label v =
    mkDataFrame (columns df ++ [label]) (map (fun row => row ++ [v]) (rows df)).
Proof. intros Hfresh. unfold setitem. by rewrite decide_False. Qed.

Lemma table_data_cons (table : RawTable) :
  list_truthy (table_data table) = true ->
  exists row0 row1 rest, table = row0 :: row1 :: rest.
Proof.
  destruct table as [|row0 [|row1 rest]]; try discriminate.
  intros _. by exists row0, row1, rest.
Qed.

Lemma keep_mask_header (header : list value) :
  Forall (fun c => c ∉ provenance) header ->
  Forall (fun b => b = true) (map (fun c => bool_decide (c ∉ provenance)) header).
Proof.
  intros Hall. induction Hall as [|c header Hc Hall IH]; simpl; constructor; [|done].
  by apply bool_decide_eq_true.
Qed.

(** Dropping the provenance columns of a frame whose header has none of
    its own gives back the header and the rows. *)
Lemma drop_provenance_tagged (header : list value) (data : list (list value))
    (p t : value) :
  Forall (fun c => c ∉ provenance) header ->
  Forall (fun row => length row = length header) data ->
  drop_provenance
    (mkDataFrame ((header ++ [VStr "_page"]) ++ [VStr "_table"])
       (map (fun row => row ++ [t]) (map (fun row => row ++ [p]) data)))
  = mkDataFrame header data.
Proof.
  intros Hhdr Hrect. unfold drop_provenance, drop_labels. simpl.
  pose proof (keep_mask_header header Hhdr) as Hmask.
  rewrite <- app_assoc, map_app. simpl.
  f_equal.
  - rewrite take_mask_app by (by rewrite length_map).
    rewrite take_mask_all by (done || by rewrite length_map).
    simpl. apply app_nil_r.
  - rewrite map_map, map_map.
    rewrite <- (map_id data) at 2. apply map_ext_Forall.
    eapply Forall_impl; [exact Hrect|]. intros row Hlen. simpl.
    rewrite <- app_assoc. rewrite take_mask_app by (by rewrite length_map).
    rewrite take_mask_all by (done || by rewrite length_map).
    simpl. apply app_nil_r.
Qed.

(** C2, as the code has it. A table with at least one data row, whose
    longest data row is exactly as long as its header and whose header
    has no cell named _page or _table, is normalized to a rectangular
    table under that header: each shorter data row is padded on the
    right with empty strings to the header's length, and each missing
    cell is the empty string. *)
Theorem table_frame_normalizes (page_num table_idx : nat) (table : RawTable) :
  list_truthy (table_data table) = true ->
  max_len (table_data table) = length (table_header table) ->
  Forall (fun c => c ∉ provenance) (table_header table) ->
  exists df,
    table_frame page_num table_idx table = Ok (Some df) /\
    let t := fillna (drop_provenance df) in
    columns t = table_header table /\
    rows t =
      map (fun row => pad_right (VStr "") (length (table_header table)) (map fill row))
          (table_data table) /\
    rectangular t /\
    Forall (Forall (fun v => v <> VNone)) (rows t).
Proof.
  intros Hdata Hwidth Hhdr.
  destruct (table_data_cons table Hdata) as (row0 & row1 & rest & ->).
  pose proof (table_frame_rows page_num table_idx) as Hframe.
  rewrite table_data_tail in Hwidth |- *.
  remember (table_header (row0 :: row1 :: rest)) as header eqn:Hh.
  remember (length header) as k eqn:Hk.
  assert (Hnew : DataFrame_new (row1 :: rest) header
                 = Ok (mkDataFrame header (map (pad_right VNone k) (row1 :: rest)))).
  { unfold DataFrame_new. rewrite Hwidth. rewrite decide_True by lia. done. }
  assert (Hrect : Forall (fun row => length row = length header)
                    (map (pad_right VNone k) (row1 :: rest))).
  { apply Forall_forall. intros row Hin.
    apply list_elem_of_fmap in Hin as (row' & -> & Hin').
    rewrite length_pad_right. apply max_len_ge in Hin'. lia. }
  assert (Hp : VStr "_page" ∉ header).
  { intros Hin. eapply Forall_forall in Hhdr; [|exact Hin].
    apply Hhdr. unfold provenance. set_solver. }
  assert (Ht : VStr "_table" ∉ header ++ [VStr "_page"]).
  { intros Hin. apply elem_of_app in Hin as [Hin|Hin].
    - eapply Forall_forall in Hhdr; [|exact Hin].
      apply Hhdr. unfold provenance. set_solver.
    - apply list_elem_of_singleton in Hin. discriminate. }
  eexists. split.
  { rewrite Hframe, <- Hh, Hnew. simpl.
    rewrite (setitem_fresh _ (VStr "_page")) by done.
    rewrite setitem_fresh by done. reflexivity. }
  cbv zeta. cbn [columns rows].
  rewrite drop_provenance_tagged by done.
  cbn [fillna columns rows].
  change (pad_right VNone k row1 :: map (pad_right VNone k) rest)
    with (map (pad_right VNone k) (row1 :: rest)) in *.
  repeat split.
  - rewrite map_map. apply map_ext. intros row. apply map_fill_pad_right.
  - unfold rectangular. cbn [fillna columns rows].
    apply Forall_forall. intros row Hin.
    apply list_elem_of_fmap in Hin as (row' & -> & Hin').
    rewrite length_map. eapply Forall_forall in Hrect; eauto.
  - apply Forall_forall. intros row Hin.
    apply list_elem_of_fmap in Hin as (row' & -> & _).
    apply Forall_forall. intros v Hv.
    apply list_elem_of_fmap in Hv as (v' & -> & _). by destruct v'.
Qed.

Lemma table_frame_normalizes_witness :
  exists df,
    table_frame 0 0 [[VStr "A"; VStr "B"]; [VStr "1"; VStr "2"]; [VNone]]
      = Ok (Some df) /\
    rows (fillna (drop_provenance df)) = [[VStr "1"; VStr "2"]; [VStr ""; VStr ""]].
Proof.
  destruct (table_frame_normalizes 0 0
              [[VStr "A"; VStr "B"]; [VStr "1"; VStr "2"]; [VNone]])
    as (df & Hdf & _ & Hrows & _).
  - reflexivity.
  - reflexivity.
  - apply (bool_decide_unpack _). vm_compute. exact I.
  - exists df. split; [exact Hdf|exact Hrows].
Defined.

(** C2 as stated fails on the code: when no data row is as long as the
    header, the frame constructor raises and no table is produced; and a
    header cell named _page is overwritten and dropped with its column. *)
Lemma normalized_as_stated_fails :
  list_truthy (table_data [[VStr "A"; VStr "B"]; [VStr "1"]]) = true
  /\ table_frame 0 0 [[VStr "A"; VStr "B"]; [VStr "1"]] = Raise (ValueError 2 1)
  /\ ~ normalized_as_stated [[VStr "A"; VStr "B"]; [VStr "1"]]
  /\ ~ normalized_as_stated [[VStr "_page"; VStr "B"]; [VStr "1"; VStr "2"]].
Proof.
  repeat split.
  - intros H. destruct (H 0 0) as (df & Hdf & _). discriminate.
  - intros H. destruct (H 0 0) as (df & Hdf & Hrows & _).
    vm_compute in Hdf. inversion Hdf; subst. vm_compute in Hrows. discriminate.
Qed.

(** ** The merged sheet (lines 1541-1556) *)

Lemma drop_labels_rectangular (labels : list value) (df : DataFrame) :
  rectangular df -> rectangular (drop_labels labels df).
Proof.
  unfold rectangular, drop_labels. cbn [columns rows]. intros Hrect.
  apply Forall_forall. intros row Hin.
  apply list_elem_of_fmap in Hin as (row' & -> & Hin').
  eapply Forall_forall in Hrect; [|exact Hin'].
  by apply length_take_mask.
Qed.










(** ** The text fallback (lines 1521-1537) *)

Lemma text_data_filter_from (i : nat) (pages : list Page) :
  flat_map
    (fun '(page_num, page) =>
       let text := extract_text page in
       if truthy text then [[VInt (page_num + 1); text]] else [])
    (enumerate_from i pages)
  = map (fun ip => [VInt (fst ip + 1); extract_text (snd ip)])
        (List.filter (fun ip => truthy (extract_text (snd ip))) (enumerate_from i pages)).
Proof.
  revert i. induction pages as [|page pages IH]; intros i; [done|].
  cbn [enumerate_from flat_map List.filter]. rewrite IH. cbn [snd fst].
  by destruct (truthy (extract_text page)).
Qed.

(** C4, as the code has it. When table extraction over the whole
    document leaves no frame, the text of each page is extracted; each
    page whose text is non-empty gives one record (Page, Content), Page
    being its 1-based number, and the records are written in page order
    as the single sheet "Text Content" under the header Page, Content.
    When no page has text the conversion raises the no-content error and
    returns no disk: nothing is written. *)
Theorem fallback_text_sheet (pdfplumber_open : string -> result (list Page))
    (writer_open : string -> result unit) (series_repr : list value -> string)
    (pdf_path excel_path : string) (merge_tables : bool)
    (disk : gmap string (list Sheet)) (pages : list Page) :
  pdfplumber_open pdf_path = Ok pages ->
  extract_all_tables pages = Ok [] ->
  let records :=
    map (fun ip => [VInt (fst ip + 1); extract_text (snd ip)])
        (List.filter (fun ip => truthy (extract_text (snd ip))) (enumerate pages)) in
  let outcome :=
    convert_single_file pdfplumber_open writer_open series_repr
      pdf_path excel_path merge_tables disk in
  (records <> [] ->
   forall u, writer_open excel_path = Ok u ->
   outcome =
     Ok (<[excel_path :=
             [mkSheet "Text Content" (Some [VStr "Page"; VStr "Content"]) records]]>
           disk))
  /\ (records = [] -> outcome = Raise NoContent).
Proof.
  intros Hopen Hnone records outcome.
  assert (Hrec : text_data pages = records) by apply text_data_filter_from.
  unfold outcome, convert_single_file.
  rewrite Hopen. cbn [mbind result_bind]. rewrite Hnone. cbn [mbind result_bind].
  cbn [list_truthy length Nat.eqb negb mbind result_bind].
  rewrite Hrec. split.
  - intros Hne u Hw. destruct records as [|r rs] eqn:Hr; [done|].
    cbn [list_truthy length Nat.eqb negb]. rewrite Hw. reflexivity.
  - intros ->. reflexivity.
Qed.

Lemma fallback_text_sheet_witness :
  convert_single_file
    (fun _ => Ok [mkPage [] (VStr ""); mkPage [[]] (VStr "hello")])
    (fun _ => Ok ()) (fun _ => "") "in.pdf" "out.xlsx" false ∅
  = Ok (<["out.xlsx" :=
            [mkSheet "Text Content" (Some [VStr "Page"; VStr "Content"])
               [[VInt 2; VStr "hello"]]]]> ∅).
Proof.
  refine (proj1 (fallback_text_sheet
                   (fun _ => Ok [mkPage [] (VStr ""); mkPage [[]] (VStr "hello")])
                   (fun _ => Ok ()) (fun _ => "") "in.pdf" "out.xlsx" false ∅
                   [mkPage [] (VStr ""); mkPage [[]] (VStr "hello")] _ _) _ () _).
  - reflexivity.
  - reflexivity.
  - discriminate.
  - reflexivity.
Defined.

(** C4 as stated fails on the code: a page whose text is empty gets no
    record, so a two-page document can give a single record. *)
Lemma one_record_per_page_fails :
  extract_all_tables [mkPage [] (VStr ""); mkPage [] (VStr "hello")] = Ok []
  /\ text_data [mkPage [] (VStr ""); mkPage [] (VStr "hello")]
     = [[VInt 2; VStr "hello"]]
  /\ ~ one_record_per_page [mkPage [] (VStr ""); mkPage [] (VStr "hello")].
Proof.
  repeat split. intros H. vm_compute in H. discriminate.
Qed.

(** ** Separate sheets (lines 1558-1564) *)

Lemma length_substring_le (n : nat) (s : string) :
  String.length (substring 0 n s) <= n.
Proof.
  revert s. induction n as [|n IH]; intros [|c s]; simpl; try lia.
  specialize (IH s). lia.
Qed.

Lemma make_sheet_name_bounds (series_repr : list value -> string)
    (page table : list value) :
  1 <= String.length (make_sheet_name series_repr page table) <= 31.
Proof.
  split; [|apply length_substring_le].
  unfold make_sheet_name. simpl. lia.
Qed.

Lemma for_each_cons {A S : Type} (f : S -> A -> result S) (x : A) (l : list A)
    (s : S) :
  for_each f (x :: l) s = f s x ≫= for_each f l.
Proof. reflexivity. Qed.

Lemma separate_step_ok (series_repr : list value -> string) (acc : list Sheet)
    (i : nat) (df : DataFrame) (page table : list value) :
  getitem_iloc0 df (VStr "_page") = Ok page ->
  getitem_iloc0 df (VStr "_table") = Ok table ->
  separate_step series_repr acc (i, df)
  = Ok (acc ++ [to_excel (fillna (drop_provenance df))
                  (make_sheet_name series_repr page table) true]).
Proof. intros Hp Ht. unfold separate_step. rewrite Hp, Ht. reflexivity. Qed.

Lemma separate_sheets_from (series_repr : list value -> string) (i : nat)
    (all_tables : list DataFrame) (acc : list Sheet) :
  Forall tagged all_tables ->
  exists sheets,
    for_each (separate_step series_repr) (enumerate_from i all_tables) acc
    = Ok (acc ++ sheets)
    /\ Forall2
         (fun df sheet =>
            exists page table,
              getitem_iloc0 df (VStr "_page") = Ok page /\
              getitem_iloc0 df (VStr "_table") = Ok table /\
              sheet =
                mkSheet (make_sheet_name series_repr page table)
                  (Some (columns (drop_provenance df)))
                  (map (map fill) (rows (drop_provenance df))))
         all_tables sheets.
Proof.
  intros Hall. revert i acc.
  induction Hall as [|df tables (Hp & Ht & Hrows) Hall IH]; intros i acc.
  - exists []. split; [by rewrite app_nil_r|constructor].
  - change (enumerate_from i (df :: tables))
      with ((i, df) :: enumerate_from (S i) tables).
    rewrite for_each_cons.
    assert (Hpage : exists page, getitem_iloc0 df (VStr "_page") = Ok page).
    { unfold getitem_iloc0. rewrite decide_True by done.
      destruct (rows df); [done|eauto]. }
    assert (Htable : exists table, getitem_iloc0 df (VStr "_table") = Ok table).
    { unfold getitem_iloc0. rewrite decide_True by done.
      destruct (rows df); [done|eauto]. }
    destruct Hpage as [page Hpage], Htable as [table Htable].
    rewrite (separate_step_ok _ _ _ _ _ _ Hpage Htable). cbn [mbind result_bind].
    destruct (IH (S i)
                (acc ++ [to_excel (fillna (drop_provenance df))
                           (make_sheet_name series_repr page table) true]))
      as (sheets & Hrun & Hrel).
    eexists (_ :: sheets). split.
    + rewrite Hrun. by rewrite <- app_assoc.
    + constructor; [|exact Hrel]. by exists page, table.
Qed.

Example separate_sheets_example :
  separate_sheets (fun _ => "")
    [mkDataFrame [VStr "A"; VStr "_page"; VStr "_table"] [[VNone; VInt 3; VInt 12]]]
  = Ok [mkSheet "Page3_Table12" (Some [VStr "A"]) [[VStr ""]]].
Proof. reflexivity. Qed.

Example sheet_name_truncated :
  make_sheet_name (fun _ => "_page 1 _page 1 Name: 0, dtype: int64")
    [VInt 1; VInt 1] [VInt 2]
  = "Page_page 1 _page 1 Name: 0, dt".
Proof. reflexivity. Qed.

(** The frames that extraction collects are tagged. *)

Lemma setitem_label (df : DataFrame) (label v : value) :
  label ∈ columns (setitem df label v).
Proof.
  unfold setitem. destruct (decide (label ∈ columns df)); cbn [columns]; [done|].
  apply elem_of_app. right. by apply list_elem_of_singleton.
Qed.

Lemma setitem_keeps (df : DataFrame) (label v c : value) :
  c ∈ columns df -> c ∈ columns (setitem df label v).
Proof.
  intros Hc. unfold setitem. destruct (decide (label ∈ columns df)); cbn [columns]; [done|].
  apply elem_of_app. by left.
Qed.

Lemma setitem_rows (df : DataFrame) (label v : value) :
  rows df <> [] -> rows (setitem df label v) <> [].
Proof.
  unfold setitem. destruct (decide (label ∈ columns df)); cbn [rows];
    destruct (rows df); done.
Qed.

Lemma DataFrame_new_rows (data : list (list value)) (header : list value)
    (df : DataFrame) :
  data <> [] -> DataFrame_new data header = Ok df -> rows df <> [].
Proof.
  unfold DataFrame_new. destruct data as [|r rs]; [done|]. intros _.
  destruct (decide _); [|done]. intros [= <-]. done.
Qed.

Lemma table_frame_tagged (page_num table_idx : nat) (table : RawTable)
    (df : DataFrame) :
  table_frame page_num table_idx table = Ok (Some df) -> tagged df.
Proof.
  unfold table_frame.
  destruct (list_truthy table && (0 <? length table)); [|done].
  destruct (list_truthy (table_data table)) eqn:Hdata; [|done].
  destruct (DataFrame_new _ _) as [df0|e] eqn:Hnew; [|done].
  cbn [mbind result_bind]. intros [= <-].
  assert (Hne : table_data table <> []) by (by destruct (table_data table)).
  pose proof (DataFrame_new_rows _ _ _ Hne Hnew) as Hrows.
  repeat split.
  - apply setitem_keeps, setitem_label.
  - apply setitem_label.
  - by do 2 apply setitem_rows.
Qed.

Lemma extract_all_tables_tagged (pages : list Page) (all_tables : list DataFrame) :
  extract_all_tables pages = Ok all_tables -> Forall tagged all_tables.
Proof.
  unfold extract_all_tables.
  apply (for_each_inv (Forall tagged)); [|constructor].
  intros acc [page_num page] acc' Hacc. unfold collect_page.
  apply (for_each_inv (Forall tagged)); [|done].
  clear. intros acc [table_idx table] acc' Hacc. unfold collect_table.
  destruct (table_frame page_num table_idx table) as [[df|]|e] eqn:Hframe;
    cbn [mbind result_bind]; intros [= <-]; [|done].
  apply Forall_app. split; [done|]. constructor; [|done].
  by eapply table_frame_tagged.
Qed.

Lemma take_mask_none {A : Type} (m : list bool) (r : list A) :
  Forall (fun b => b = false) m -> take_mask m r = [].
Proof.
  revert r. induction m as [|b m IH]; intros [|x r] Hall; simpl; try done.
  inversion Hall as [|? ? Hb Hall']; subst. by apply IH.
Qed.

Lemma label_mask_header (label : value) (header : list value) :
  label ∉ header ->
  Forall (fun b => b = false) (map (fun c => bool_decide (c = label)) header).
Proof.
  intros Hnot. apply Forall_forall. intros b Hin.
  apply list_elem_of_fmap in Hin as (c & -> & Hc).
  apply bool_decide_eq_false. intros ->. done.
Qed.

(** The frame of a table reads back its own 1-based page and table
    numbers, one cell each, when its header has no provenance label. *)
Lemma table_frame_provenance (page_num table_idx : nat) (table : RawTable)
    (df : DataFrame) :
  Forall (fun c => c ∉ provenance) (table_header table) ->
  table_frame page_num table_idx table = Ok (Some df) ->
  getitem_iloc0 df (VStr "_page") = Ok [VInt (page_num + 1)]
  /\ getitem_iloc0 df (VStr "_table") = Ok [VInt (table_idx + 1)].
Proof.
  intros Hhdr. unfold table_frame.
  destruct (list_truthy table && (0 <? length table)); [|done].
  destruct (list_truthy (table_data table)) eqn:Hdata; [|done].
  set (header := table_header table) in *.
  destruct (table_data table) as [|row1 rest] eqn:Hd; [done|].
  unfold DataFrame_new.
  destruct (decide (length header = max_len (row1 :: rest))) as [Hlen|]; [|done].
  cbn [mbind result_bind]. intros [= <-].
  assert (Hp : VStr "_page" ∉ header).
  { intros Hin. eapply Forall_forall in Hhdr; [|exact Hin].
    apply Hhdr. unfold provenance. set_solver. }
  assert (Ht : VStr "_table" ∉ header).
  { intros Hin. eapply Forall_forall in Hhdr; [|exact Hin].
    apply Hhdr. unfold provenance. set_solver. }
  assert (Ht' : VStr "_table" ∉ header ++ [VStr "_page"]).
  { intros Hin. apply elem_of_app in Hin as [Hin|Hin]; [done|].
    apply list_elem_of_singleton in Hin. discriminate. }
  rewrite (setitem_fresh _ (VStr "_page")) by done.
  rewrite setitem_fresh by done. cbn [columns rows map].
  set (k := max_len (row1 :: rest)) in *.
  assert (Hrow : length (pad_right VNone k row1) = length header).
  { rewrite length_pad_right. assert (length row1 <= k) by (apply max_len_ge; left).
    lia. }
  unfold getitem_iloc0. cbn [columns rows].
  rewrite !decide_True by set_solver.
  rewrite <- !app_assoc. cbn [app]. rewrite !map_app.
  rewrite !take_mask_app by (by rewrite length_map).
  split; rewrite take_mask_none by (by apply label_mask_header); reflexivity.
Qed.

(** With at least one frame collected, the workbook holds the merged
    sheet alone, or the separate sheets. *)
Lemma convert_single_file_tables (pdfplumber_open : string -> result (list Page))
    (writer_open : string -> result unit) (series_repr : list value -> string)
    (pdf_path excel_path : string) (merge_tables : bool)
    (disk : gmap string (list Sheet)) (pages : list Page)
    (all_tables : list DataFrame) (u : unit) :
  pdfplumber_open pdf_path = Ok pages ->
  extract_all_tables pages = Ok all_tables ->
  all_tables <> [] ->
  writer_open excel_path = Ok u ->
  exists sheets,
    convert_single_file pdfplumber_open writer_open series_repr
      pdf_path excel_path merge_tables disk
    = Ok (<[excel_path := sheets]> disk)
    /\ (merge_tables = true -> sheets = [merged_sheet all_tables])
    /\ (merge_tables = false -> separate_sheets series_repr all_tables = Ok sheets).
Proof.
  intros Hopen Hextract Hne Hw. unfold convert_single_file.
  rewrite Hopen. cbn [mbind result_bind]. rewrite Hextract. cbn [mbind result_bind].
  destruct all_tables as [|df tables]; [done|].
  cbn [list_truthy length Nat.eqb negb]. rewrite Hw. cbn [mbind result_bind].
  destruct merge_tables.
  - eexists. split; [reflexivity|]. split; [done|discriminate].
  - pose proof (extract_all_tables_tagged _ _ Hextract) as Htagged.
    destruct (separate_sheets_from series_repr 0 (df :: tables) [] Htagged)
      as (sheets & Hrun & _).
    unfold separate_sheets, enumerate. rewrite Hrun. cbn [mbind result_bind app].
    exists sheets. split; [reflexivity|]. split; [discriminate|done].
Qed.

(** ** Extraction and separate sheets, table by table *)

Lemma collect_table_eq (page_num table_idx : nat) (table : RawTable)
    (acc : list DataFrame) :
  collect_table page_num acc (table_idx, table) =
    o ← table_frame page_num table_idx table;
    match o with
    | Some df => Ok (acc ++ [df])
    | None => Ok acc
    end.
Proof. reflexivity. Qed.

Lemma collect_page_eq (page_num : nat) (page : Page) (acc : list DataFrame) :
  collect_page acc (page_num, page) =
    for_each (collect_table page_num) (enumerate (extract_tables page)) acc.
Proof. reflexivity. Qed.

Lemma table_header_stated (table : RawTable) :
  table <> [] -> table_header table = stated_header table.
Proof. destruct table as [|[|c row0] [|row1 rest]]; done. Qed.

Lemma has_data_cons (page_num table_idx : nat) (table : RawTable) :
  has_data (page_num, table_idx, table) = true ->
  exists row0 row1 rest, table = row0 :: row1 :: rest.
Proof.
  unfold has_data. cbn [snd].
  destruct table as [|row0 [|row1 rest]]; try discriminate.
  intros _. by exists row0, row1, rest.
Qed.

Lemma table_frame_no_data (page_num table_idx : nat) (table : RawTable) :
  has_data (page_num, table_idx, table) = false ->
  table_frame page_num table_idx table = Ok None.
Proof.
  unfold has_data. cbn [snd].
  destruct table as [|row0 [|row1 rest]]; try discriminate; reflexivity.
Qed.

Lemma table_frame_stated (page_num table_idx : nat) (table : RawTable) :
  has_data (page_num, table_idx, table) = true ->
  header_fits (page_num, table_idx, table) ->
  header_free (page_num, table_idx, table) ->
  table_frame page_num table_idx table
  = Ok (Some (stated_frame (page_num, table_idx, table))).
Proof.
  intros Hdata Hfits Hfree.
  destruct (has_data_cons _ _ _ Hdata) as (row0 & row1 & rest & ->).
  unfold header_fits, header_free in *. cbn [snd tail] in *.
  rewrite table_frame_rows, table_header_stated by done.
  unfold stated_frame. cbn [tail].
  set (header := stated_header (row0 :: row1 :: rest)) in *.
  unfold DataFrame_new. rewrite Hfits, decide_True by done.
  cbn [mbind result_bind].
  assert (Hp : VStr "_page" ∉ header).
  { intros Hin. eapply Forall_forall in Hfree; [|exact Hin].
    apply Hfree. unfold provenance. set_solver. }
  assert (Ht : VStr "_table" ∉ header ++ [VStr "_page"]).
  { intros Hin. apply elem_of_app in Hin as [Hin|Hin].
    - eapply Forall_forall in Hfree; [|exact Hin].
      apply Hfree. unfold provenance. set_solver.
    - apply list_elem_of_singleton in Hin. discriminate. }
  rewrite (setitem_fresh _ (VStr "_page")) by done.
  rewrite setitem_fresh by done. cbn [columns rows].
  do 2 f_equal. f_equal.
  - by rewrite <- app_assoc.
  - rewrite !map_map. apply map_ext. intros row. by rewrite <- app_assoc.
Qed.

Lemma table_frame_misfit (page_num table_idx : nat) (table : RawTable) :
  has_data (page_num, table_idx, table) = true ->
  ~ header_fits (page_num, table_idx, table) ->
  table_frame page_num table_idx table
  = Raise (ValueError (length (stated_header table)) (max_len (tail table))).
Proof.
  intros Hdata Hfits.
  destruct (has_data_cons _ _ _ Hdata) as (row0 & row1 & rest & ->).
  unfold header_fits in *. cbn [snd tail] in *.
  rewrite table_frame_rows, table_header_stated by done.
  unfold DataFrame_new. rewrite decide_False by (intros H; by apply Hfits).
  reflexivity.
Qed.


Lemma collect_tables_stated (page_num k : nat) (tables : list RawTable)
    (acc : list DataFrame) :
  let items :=
    List.filter has_data
      (map (fun '(table_idx, table) => (page_num, table_idx, table))
           (enumerate_from k tables)) in
  Forall header_fits items -> Forall header_free items ->
  for_each (collect_table page_num) (enumerate_from k tables) acc
  = Ok (acc ++ map stated_frame items).
Proof.
  revert k acc. induction tables as [|table tables IH]; intros k acc items.
  - intros _ _. cbn. by rewrite app_nil_r.
  - subst items. cbn [enumerate_from map List.filter].
    rewrite for_each_cons, collect_table_eq.
    destruct (has_data (page_num, k, table)) eqn:Hdata.
    + intros Hfits Hfree.
      apply Forall_cons in Hfits as [Hfit Hfits].
      apply Forall_cons in Hfree as [Hfr Hfree].
      rewrite table_frame_stated by done. cbn [mbind result_bind].
      rewrite IH by done. cbn [map]. by rewrite <- app_assoc.
    + intros Hfits Hfree.
      rewrite table_frame_no_data by done. cbn [mbind result_bind].
      by apply IH.
Qed.

Lemma collect_pages_stated (k : nat) (pages : list Page) (acc : list DataFrame) :
  let items :=
    List.filter has_data
      (flat_map
         (fun '(page_num, page) =>
            map (fun '(table_idx, table) => (page_num, table_idx, table))
                (enumerate (extract_tables page)))
         (enumerate_from k pages)) in
  Forall header_fits items -> Forall header_free items ->
  for_each collect_page (enumerate_from k pages) acc
  = Ok (acc ++ map stated_frame items).
Proof.
  revert k acc. induction pages as [|page pages IH]; intros k acc items.
  - intros _ _. cbn. by rewrite app_nil_r.
  - subst items. cbn [enumerate_from flat_map].
    rewrite List.filter_app, for_each_cons, collect_page_eq.
    intros Hfits Hfree.
    apply Forall_app in Hfits as [Hfits1 Hfits2].
    apply Forall_app in Hfree as [Hfree1 Hfree2].
    unfold enumerate. rewrite collect_tables_stated by done.
    cbn [mbind result_bind]. rewrite IH by done.
    by rewrite map_app, app_assoc.
Qed.

Lemma extract_all_tables_stated (pages : list Page) :
  Forall header_fits (data_tables pages) ->
  Forall header_free (data_tables pages) ->
  extract_all_tables pages = Ok (map stated_frame (data_tables pages)).
Proof.
  intros Hfits Hfree. unfold extract_all_tables, enumerate.
  by rewrite collect_pages_stated.
Qed.

Lemma data_tables_have_data (pages : list Page) :
  Forall (fun item => has_data item = true) (data_tables pages).
Proof.
  apply Forall_forall. intros item Hin.
  apply list_elem_of_In in Hin. unfold data_tables in Hin.
  by apply filter_In in Hin as [_ Hdata].
Qed.

Lemma stated_frame_drop (item : nat * nat * RawTable) :
  header_fits item -> header_free item ->
  drop_provenance (stated_frame item)
  = mkDataFrame (stated_header item.2)
      (map (pad_right VNone (length (stated_header item.2))) (tail item.2)).
Proof.
  destruct item as [[page_num table_idx] table].
  unfold header_fits, header_free, stated_frame. cbn [snd].
  intros Hfits Hfree.
  set (header := stated_header table) in *.
  rewrite <- (drop_provenance_tagged header
                (map (pad_right VNone (length header)) (tail table))
                (VInt (page_num + 1)) (VInt (table_idx + 1))); [| done |].
  - f_equal. f_equal.
    + by rewrite <- app_assoc.
    + rewrite !map_map. apply map_ext. intros row. by rewrite <- app_assoc.
  - apply Forall_forall. intros row Hin.
    apply list_elem_of_fmap in Hin as (row' & -> & Hin').
    rewrite length_pad_right. apply max_len_ge in Hin'. lia.
Qed.

Lemma separate_step_stated (series_repr : list value -> string)
    (acc : list Sheet) (i : nat) (item : nat * nat * RawTable) :
  has_data item = true -> header_fits item -> header_free item ->
  separate_step series_repr acc (i, stated_frame item)
  = Ok (acc ++ [stated_sheet item]).
Proof.
  intros Hdata Hfits Hfree.
  pose proof (stated_frame_drop item Hfits Hfree) as Hdrop.
  destruct item as [[page_num table_idx] table].
  destruct (has_data_cons _ _ _ Hdata) as (row0 & row1 & rest & Htable).
  assert (Hne : table <> []) by (by rewrite Htable).
  destruct (table_frame_provenance page_num table_idx table
              (stated_frame (page_num, table_idx, table))) as [Hp Ht].
  - rewrite table_header_stated by done. exact Hfree.
  - by apply table_frame_stated.
  - rewrite (separate_step_ok _ _ _ _ _ _ Hp Ht), Hdrop.
    cbn [snd]. unfold to_excel, fillna, stated_sheet. cbn [columns rows].
    rewrite map_map.
    rewrite (map_ext _ (fun row => pad_right (VStr "") (length (stated_header table)) (map fill row)))
      by (intros row; apply map_fill_pad_right).
    reflexivity.
Qed.

Lemma separate_sheets_name_bounds (series_repr : list value -> string)
    (all_tables : list DataFrame) (sheets : list Sheet) :
  separate_sheets series_repr all_tables = Ok sheets ->
  Forall (fun sheet => 1 <= String.length (sheet_name sheet) <= 31) sheets.
Proof.
  unfold separate_sheets.
  apply (for_each_inv
           (Forall (fun sheet => 1 <= String.length (sheet_name sheet) <= 31)));
    [|constructor].
  intros acc [i df] acc' Hacc. unfold separate_step.
  destruct (getitem_iloc0 df (VStr "_page")) as [page|]; cbn [mbind result_bind]; [|done].
  destruct (getitem_iloc0 df (VStr "_table")) as [table|]; cbn [mbind result_bind]; [|done].
  intros [= <-]. apply Forall_app. split; [done|].
  constructor; [|done]. apply make_sheet_name_bounds.
Qed.

Lemma table_frame_fits (page_num table_idx : nat) (table : RawTable) :
  has_data (page_num, table_idx, table) = true ->
  header_fits (page_num, table_idx, table) ->
  exists df,
    table_frame page_num table_idx table = Ok (Some df)
    /\ tagged df
    /\ (header_free (page_num, table_idx, table) ->
        df = stated_frame (page_num, table_idx, table)).
Proof.
  intros Hdata Hfits.
  destruct (has_data_cons _ _ _ Hdata) as (row0 & row1 & rest & Htable).
  assert (Hframe : exists df, table_frame page_num table_idx table = Ok (Some df)).
  { subst table. unfold header_fits in Hfits. cbn [snd tail] in Hfits.
    rewrite table_frame_rows, table_header_stated by done.
    unfold DataFrame_new. rewrite Hfits, decide_True by done.
    cbn [mbind result_bind]. eauto. }
  destruct Hframe as [df Hframe]. exists df. split; [exact Hframe|]. split.
  - by eapply table_frame_tagged.
  - intros Hfree. rewrite table_frame_stated in Hframe by done. congruence.
Qed.

Lemma collect_tables_fits (page_num k : nat) (tables : list RawTable)
    (acc : list DataFrame) :
  let items :=
    List.filter has_data
      (map (fun '(table_idx, table) => (page_num, table_idx, table))
           (enumerate_from k tables)) in
  Forall header_fits items ->
  exists new,
    for_each (collect_table page_num) (enumerate_from k tables) acc
    = Ok (acc ++ new)
    /\ Forall2
         (fun item df => tagged df /\ (header_free item -> df = stated_frame item))
         items new.
Proof.
  revert k acc. induction tables as [|table tables IH]; intros k acc items.
  - intros _. exists []. split; [cbn; by rewrite app_nil_r|constructor].
  - subst items. cbn [enumerate_from map List.filter].
    rewrite for_each_cons, collect_table_eq.
    destruct (has_data (page_num, k, table)) eqn:Hdata.
    + intros Hfits. apply Forall_cons in Hfits as [Hfit Hfits].
      destruct (table_frame_fits _ _ _ Hdata Hfit) as (df & -> & Hdf).
      cbn [mbind result_bind].
      destruct (IH (S k) (acc ++ [df]) Hfits) as (new & -> & Hrel).
      exists (df :: new). split; [by rewrite <- app_assoc|].
      by constructor.
    + intros Hfits. rewrite table_frame_no_data by done.
      cbn [mbind result_bind]. by apply IH.
Qed.

Lemma collect_pages_fits (k : nat) (pages : list Page) (acc : list DataFrame) :
  let items :=
    List.filter has_data
      (flat_map
         (fun '(page_num, page) =>
            map (fun '(table_idx, table) => (page_num, table_idx, table))
                (enumerate (extract_tables page)))
         (enumerate_from k pages)) in
  Forall header_fits items ->
  exists new,
    for_each collect_page (enumerate_from k pages) acc = Ok (acc ++ new)
    /\ Forall2
         (fun item df => tagged df /\ (header_free item -> df = stated_frame item))
         items new.
Proof.
  revert k acc. induction pages as [|page pages IH]; intros k acc items.
  - intros _. exists []. split; [cbn; by rewrite app_nil_r|constructor].
  - subst items. cbn [enumerate_from flat_map].
    rewrite List.filter_app, for_each_cons, collect_page_eq.
    intros Hfits. apply Forall_app in Hfits as [Hfits1 Hfits2].
    unfold enumerate.
    destruct (collect_tables_fits k 0 (extract_tables page) acc Hfits1)
      as (new1 & -> & Hrel1).
    cbn [mbind result_bind].
    destruct (IH (S k) (acc ++ new1) Hfits2) as (new2 & -> & Hrel2).
    exists (new1 ++ new2). split; [by rewrite app_assoc|].
    by apply Forall2_app.
Qed.

Lemma extract_all_tables_fits (pages : list Page) :
  Forall header_fits (data_tables pages) ->
  exists all_tables,
    extract_all_tables pages = Ok all_tables
    /\ Forall2
         (fun item df => tagged df /\ (header_free item -> df = stated_frame item))
         (data_tables pages) all_tables.
Proof.
  intros Hfits. unfold extract_all_tables, enumerate.
  destruct (collect_pages_fits 0 pages [] Hfits) as (new & -> & Hrel).
  by exists new.
Qed.

(** C3, as the code has it. An empty table and a table of one row add
    nothing to [all_tables]. A table with rows after row 0 has as header
    row 0 as it stands when row 0 has cells, whatever they are, and
    Col0..ColN-1 with N the length of row 1 when row 0 has none. When
    its longest row after row 0 is as long as that header and no header
    cell is named _page or _table, it adds one frame: the header
    followed by _page and _table, and every row after row 0, filled with
    [None] to the header's length and followed by the 1-based page and
    table numbers. When its longest row after row 0 is not as long as
    the header, the frame constructor raises. So for a document whose
    tables with data all have a longest data row as long as the header,
    [all_tables] has one frame per table with data, in page order then
    table order, and nothing for the other tables; the frame is the one
    just described for each table without header cell named _page or
    _table. The header expression of line 1513 is the stated header for
    every non-empty table (Col0 alone for a table made of one empty
    row). *)
Theorem extraction_header_rules :
  (forall page_num table_idx acc,
     collect_table page_num acc (table_idx, []) = Ok acc)
  /\ (forall page_num table_idx acc row0,
        collect_table page_num acc (table_idx, [row0]) = Ok acc)
  /\ (forall page_num table_idx acc row0 row1 rest,
        let header :=
          match row0 with
          | [] => col_names (length row1)
          | _ :: _ => row0
          end in
        (max_len (row1 :: rest) = length header ->
         Forall (fun c => c ∉ provenance) header ->
         collect_table page_num acc (table_idx, row0 :: row1 :: rest)
         = Ok (acc ++
               [mkDataFrame (header ++ [VStr "_page"; VStr "_table"])
                  (map (fun row =>
                          pad_right VNone (length header) row
                          ++ [VInt (page_num + 1); VInt (table_idx + 1)])
                       (row1 :: rest))]))
        /\ (max_len (row1 :: rest) <> length header ->
            collect_table page_num acc (table_idx, row0 :: row1 :: rest)
            = Raise (ValueError (length header) (max_len (row1 :: rest)))))
  /\ (forall pages,
        Forall header_fits (data_tables pages) ->
        exists all_tables,
          extract_all_tables pages = Ok all_tables
          /\ Forall2 (fun item df => header_free item -> df = stated_frame item)
               (data_tables pages) all_tables
          /\ (Forall header_free (data_tables pages) ->
              all_tables = map stated_frame (data_tables pages)))
  /\ (forall table, table <> [] -> table_header table = stated_header table)
  /\ (forall n,
        length (col_names n) = n /\
        forall i, i < n -> col_names n !! i = Some (VStr ("Col" +:+ str_of_nat i))).
Proof.
  split; [reflexivity|]. split; [reflexivity|].
  split; [|split; [|split; [|split]]].
  - intros page_num table_idx acc row0 row1 rest header.
    assert (Hh : stated_header (row0 :: row1 :: rest) = header)
      by (by destruct row0).
    split.
    + intros Hfits Hfree. rewrite collect_table_eq.
      rewrite table_frame_stated; [| done | |].
      * unfold stated_frame. cbn [tail]. by rewrite Hh.
      * unfold header_fits. cbn [snd tail]. by rewrite Hh.
      * unfold header_free. cbn [snd]. by rewrite Hh.
    + intros Hmis. rewrite collect_table_eq.
      rewrite table_frame_misfit; [| done |].
      * cbn [tail]. by rewrite Hh.
      * unfold header_fits. cbn [snd tail]. by rewrite Hh.
  - intros pages Hfits.
    destruct (extract_all_tables_fits pages Hfits) as (all_tables & Hrun & Hrel).
    exists all_tables. split; [exact Hrun|]. split.
    + eapply Forall2_impl; [exact Hrel|]. by intros item df [_ Hdf].
    + intros Hfree. rewrite extract_all_tables_stated in Hrun by done. congruence.
  - apply table_header_stated.
  - apply length_col_names.
  - apply col_names_lookup.
Qed.

Lemma extraction_header_rules_witness :
  extract_all_tables
    [mkPage [[]; [[VNone; VStr "B"]; [VStr "1"; VStr "2"]; [VStr "3"]]; [[VStr "H"]]]
            VNone;
     mkPage [[[]; [VStr "x"; VNone]]] VNone]
  = Ok [mkDataFrame [VNone; VStr "B"; VStr "_page"; VStr "_table"]
          [[VStr "1"; VStr "2"; VInt 1; VInt 2]; [VStr "3"; VNone; VInt 1; VInt 2]];
        mkDataFrame [VStr "Col0"; VStr "Col1"; VStr "_page"; VStr "_table"]
          [[VStr "x"; VNone; VInt 2; VInt 1]]].
Proof.
  destruct (proj1 (proj2 (proj2 (proj2 extraction_header_rules)))
              [mkPage [[]; [[VNone; VStr "B"]; [VStr "1"; VStr "2"]; [VStr "3"]];
                       [[VStr "H"]]] VNone;
               mkPage [[[]; [VStr "x"; VNone]]] VNone])
    as (all_tables & Hrun & _ & Hall).
  - repeat (apply Forall_cons; split); try apply Forall_nil; reflexivity.
  - rewrite Hrun, Hall; [reflexivity|].
    repeat (apply Forall_cons; split); try apply Forall_nil;
      apply (bool_decide_unpack _); vm_compute; exact I.
Defined.

(** C3 as stated fails on the code: when no row after row 0 is as long
    as the header, the rows do not become data, the extraction raises;
    and under a header cell named _page the data cells are replaced by
    the page number. *)
Lemma header_rules_as_stated_fails :
  extract_all_tables [mkPage [[[VStr "A"; VStr "B"]; [VStr "1"]]] VNone]
    = Raise (ValueError 2 1)
  /\ ~ header_rules_as_stated [mkPage [[[VStr "A"; VStr "B"]; [VStr "1"]]] VNone]
  /\ extract_all_tables
       [mkPage [[[VStr "_page"; VStr "B"]; [VStr "1"; VStr "2"]]] VNone]
     = Ok [mkDataFrame [VStr "_page"; VStr "B"; VStr "_table"]
             [[VInt 1; VStr "2"; VInt 1]]]
  /\ ~ header_rules_as_stated
         [mkPage [[[VStr "_page"; VStr "B"]; [VStr "1"; VStr "2"]]] VNone].
Proof.
  split; [reflexivity|]. split; [|split; [reflexivity|]].
  - intros H. vm_compute in H. discriminate.
  - intros H. vm_compute in H. discriminate.
Qed.

Lemma separate_sheets_fits (series_repr : list value -> string) (i : nat)
    (items : list (nat * nat * RawTable)) (frames : list DataFrame)
    (acc : list Sheet) :
  Forall2
    (fun item df => tagged df /\ (header_free item -> df = stated_frame item))
    items frames ->
  Forall (fun item => has_data item = true) items ->
  Forall header_fits items ->
  exists sheets,
    for_each (separate_step series_repr) (enumerate_from i frames) acc
    = Ok (acc ++ sheets)
    /\ Forall2 (fun item sheet => header_free item -> sheet = stated_sheet item)
         items sheets.
Proof.
  intros Hrel. revert i acc.
  induction Hrel as [|item df items frames [Htag Hdf] Hrel IH];
    intros i acc Hdata Hfits.
  - exists []. split; [cbn; by rewrite app_nil_r|constructor].
  - apply Forall_cons in Hdata as [Hd Hdata].
    apply Forall_cons in Hfits as [Hfit Hfits].
    destruct (separate_sheets_from series_repr i [df] acc) as (one & Hone & Hrel1).
    { by constructor. }
    apply Forall2_length in Hrel1 as Hlen.
    destruct one as [|sheet [|? ?]]; try discriminate.
    cbn [enumerate_from for_each] in Hone.
    destruct (separate_step series_repr acc (i, df)) as [acc1|] eqn:Hstep;
      cbn [mbind result_bind] in Hone; [|done].
    injection Hone as ->.
    cbn [enumerate_from]. rewrite for_each_cons, Hstep. cbn [mbind result_bind].
    destruct (IH (S i) (acc ++ [sheet]) Hdata Hfits) as (sheets & -> & Hrel2).
    exists (sheet :: sheets). split; [by rewrite <- app_assoc|].
    constructor; [|done].
    intros Hfree. rewrite (Hdf Hfree) in Hstep.
    rewrite separate_step_stated in Hstep by done.
    injection Hstep as Hstep. apply app_inv_head in Hstep. congruence.
Qed.

Lemma convert_separate_fits (pdfplumber_open : string -> result (list Page))
    (writer_open : string -> result unit) (series_repr : list value -> string)
    (pdf_path excel_path : string) (disk : gmap string (list Sheet))
    (pages : list Page) (u : unit) :
  pdfplumber_open pdf_path = Ok pages ->
  writer_open excel_path = Ok u ->
  data_tables pages <> [] ->
  Forall header_fits (data_tables pages) ->
  exists sheets,
    convert_single_file pdfplumber_open writer_open series_repr
      pdf_path excel_path false disk
    = Ok (<[excel_path := sheets]> disk)
    /\ Forall2 (fun item sheet => header_free item -> sheet = stated_sheet item)
         (data_tables pages) sheets.
Proof.
  intros Hopen Hw Hne Hfits. unfold convert_single_file.
  rewrite Hopen. cbn [mbind result_bind].
  destruct (extract_all_tables_fits pages Hfits) as (all_tables & -> & Hrel).
  cbn [mbind result_bind].
  destruct (separate_sheets_fits series_repr 0 _ _ [] Hrel
              (data_tables_have_data pages) Hfits) as (sheets & Hrun & Hsheets).
  assert (Hsome : all_tables <> []).
  { intros ->. apply Forall2_length in Hrel. by destruct (data_tables pages). }
  destruct all_tables as [|df tables]; [done|].
  cbn [list_truthy length Nat.eqb negb]. rewrite Hw. cbn [mbind result_bind].
  unfold separate_sheets, enumerate. rewrite Hrun. cbn [mbind result_bind app].
  by exists sheets.
Qed.

(** C5, as the code has it. A sheet name made from a 1-based page and
    table number is the text Page{page}_Table{table} cut to its first 31
    characters, and has between 1 and 31 characters. In separate mode,
    for a document that has tables with data, all with a longest data
    row as long as the header, the conversion writes at the output path
    one sheet per table with data, in page order then table order; for
    each table without header cell named _page or _table, the sheet is
    named after the table's own 1-based page and table numbers and holds
    its header and its data rows, each padded to the header's length,
    missing cells as empty strings. Whatever the tables, every sheet
    that a conversion in separate mode writes has a name of 1 to 31
    characters. *)
Theorem separate_mode_sheets (series_repr : list value -> string) :
  (forall page table : nat,
     1 <= page -> 1 <= table ->
     let name := make_sheet_name series_repr [VInt page] [VInt table] in
     name = substring 0 31 ("Page" +:+ str_of_nat page +:+ "_Table" +:+ str_of_nat table)
     /\ 1 <= String.length name <= 31)
  /\ (forall pdfplumber_open writer_open pdf_path excel_path disk pages (u : unit),
        pdfplumber_open pdf_path = Ok pages ->
        writer_open excel_path = Ok u ->
        data_tables pages <> [] ->
        Forall header_fits (data_tables pages) ->
        exists sheets,
          convert_single_file pdfplumber_open writer_open series_repr
            pdf_path excel_path false disk
          = Ok (<[excel_path := sheets]> disk)
          /\ Forall2 (fun item sheet => header_free item -> sheet = stated_sheet item)
               (data_tables pages) sheets
          /\ (Forall header_free (data_tables pages) ->
              sheets = map stated_sheet (data_tables pages)))
  /\ (forall pdfplumber_open writer_open pdf_path excel_path disk disk',
        convert_single_file pdfplumber_open writer_open series_repr
          pdf_path excel_path false disk = Ok disk' ->
        exists sheets,
          disk' = <[excel_path := sheets]> disk /\
          Forall (fun sheet => 1 <= String.length (sheet_name sheet) <= 31) sheets).
Proof.
  split; [|split].
  - intros page table _ _ name. split; [reflexivity|].
    apply make_sheet_name_bounds.
  - intros pdfplumber_open writer_open pdf_path excel_path disk pages u
      Hopen Hw Hne Hfits.
    destruct (convert_separate_fits pdfplumber_open writer_open series_repr
                pdf_path excel_path disk pages u Hopen Hw Hne Hfits)
      as (sheets & Hrun & Hrel).
    exists sheets. split; [exact Hrun|]. split; [exact Hrel|].
    intros Hfree.
    clear Hrun Hne Hfits. induction Hrel as [|item sheet items sheets Hs Hrel IH].
    + reflexivity.
    + apply Forall_cons in Hfree as [Hfr Hfree].
      cbn [map]. by rewrite (Hs Hfr), IH.
  - intros pdfplumber_open writer_open pdf_path excel_path disk disk'.
    unfold convert_single_file.
    destruct (pdfplumber_open pdf_path) as [pages|]; cbn [mbind result_bind]; [|done].
    destruct (extract_all_tables pages) as [all_tables|];
      cbn [mbind result_bind]; [|done].
    destruct (negb (list_truthy all_tables)).
    + destruct (list_truthy (text_data pages)); [|done].
      destruct (writer_open excel_path); cbn [mbind result_bind]; [|done].
      intros [= <-]. eexists. split; [reflexivity|].
      constructor; [|done]. cbn. lia.
    + destruct (writer_open excel_path); cbn [mbind result_bind]; [|done].
      destruct (separate_sheets series_repr all_tables) as [sheets|] eqn:Hsep;
        cbn [mbind result_bind]; [|done].
      intros [= <-]. exists sheets. split; [reflexivity|].
      by eapply separate_sheets_name_bounds.
Qed.

Lemma separate_mode_sheets_witness :
  convert_single_file
    (fun _ => Ok [mkPage [[[VStr "A"; VStr "B"]; [VStr "1"; VNone]]] VNone;
                  mkPage [[[VStr "H"]]; [[]; [VStr "x"]; []]] VNone])
    (fun _ => Ok ()) (fun _ => "") "in.pdf" "out.xlsx" false ∅
  = Ok (<["out.xlsx" :=
            [mkSheet "Page1_Table1" (Some [VStr "A"; VStr "B"])
               [[VStr "1"; VStr ""]];
             mkSheet "Page2_Table2" (Some [VStr "Col0"])
               [[VStr "x"]; [VStr ""]]]]> ∅).
Proof.
  destruct (proj1 (proj2 (separate_mode_sheets (fun _ => "")))
              (fun _ => Ok [mkPage [[[VStr "A"; VStr "B"]; [VStr "1"; VNone]]] VNone;
                            mkPage [[[VStr "H"]]; [[]; [VStr "x"]; []]] VNone])
              (fun _ => Ok ()) "in.pdf" "out.xlsx" ∅
              [mkPage [[[VStr "A"; VStr "B"]; [VStr "1"; VNone]]] VNone;
               mkPage [[[VStr "H"]]; [[]; [VStr "x"]; []]] VNone]
              ())
    as (sheets & Hrun & _ & Hall).
  - reflexivity.
  - reflexivity.
  - discriminate.
  - repeat (apply Forall_cons; split); try apply Forall_nil; reflexivity.
  - rewrite Hrun, Hall; [reflexivity|].
    repeat (apply Forall_cons; split); try apply Forall_nil;
      apply (bool_decide_unpack _); vm_compute; exact I.
Defined.

Lemma separate_as_stated_sheets (series_repr : list value -> string)
    (pages : list Page) (all_tables : list DataFrame) (sheets : list Sheet) :
  extract_all_tables pages = Ok all_tables ->
  all_tables <> [] ->
  separate_sheets series_repr all_tables = Ok sheets ->
  data_tables pages <> [] ->
  Forall header_fits (data_tables pages) ->
  separate_as_stated series_repr pages ->
  sheets = map stated_sheet (data_tables pages).
Proof.
  intros Hextract Hne Hsep Hdata Hfits H.
  specialize (H Hdata Hfits "in.pdf" "out.xlsx" ∅).
  unfold convert_single_file in H. cbn [mbind result_bind] in H.
  rewrite Hextract in H. cbn [mbind result_bind] in H.
  destruct all_tables as [|df tables]; [done|].
  cbn [list_truthy length Nat.eqb negb] in H.
  rewrite Hsep in H. cbn [mbind result_bind] in H.
  apply (f_equal (fun r => match r with
                          | Ok m => m !! "out.xlsx"
                          | Raise _ => None
                          end)) in H.
  cbv beta iota in H. rewrite !lookup_insert_eq in H. congruence.
Qed.

(** C5 as stated fails on the code: with two header cells named _page
    the name is made from the text form of a pandas Series, not from
    the page number, and a header cell named _page or _table is missing
    from the sheet together with its column. *)
Lemma separate_as_stated_fails :
  separate_sheets (fun _ => "_page 1 _page 1 Name: 0, dtype: int64")
    [mkDataFrame [VStr "_page"; VStr "_page"; VStr "_table"]
       [[VInt 1; VInt 1; VInt 1]]]
  = Ok [mkSheet "Page_page 1 _page 1 Name: 0, dt" (Some []) [[]]]
  /\ (forall series_repr,
        ~ separate_as_stated series_repr
            [mkPage [[[VStr "_page"; VStr "_page"]; [VStr "a"; VStr "b"]]] VNone])
  /\ (forall series_repr,
        ~ separate_as_stated series_repr
            [mkPage [[[VStr "_page"; VStr "B"]; [VStr "1"; VStr "2"]]] VNone]).
Proof.
  split; [reflexivity|].
  split; intros series_repr H.
  - apply (separate_as_stated_sheets series_repr _
             [mkDataFrame [VStr "_page"; VStr "_page"; VStr "_table"]
                [[VInt 1; VInt 1; VInt 1]]]
             [mkSheet (make_sheet_name series_repr [VInt 1; VInt 1] [VInt 1])
                (Some []) [[]]]) in H;
      [discriminate | reflexivity | discriminate | reflexivity | discriminate |].
    repeat (apply Forall_cons; split); try apply Forall_nil; reflexivity.
  - apply (separate_as_stated_sheets series_repr _
             [mkDataFrame [VStr "_page"; VStr "B"; VStr "_table"]
                [[VInt 1; VStr "2"; VInt 1]]]
             [mkSheet "Page1_Table1" (Some [VStr "B"]) [[VStr "2"]]]) in H;
      [discriminate | reflexivity | discriminate | reflexivity | discriminate |].
    repeat (apply Forall_cons; split); try apply Forall_nil; reflexivity.
Qed.

(** ** The batch (lines 1484-1501) *)

Section Batch.

Variable pdfplumber_open : string -> result (list Page).
Variable writer_open : string -> result unit.
Variable series_repr : list value -> string.
Variable path_name : string -> string.
Variable merge_tables : bool.

Local Abbreviation convert :=
  (convert_single_file pdfplumber_open writer_open series_repr).
Local Abbreviation effect :=
  (batch_effect pdfplumber_open writer_open series_repr path_name merge_tables).

(** A conversion either writes its sheets at its output path or raises,
    and which of the two does not depend on what is on disk. *)
Lemma convert_outcome (pdf_path excel_path : string) :
  (exists sheets, forall d,
      convert pdf_path excel_path merge_tables d = Ok (<[excel_path := sheets]> d))
  \/ (exists e, forall d, convert pdf_path excel_path merge_tables d = Raise e).
Proof.
  unfold convert_single_file.
  destruct (pdfplumber_open pdf_path) as [pdf|e]; cbn [mbind result_bind]; [|eauto].
  destruct (extract_all_tables pdf) as [all_tables|e]; cbn [mbind result_bind]; [|eauto].
  destruct (negb (list_truthy all_tables)).
  - destruct (list_truthy (text_data pdf)); [|eauto].
    destruct (writer_open excel_path) as [u|e]; cbn [mbind result_bind]; eauto.
  - destruct (writer_open excel_path) as [u|e]; cbn [mbind result_bind]; [|eauto].
    destruct merge_tables; [eauto|].
    destruct (separate_sheets series_repr all_tables) as [sheets|e];
      cbn [mbind result_bind]; eauto.
Qed.

Lemma convert_raise_any_disk (pdf_path excel_path : string) (e : exn)
    (d d' : gmap string (list Sheet)) :
  convert pdf_path excel_path merge_tables d = Raise e ->
  convert pdf_path excel_path merge_tables d' = Raise e.
Proof.
  destruct (convert_outcome pdf_path excel_path) as [[sheets H]|[e' H]];
    rewrite !H; [done|by intros [= ->]].
Qed.

Lemma convert_ok_any_disk (pdf_path excel_path : string) (sheets : list Sheet)
    (d d' : gmap string (list Sheet)) :
  convert pdf_path excel_path merge_tables d = Ok (<[excel_path := sheets]> d) ->
  convert pdf_path excel_path merge_tables d' = Ok (<[excel_path := sheets]> d').
Proof.
  destruct (convert_outcome pdf_path excel_path) as [[sheets' H]|[e' H]];
    rewrite !H; [|done].
  intros [= Heq]. f_equal.
  assert (Hl : (<[excel_path:=sheets']> d) !! excel_path
               = (<[excel_path:=sheets]> d) !! excel_path) by (by rewrite Heq).
  rewrite !lookup_insert_eq in Hl. by inversion Hl.
Qed.

Lemma foldl_convert_step (total : nat) (save_paths : list (string * string))
    (i : nat) (gui : Gui) :
  let gui' :=
    foldl (convert_step pdfplumber_open writer_open series_repr path_name
             merge_tables total)
          gui (enumerate_from i save_paths) in
  (disk gui', after_queue gui') = effect save_paths (disk gui) (after_queue gui).
Proof.
  revert i gui.
  induction save_paths as [|[pdf_path excel_path] rest IH]; intros i gui; [done|].
  cbn [enumerate_from foldl]. cbv zeta in IH |- *. rewrite IH.
  cbn [batch_effect]. unfold convert_step.
  by destruct (convert_single_file _ _ _ pdf_path excel_path merge_tables (disk gui)).
Qed.

Lemma convert_files_effect (save_paths : list (string * string)) (gui : Gui) :
  let gui' :=
    convert_files pdfplumber_open writer_open series_repr path_name
      save_paths merge_tables gui in
  disk gui' = (effect save_paths (disk gui) (after_queue gui)).1
  /\ after_queue gui' =
       (effect save_paths (disk gui) (after_queue gui)).2 ++ [ConversionDone]
  /\ progress_var gui' = Completed.
Proof.
  unfold convert_files. cbn [disk after_queue progress_var].
  pose proof (foldl_convert_step (length save_paths) save_paths 0 gui) as H.
  cbv zeta in H. unfold enumerate. rewrite <- H. done.
Qed.

Lemma effect_app (l1 l2 : list (string * string)) (d : gmap string (list Sheet))
    (q : list Dialog) :
  effect (l1 ++ l2) d q = effect l2 (effect l1 d q).1 (effect l1 d q).2.
Proof.
  revert d q. induction l1 as [|[pdf_path excel_path] l1 IH]; intros d q; [done|].
  cbn [app batch_effect].
  destruct (convert_single_file _ _ _ _ _ _ _); apply IH.
Qed.

Lemma effect_queue (l : list (string * string)) (d : gmap string (list Sheet))
    (q : list Dialog) :
  (effect l d q).1 = (effect l d []).1
  /\ (effect l d q).2 = q ++ (effect l d []).2.
Proof.
  revert d q. induction l as [|[pdf_path excel_path] l IH]; intros d q.
  - split; [done|]. by rewrite app_nil_r.
  - cbn [batch_effect].
    destruct (convert_single_file _ _ _ _ _ _ _) as [d'|e]; [apply IH|].
    destruct (IH d (q ++ [ConversionFailed (path_name pdf_path) e])) as [H1 H2].
    destruct (IH d ([] ++ [ConversionFailed (path_name pdf_path) e])) as [H3 H4].
    rewrite H1, H2, H3, H4. split; [done|]. by rewrite <- !app_assoc.
Qed.

Lemma effect_keeps (l : list (string * string)) (d : gmap string (list Sheet))
    (q : list Dialog) (path : string) :
  Forall (fun job => job.2 <> path) l ->
  (effect l d q).1 !! path = d !! path.
Proof.
  intros Hall. revert d q.
  induction Hall as [|[pdf_path excel_path] l Hne Hall IH]; intros d q; [done|].
  cbn [batch_effect]. cbn [snd] in Hne.
  destruct (convert_outcome pdf_path excel_path) as [[sheets H]|[e H]];
    rewrite H.
  - rewrite IH. by rewrite lookup_insert_ne.
  - apply IH.
Qed.

(** C6. A file of the batch whose conversion raises changes nothing on
    disk and adds one error message, under its own name, at its place in
    the queue of messages; the loop goes on to the end. Every other file
    is converted as in the batch without the failing file: the disk ends
    the same, the other messages are the same, and each file converted
    with success leaves its sheets at its output path unless a later
    file of the batch writes to that path. *)
Theorem batch_failure_isolated (before after : list (string * string))
    (pdf_path excel_path : string) (gui : Gui) (e : exn) :
  convert_single_file pdfplumber_open writer_open series_repr
    pdf_path excel_path merge_tables (disk gui) = Raise e ->
  let failing :=
    convert_files pdfplumber_open writer_open series_repr path_name
      (before ++ (pdf_path, excel_path) :: after) merge_tables gui in
  let others :=
    convert_files pdfplumber_open writer_open series_repr path_name
      (before ++ after) merge_tables gui in
  progress_var failing = Completed
  /\ disk failing = disk others
  /\ (exists q1 q2,
        after_queue others = after_queue gui ++ q1 ++ q2 ++ [ConversionDone] /\
        after_queue failing =
          after_queue gui ++ q1 ++ [ConversionFailed (path_name pdf_path) e]
          ++ q2 ++ [ConversionDone])
  /\ (forall l1 pdf_path' excel_path' l2 sheets,
        before ++ after = l1 ++ (pdf_path', excel_path') :: l2 ->
        convert_single_file pdfplumber_open writer_open series_repr
          pdf_path' excel_path' merge_tables (disk gui)
        = Ok (<[excel_path' := sheets]> (disk gui)) ->
        Forall (fun job => job.2 <> excel_path') l2 ->
        disk failing !! excel_path' = Some sheets).
Proof.
  intros Hfail failing others.
  destruct (convert_files_effect (before ++ (pdf_path, excel_path) :: after) gui)
    as (Hd1 & Hq1 & Hp1).
  destruct (convert_files_effect (before ++ after) gui) as (Hd2 & Hq2 & _).
  fold failing in Hd1, Hq1, Hp1. fold others in Hd2, Hq2.
  set (d := disk gui) in *. set (q := after_queue gui) in *.
  set (failed := ConversionFailed (path_name pdf_path) e) in *.
  assert (Hstep : forall d1 q1,
             effect ((pdf_path, excel_path) :: after) d1 q1
             = effect after d1 (q1 ++ [failed])).
  { intros d1 q1. cbn [batch_effect].
    pose proof (convert_raise_any_disk _ _ _ _ d1 Hfail) as H.
    by rewrite H. }
  rewrite effect_app, Hstep in Hd1, Hq1. rewrite effect_app in Hd2, Hq2.
  destruct (effect_queue before d q) as [_ Hb].
  set (d1 := (effect before d q).1) in *.
  destruct (effect_queue after d1 ((effect before d q).2 ++ [failed])) as [Ha1 Ha2].
  destruct (effect_queue after d1 (effect before d q).2) as [Ha3 Ha4].
  assert (Hdisk : disk failing = disk others) by congruence.
  split; [exact Hp1|]. split; [exact Hdisk|]. split.
  - exists (effect before d []).2, (effect after d1 []).2. split.
    + rewrite Hq2, Ha4, Hb. by rewrite <- !app_assoc.
    + rewrite Hq1, Ha2, Hb. by rewrite <- !app_assoc.
  - intros l1 pdf_path' excel_path' l2 sheets Hsplit Hok Hlater.
    rewrite Hdisk. clear Hd2. 
    destruct (convert_files_effect (before ++ after) gui) as (Hd2 & _).
    fold others in Hd2. rewrite Hd2, Hsplit, effect_app.
    cbn [batch_effect].
    pose proof (convert_ok_any_disk _ _ _ _
                  (effect l1 (disk gui) (after_queue gui)).1 Hok) as H.
    rewrite H. rewrite effect_keeps by done. apply lookup_insert_eq.
Qed.

End Batch.

Lemma batch_failure_isolated_witness :
  disk (convert_files sample_open (fun _ => Ok ()) (fun _ => "") (fun p => p)
          ([("a.pdf", "a.xlsx")] ++ ("b.pdf", "b.xlsx") :: [("c.pdf", "c.xlsx")])
          false (mkGui ∅ Waiting 0%Q []))
  = disk (convert_files sample_open (fun _ => Ok ()) (fun _ => "") (fun p => p)
            ([("a.pdf", "a.xlsx")] ++ [("c.pdf", "c.xlsx")])
            false (mkGui ∅ Waiting 0%Q [])).
Proof.
  refine (proj1 (proj2 (batch_failure_isolated sample_open (fun _ => Ok ())
                          (fun _ => "") (fun p => p) false [("a.pdf", "a.xlsx")]
                          [("c.pdf", "c.xlsx")] "b.pdf" "b.xlsx"
                          (mkGui ∅ Waiting 0%Q []) (External "cannot open") _))).
  reflexivity.
Defined.

Example convert_files_example :
  after_queue
    (convert_files sample_open (fun _ => Ok ()) (fun _ => "") (fun p => p)
       [("a.pdf", "a.xlsx"); ("b.pdf", "b.xlsx"); ("c.pdf", "c.xlsx")]
       false (mkGui ∅ Waiting 0%Q []))
  = [ConversionFailed "b.pdf" (External "cannot open"); ConversionDone]
  /\ disk
       (convert_files sample_open (fun _ => Ok ()) (fun _ => "") (fun p => p)
          [("a.pdf", "a.xlsx"); ("b.pdf", "b.xlsx"); ("c.pdf", "c.xlsx")]
          false (mkGui ∅ Waiting 0%Q []))
     !! "c.xlsx"
     = Some [mkSheet "Text Content" (Some [VStr "Page"; VStr "Content"])
               [[VInt 1; VStr "text of c"]]].
Proof. vm_compute. done. Qed.

Local Open Scope Q_scope.

(** ** Coordinates (lines 666-677 and 750-756) *)

Lemma Qltb_lt (a b : Q) : Qltb a b = true <-> a < b.
Proof.
  unfold Qltb. rewrite Qlt_alt. destruct (a ?= b); split; congruence.
Qed.

Lemma Qltb_ge (a b : Q) : Qltb a b = false <-> b <= a.
Proof.
  split.
  - intros H. apply Qnot_lt_le. intros Hlt. apply Qltb_lt in Hlt. congruence.
  - intros H. destruct (Qltb a b) eqn:Hlt; [|done].
    apply Qltb_lt in Hlt. exfalso. by eapply Qlt_not_le.
Qed.

Lemma zoom_factor_nonzero (e : Editor) :
  0.5 <= zoom_level e -> ~ zoom_level e * 1.5 == 0.
Proof.
  intros Hz Heq.
  assert (H : 0 < zoom_level e * 1.5).
  { apply Qmult_lt_0_compat; [|reflexivity].
    eapply Qlt_le_trans; [|exact Hz]. reflexivity. }
  rewrite Heq in H. by apply Qlt_irrefl in H.
Qed.

(** C7. Page-to-canvas multiplies both coordinates by zoom_level * 1.5
    and canvas-to-page divides both by the same zoom_level * 1.5, so for
    every point and every zoom level from 0.5 to 3.0 going to the canvas
    and back gives the point again; in exact arithmetic the two are
    equal. *)
Theorem canvas_pdf_roundtrip (e : Editor) (p : Point) :
  0.5 <= zoom_level e <= 3 ->
  pdf_to_canvas_point e p
    = (fst p * (zoom_level e * 1.5), snd p * (zoom_level e * 1.5))
  /\ (forall c : Point,
        canvas_to_pdf_point e c
          = (fst c / (zoom_level e * 1.5), snd c / (zoom_level e * 1.5)))
  /\ fst (canvas_to_pdf_point e (pdf_to_canvas_point e p)) == fst p
  /\ snd (canvas_to_pdf_point e (pdf_to_canvas_point e p)) == snd p.
Proof.
  intros [Hlo _]. pose proof (zoom_factor_nonzero e Hlo) as Hnz.
  split; [reflexivity|]. split; [by intros [x y]|].
  destruct p as [x y]. unfold canvas_to_pdf_point, pdf_to_canvas_point.
  cbn [fst snd].
  split; field; intros H0; apply Hnz; rewrite H0; reflexivity.
Qed.

Lemma canvas_pdf_roundtrip_witness :
  fst (canvas_to_pdf_point (sample_editor tool_select)
         (pdf_to_canvas_point (sample_editor tool_select) (7, 11)))
  == 7.
Proof.
  refine (proj1 (proj2 (proj2 (canvas_pdf_roundtrip (sample_editor tool_select)
                                 (7, 11) _)))).
  split; vm_compute; discriminate.
Defined.

(** The selection rectangle is the annotation's rectangle on the canvas,
    grown by 3 pixels on each side. *)
Lemma highlight_selected_annot_corners (e : Editor) (r : Rect) :
  0.5 <= zoom_level e ->
  let h := highlight_selected_annot e r in
  fst (canvas_to_pdf_point e (x0 h + 3, y0 h + 3)) == x0 r
  /\ snd (canvas_to_pdf_point e (x0 h + 3, y0 h + 3)) == y0 r
  /\ fst (canvas_to_pdf_point e (x1 h - 3, y1 h - 3)) == x1 r
  /\ snd (canvas_to_pdf_point e (x1 h - 3, y1 h - 3)) == y1 r.
Proof.
  intros Hlo. pose proof (zoom_factor_nonzero e Hlo) as Hnz.
  unfold highlight_selected_annot, canvas_to_pdf_point, pdf_to_canvas_point.
  cbn [fst snd x0 y0 x1 y1].
  repeat split; field; intros H0; apply Hnz; rewrite H0; reflexivity.
Qed.

(** ** The minimum-size policy (lines 758-779 and 795-836) *)

Lemma truthy_text (text : string) : text <> "" -> truthy (VStr text) = true.
Proof. intros Hne. cbn [truthy]. apply String.eqb_neq in Hne. by rewrite Hne. Qed.

(** C8. With a drag tool (line, circle, rect, highlight, redact),
    releasing the button after a drag of less than 5 pixels in both
    directions makes no call on the document and leaves the modified
    flag as it was; after a drag of 5 pixels or more in one direction
    the tool's creation call is made and the flag is set. The note and
    text tools are not subject to this: releasing does nothing for them
    whatever the drag, and their annotation is created at the press
    itself, as soon as a text is entered. *)
Theorem min_size_policy (canvasx canvasy : Q -> Q)
    (rect_contains : Rect -> Point -> bool) (ex ey : Q) (annots : list Annot)
    (apply_now : bool) (e : Editor) (doc : string) (sx sy : Q) :
  current_pdf e = Some doc ->
  drag_start e = Some (sx, sy) ->
  let dx := canvasx ex - sx in
  let dy := canvasy ey - sy in
  let e' := on_mouse_release canvasx canvasy ex ey annots apply_now e in
  (draws_by_drag (current_tool e) = true ->
   (Qabs dx < 5 /\ Qabs dy < 5 ->
    calls e' = calls e /\ modified e' = modified e)
   /\ (5 <= Qabs dx \/ 5 <= Qabs dy ->
       exists c rest,
         calls e' = calls e ++ c :: rest /\
         creates (current_tool e) c = true /\
         modified e' = true))
  /\ (current_tool e = tool_note \/ current_tool e = tool_text ->
      calls e' = calls e /\ modified e' = modified e /\
      forall text font_size,
        text <> "" ->
        let pressed :=
          on_mouse_press canvasx canvasy rect_contains ex ey annots
            (Some text) font_size e in
        modified pressed = true /\
        exists c rest,
          calls pressed = calls e ++ c :: rest /\
          (current_tool e = tool_note ->
           c = AddTextAnnot (canvas_to_pdf canvasx canvasy e ex ey) text) /\
          (current_tool e = tool_text ->
           exists r fontsize text_color fill,
             c = AddFreetextAnnot r text fontsize text_color fill /\
             (x0 r, y0 r) = canvas_to_pdf canvasx canvasy e ex ey)).
Proof.
  intros Hpdf Hdrag dx dy e'. split.
  - intros Htool.
    assert (Hsel : bool_decide (current_tool e = tool_select) = false).
    { apply bool_decide_eq_false. intros Heq. rewrite Heq in Htool. discriminate. }
    assert (Hpoint : bool_decide (current_tool e ∈ [tool_select; tool_note; tool_text])
                     = false).
    { apply bool_decide_eq_false. intros Hin.
      destruct (current_tool e); try discriminate;
        repeat (apply elem_of_cons in Hin as [Hin|Hin]; [discriminate|]);
        inversion Hin. }
    split.
    + intros [Hx Hy]. apply Qltb_lt in Hx, Hy.
      unfold e', on_mouse_release. rewrite Hpdf, Hdrag, Hsel, Hpoint.
      fold dx dy. cbn [andb]. rewrite Hx, Hy. cbn [andb negb]. done.
    + intros Hbig.
      assert (Hsmall : Qltb (Qabs dx) 5 && Qltb (Qabs dy) 5 = false).
      { apply andb_false_iff. destruct Hbig as [H|H]; apply Qltb_ge in H; auto. }
      unfold e', on_mouse_release. rewrite Hpdf, Hdrag, Hsel.
      fold dx dy. cbn [andb]. rewrite Hsmall. cbn [andb].
      destruct (current_tool e); try discriminate; cbn [calls modified emit
        set_modified set_drag_start set_temp_shape draw_line_annot
        draw_circle_annot draw_rect_annot add_highlight add_redaction app];
        eexists _, _; (split; [reflexivity|done]).
  - intros Htool.
    assert (Hsel : bool_decide (current_tool e = tool_select) = false).
    { apply bool_decide_eq_false. destruct Htool as [-> | ->]; discriminate. }
    assert (Hpoint : bool_decide (current_tool e ∈ [tool_select; tool_note; tool_text])
                     = true).
    { apply bool_decide_eq_true. destruct Htool as [-> | ->]; set_solver. }
    split; [|split].
    + unfold e', on_mouse_release. rewrite Hpdf, Hdrag, Hsel, Hpoint.
      rewrite andb_false_r. cbn [andb].
      by destruct Htool as [-> | ->].
    + unfold e', on_mouse_release. rewrite Hpdf, Hdrag, Hsel, Hpoint.
      rewrite andb_false_r. cbn [andb].
      by destruct Htool as [-> | ->].
    + intros text font_size Hne pressed.
      pose proof (truthy_text text Hne) as Htext.
      unfold pressed, on_mouse_press. rewrite Hpdf.
      cbn [current_tool set_drag_start].
      destruct Htool as [Ht | Ht]; rewrite Ht.
      * unfold add_sticky_note. cbn [current_pdf set_drag_start]. rewrite Hpdf, Htext.
        split; [reflexivity|]. eexists _, _. split; [reflexivity|].
        split; [done|discriminate].
      * unfold add_text_box. cbn [current_pdf set_drag_start]. rewrite Hpdf, Htext.
        split; [reflexivity|]. eexists _, _. split; [reflexivity|].
        split; [discriminate|]. intros _. eexists _, _, _, _. split; reflexivity.
Qed.

Lemma min_size_policy_witness :
  calls (on_mouse_release (fun x => x) (fun y => y) 104 103 [] false
           (sample_editor tool_rect))
  = calls (sample_editor tool_rect)
  /\ modified (on_mouse_release (fun x => x) (fun y => y) 104 103 [] false
                (sample_editor tool_rect))
     = modified (sample_editor tool_rect).
Proof.
  refine (proj1 (proj1 (min_size_policy (fun x => x) (fun y => y)
                          (fun _ _ => false) 104 103 [] false
                          (sample_editor tool_rect) "a.pdf" 100 100 _ _) _) _).
  - reflexivity.
  - reflexivity.
  - reflexivity.
  - split; reflexivity.
Defined.

Example drag_of_five_pixels_creates :
  calls (on_mouse_release (fun x => x) (fun y => y) 105 100 [] false
           (sample_editor tool_line))
  = [AddLineAnnot (100 / (1 * 1.5), 100 / (1 * 1.5)) (105 / (1 * 1.5), 100 / (1 * 1.5));
     SetColors Created (1, 0, 0) None; SetBorder Created 2;
     SetOpacity Created 1; Update Created].
Proof. reflexivity. Qed.

(** ** Moving an annotation (lines 1109-1168) *)

Lemma find_has_xref (sel : nat) (annots : list Annot) (annot : Annot) :
  List.find (has_xref sel) annots = Some annot -> xref annot = sel.
Proof.
  intros H. apply find_some in H as [_ H]. by apply Nat.eqb_eq in H.
Qed.

(** C9. At the end of a move, the screen delta divided by
    zoom_level * 1.5 is the delta applied on the page. When both of its
    components are below 1 in magnitude nothing is called on the
    document and the modified flag stays as it was. Otherwise the flag
    is set, a line annotation (type 3) gets its two end points moved by
    the delta, and an annotation of any other type gets its rectangle
    moved by the delta. *)
Theorem finish_move_effect (x y : Q) (annots : list Annot) (e : Editor)
    (r : Rect) (sel : nat) (sx sy : Q) (annot : Annot) :
  moving_annot_rect e = Some r ->
  selected_annot_xref e = Some sel ->
  drag_start e = Some (sx, sy) ->
  List.find (has_xref sel) annots = Some annot ->
  let dx := (x - sx) / (zoom_level e * 1.5) in
  let dy := (y - sy) / (zoom_level e * 1.5) in
  let e' := finish_move_annotation x y annots e in
  (Qabs dx < 1 /\ Qabs dy < 1 ->
   calls e' = calls e /\ modified e' = modified e)
  /\ (1 <= Qabs dx \/ 1 <= Qabs dy ->
      modified e' = true /\
      (annot_type annot = 3%nat ->
       forall v0 v1 more,
         vertices annot = Some (v0 :: v1 :: more) ->
         calls e' =
           calls e ++
           [SetVertices (Existing sel)
              [(fst v0 + dx, snd v0 + dy); (fst v1 + dx, snd v1 + dy)];
            Update (Existing sel)]) /\
      (annot_type annot <> 3%nat ->
       calls e' =
         calls e ++
         [SetRect (Existing sel) (translate (rect annot) dx dy);
          Update (Existing sel)])).
Proof.
  intros Hrect Hsel Hdrag Hfind dx dy e'.
  pose proof (find_has_xref _ _ _ Hfind) as Hx.
  unfold e', finish_move_annotation.
  cbn [moving_annot_rect selected_annot_xref drag_start zoom_level set_move_preview].
  rewrite Hrect, Hsel, Hdrag. fold dx dy. split.
  - intros [Hdx Hdy]. apply Qltb_lt in Hdx, Hdy. rewrite Hdx, Hdy. cbn [andb]. done.
  - intros Hbig.
    assert (Hfar : Qltb (Qabs dx) 1 && Qltb (Qabs dy) 1 = false).
    { apply andb_false_iff. destruct Hbig as [H|H]; apply Qltb_ge in H; auto. }
    rewrite Hfar, Hfind. split; [reflexivity|].
    cbn [calls set_moving_annot_rect set_modified emit set_move_preview].
    unfold move_calls. rewrite Hx. split.
    + intros Hline v0 v1 more Hv. rewrite Hline, Hv. reflexivity.
    + intros Hother. apply Nat.eqb_neq in Hother. rewrite Hother. reflexivity.
Qed.

Lemma finish_move_effect_witness :
  modified (finish_move_annotation 120 120 [sample_rect_annot] sample_moving) = true
  /\ calls (finish_move_annotation 120 120 [sample_rect_annot] sample_moving)
     = calls sample_moving ++
       [SetRect (Existing 7)
          (translate (rect sample_rect_annot)
             ((120 - 100) / (zoom_level sample_moving * 1.5))
             ((120 - 100) / (zoom_level sample_moving * 1.5)));
        Update (Existing 7)].
Proof.
  destruct (finish_move_effect 120 120 [sample_rect_annot] sample_moving
              (mkRect 10 10 50 40) 7 100 100 sample_rect_annot
              eq_refl eq_refl eq_refl eq_refl) as [_ Hfar].
  destruct Hfar as (Hmod & _ & Hcalls).
  - left. vm_compute. discriminate.
  - split; [exact Hmod|]. apply Hcalls. discriminate.
Defined.

(** Screen delta (20, 20) at zoom 1.0 moves the rectangle by 20 / 1.5. *)
Example move_by_twenty_pixels :
  (20 / (1 * 1.5) == 40 # 3) /\
  calls (finish_move_annotation 120 120 [sample_rect_annot] sample_moving)
  = [SetRect (Existing 7)
       (mkRect (10 + 20 / (1 * 1.5)) (10 + 20 / (1 * 1.5))
               (50 + 20 / (1 * 1.5)) (40 + 20 / (1 * 1.5)));
     Update (Existing 7)].
Proof. split; [reflexivity|]. vm_compute. reflexivity. Qed.

Example move_line_end_points :
  calls (finish_move_annotation 103 100 [sample_line_annot] sample_moving)
  = [SetVertices (Existing 7)
       [(10 + (103 - 100) / (1 * 1.5), 10 + (100 - 100) / (1 * 1.5));
        (50 + (103 - 100) / (1 * 1.5), 40 + (100 - 100) / (1 * 1.5))];
     Update (Existing 7)].
Proof. vm_compute. reflexivity. Qed.

(** ** Saving (lines 1236-1255) *)

(** C10. With a document open: when the file dialog is cancelled
    nothing changes; when the save succeeds the modified flag is cleared
    and the success is announced; when the save raises, the error is
    shown, and the flag and the document are left as they were. So a
    modified document stops being modified exactly when a path was
    chosen and the save succeeded. *)
Theorem save_pdf_modified_flag (document_save : string -> result unit)
    (save_path : string) (e : Editor) (doc : string) :
  current_pdf e = Some doc ->
  let e' := save_pdf document_save save_path e in
  (save_path = "" -> e' = e)
  /\ (save_path <> "" ->
      forall u, document_save save_path = Ok u ->
      modified e' = false /\ messages e' = messages e ++ [Saved save_path])
  /\ (save_path <> "" ->
      forall ex, document_save save_path = Raise ex ->
      modified e' = modified e /\ calls e' = calls e /\
      messages e' = messages e ++ [SaveFailed ex])
  /\ (modified e = true ->
      (modified e' = false <->
       save_path <> "" /\ exists u, document_save save_path = Ok u)).
Proof.
  intros Hpdf e'. unfold e', save_pdf. rewrite Hpdf.
  destruct (decide (save_path = "")) as [->|Hne].
  - cbn [truthy String.eqb negb].
    split; [done|]. split; [done|]. split; [done|].
    intros Hmod. split; [congruence|by intros [? _]].
  - rewrite (truthy_text _ Hne).
    split; [done|]. split; [|split].
    + intros _ u ->. done.
    + intros _ ex ->. done.
    + intros Hmod. destruct (document_save save_path) as [u|ex]; cbn [modified show set_modified emit].
      * split; [eauto|done].
      * rewrite Hmod. split; [done|]. by intros [_ [u Hu]].
Qed.

Lemma save_pdf_modified_flag_witness :
  modified (save_pdf (fun _ => Raise (External "disk full")) "out.pdf"
              (set_modified true (sample_editor tool_select)))
  = true
  /\ messages (save_pdf (fun _ => Raise (External "disk full")) "out.pdf"
                 (set_modified true (sample_editor tool_select)))
     = [SaveFailed (External "disk full")].
Proof.
  destruct (save_pdf_modified_flag (fun _ => Raise (External "disk full")) "out.pdf"
              (set_modified true (sample_editor tool_select)) "a.pdf" eq_refl)
    as (_ & _ & Hfail & _).
  destruct (Hfail ltac:(discriminate) (External "disk full") eq_refl)
    as (Hmod & _ & Hmsg).
  split; [exact Hmod|exact Hmsg].
Defined.

Example save_pdf_success :
  modified (save_pdf (fun _ => Ok ()) "out.pdf"
              (set_modified true (sample_editor tool_select))) = false.
Proof. reflexivity. Qed.

Local Close Scope Q_scope.

(** ** Extraction: when a table fails, and what the frames look like *)

(** X1. A table makes the frame constructor raise exactly when it has
    data rows and its longest data row is not as long as its header; the
    error is the ValueError that names both widths. *)
Theorem table_frame_raises_iff (page_num table_idx : nat) (table : RawTable)
    (e : exn) :
  table_frame page_num table_idx table = Raise e <->
  list_truthy (table_data table) = true /\
  max_len (table_data table) <> length (table_header table) /\
  e = ValueError (length (table_header table)) (max_len (table_data table)).
Proof.
  unfold table_frame.
  destruct table as [|row0 [|row1 rest]].
  - cbn. split; [done|by intros [? _]].
  - cbn. split; [done|by intros [? _]].
  - rewrite table_data_tail.
    set (header := table_header (row0 :: row1 :: rest)).
    cbn [list_truthy length Nat.eqb negb Nat.ltb Nat.leb andb].
    unfold DataFrame_new.
    destruct (decide (length header = max_len (row1 :: rest))) as [Heq|Hne];
      cbn [mbind result_bind].
    + split; [done|]. intros (_ & Hne & _). by rewrite Heq in Hne.
    + split.
      * intros [= <-]. repeat split. intros H. by rewrite H in Hne.
      * intros (_ & _ & ->). done.
Qed.

Lemma table_frame_raises_iff_witness :
  table_frame 0 0 [[VStr "A"; VStr "B"]; [VStr "1"]] = Raise (ValueError 2 1).
Proof.
  apply (proj2 (table_frame_raises_iff 0 0 [[VStr "A"; VStr "B"]; [VStr "1"]]
                  (ValueError 2 1))).
  repeat split. discriminate.
Defined.

Lemma pad_right_rectangular (data : list (list value)) :
  Forall (fun row => length row = max_len data) (map (pad_right VNone (max_len data)) data).
Proof.
  apply Forall_forall. intros row Hin.
  apply list_elem_of_fmap in Hin as (row' & -> & Hin').
  rewrite length_pad_right. apply max_len_ge in Hin'. lia.
Qed.

Lemma DataFrame_new_rectangular (data : list (list value)) (header : list value)
    (df : DataFrame) :
  DataFrame_new data header = Ok df ->
  rectangular df /\ columns df = header /\ length (rows df) = length data.
Proof.
  unfold DataFrame_new. destruct data as [|r rs].
  - intros [= <-]. repeat split. constructor.
  - remember (r :: rs) as data eqn:Hdata.
    destruct (decide _) as [Heq|]; [|done]. intros Hdf.
    assert (df = mkDataFrame header (map (pad_right VNone (max_len data)) data))
      as -> by congruence.
    unfold rectangular. cbn [columns rows]. rewrite Heq.
    split; [apply pad_right_rectangular|]. split; [done|apply length_map].
Qed.

Lemma setitem_rectangular (df : DataFrame) (label v : value) :
  rectangular df -> rectangular (setitem df label v).
Proof.
  unfold rectangular, setitem. intros Hrect.
  destruct (decide (label ∈ columns df)); cbn [columns rows];
    apply Forall_forall; intros row Hin;
    apply list_elem_of_fmap in Hin as (row' & -> & Hin');
    eapply Forall_forall in Hrect; try exact Hin'.
  - rewrite length_zip_with. lia.
  - rewrite !length_app. cbn. lia.
Qed.

Lemma setitem_length_rows (df : DataFrame) (label v : value) :
  length (rows (setitem df label v)) = length (rows df).
Proof.
  unfold setitem. destruct (decide _); cbn [rows]; apply length_map.
Qed.

Lemma table_frame_shape (page_num table_idx : nat) (table : RawTable)
    (df : DataFrame) :
  table_frame page_num table_idx table = Ok (Some df) ->
  rectangular df /\ length (rows df) = length (table_data table).
Proof.
  unfold table_frame.
  destruct (list_truthy table && (0 <? length table)); [|done].
  destruct (list_truthy (table_data table)); [|done].
  destruct (DataFrame_new _ _) as [df0|e] eqn:Hnew; [|done].
  cbn [mbind result_bind]. intros [= <-].
  apply DataFrame_new_rectangular in Hnew as (Hrect & _ & Hlen).
  split.
  - by do 2 apply setitem_rectangular.
  - by rewrite !setitem_length_rows.
Qed.

(** X2. Every frame that extraction collects is rectangular, carries
    both provenance columns and has at least one row. *)
Theorem extracted_frames_shape (pages : list Page) (all_tables : list DataFrame) :
  extract_all_tables pages = Ok all_tables ->
  Forall (fun df => rectangular df /\ tagged df) all_tables.
Proof.
  intros Hrun. apply Forall_and. split; [|by eapply extract_all_tables_tagged].
  revert Hrun. unfold extract_all_tables.
  apply (for_each_inv (Forall rectangular)); [|constructor].
  intros acc [page_num page] acc' Hacc. unfold collect_page.
  apply (for_each_inv (Forall rectangular)); [|done].
  clear. intros acc [table_idx table] acc' Hacc. unfold collect_table.
  destruct (table_frame page_num table_idx table) as [[df|]|e] eqn:Hframe;
    cbn [mbind result_bind]; intros [= <-]; [|done].
  apply Forall_app. split; [done|]. constructor; [|done].
  by eapply table_frame_shape.
Qed.

Lemma extracted_frames_shape_witness :
  Forall (fun df => rectangular df /\ tagged df)
    [mkDataFrame [VStr "A"; VStr "B"; VStr "_page"; VStr "_table"]
       [[VStr "1"; VNone; VInt 1; VInt 1]]].
Proof.
  apply (extracted_frames_shape
           [mkPage [[[VStr "A"; VStr "B"]; [VStr "1"; VNone]]; []] VNone]).
  reflexivity.
Defined.

Lemma for_each_raises {A S : Type} (f : S -> A -> result S) (l : list A) (x : A) :
  x ∈ l ->
  (forall s, exists e, f s x = Raise e) ->
  forall s, exists e, for_each f l s = Raise e.
Proof.
  intros Hin Hx. induction l as [|y l IH]; intros s; [inversion Hin|].
  rewrite for_each_cons.
  destruct (f s y) as [s'|e] eqn:Hy; cbn [mbind result_bind]; [|eauto].
  apply elem_of_cons in Hin as [->|Hin].
  - destruct (Hx s) as [e He]. congruence.
  - by apply IH.
Qed.

Lemma enumerate_from_lookup {A : Type} (k i : nat) (l : list A) (x : A) :
  l !! i = Some x -> (k + i, x) ∈ enumerate_from k l.
Proof.
  revert k i. induction l as [|y l IH]; intros k [|i] Hi; try done.
  - injection Hi as ->. rewrite Nat.add_0_r. by left.
  - cbn [enumerate_from]. right. replace (k + S i) with (S k + i) by lia.
    by apply IH.
Qed.

(** X3. One table that makes the frame constructor raise, on any page,
    makes the extraction of the whole document raise, whatever the other
    tables are. *)
Theorem extraction_fails_with_table (pages : list Page) (page_num table_idx : nat)
    (page : Page) (table : RawTable) (e : exn) :
  pages !! page_num = Some page ->
  extract_tables page !! table_idx = Some table ->
  table_frame page_num table_idx table = Raise e ->
  exists e', extract_all_tables pages = Raise e'.
Proof.
  intros Hpage Htable Hraise. unfold extract_all_tables.
  apply (for_each_raises _ _ (page_num, page)).
  - by apply (enumerate_from_lookup 0).
  - intros acc. unfold collect_page.
    apply (for_each_raises _ _ (table_idx, table)).
    + by apply (enumerate_from_lookup 0).
    + intros acc'. unfold collect_table. rewrite Hraise. eauto.
Qed.

Lemma extraction_fails_with_table_witness :
  exists e',
    extract_all_tables
      [mkPage [[[VStr "A"]; [VStr "1"]]] VNone;
       mkPage [[]; [[VStr "A"; VStr "B"]; [VStr "1"]]] (VStr "text")]
    = Raise e'.
Proof.
  apply (extraction_fails_with_table _ 1 1
           (mkPage [[]; [[VStr "A"; VStr "B"]; [VStr "1"]]] (VStr "text"))
           [[VStr "A"; VStr "B"]; [VStr "1"]] (ValueError 2 1));
    reflexivity.
Defined.

Lemma table_frame_none_iff (page_num table_idx : nat) (table : RawTable) :
  (1 <? length table) = false -> table_frame page_num table_idx table = Ok None.
Proof. destruct table as [|row0 [|row1 rest]]; done. Qed.

Lemma table_frame_some (page_num table_idx : nat) (table : RawTable)
    (o : option DataFrame) :
  (1 <? length table) = true ->
  table_frame page_num table_idx table = Ok o ->
  exists df, o = Some df.
Proof.
  destruct table as [|row0 [|row1 rest]]; try done. intros _.
  rewrite table_frame_rows.
  destruct (DataFrame_new _ _); cbn [mbind result_bind]; [|done].
  intros [= <-]. eauto.
Qed.

Lemma collect_tables_frames (page_num k : nat) (tables : list RawTable)
    (acc acc' : list DataFrame) :
  for_each (collect_table page_num) (enumerate_from k tables) acc = Ok acc' ->
  exists new,
    acc' = acc ++ new /\
    Forall2
      (fun table df =>
         exists page_num table_idx,
           table_frame page_num table_idx table = Ok (Some df))
      (List.filter (fun table => 1 <? length table) tables) new.
Proof.
  revert k acc. induction tables as [|table tables IH]; intros k acc.
  - cbn [enumerate_from for_each]. intros [= <-].
    exists []. split; [by rewrite app_nil_r|constructor].
  - cbn [enumerate_from]. rewrite for_each_cons, collect_table_eq.
    destruct (table_frame page_num k table) as [o|e] eqn:Hframe;
      cbn [mbind result_bind]; [|done].
    cbn [List.filter].
    destruct (1 <? length table) eqn:Hdata.
    + destruct (table_frame_some _ _ _ _ Hdata Hframe) as [df ->].
      intros Hrun. destruct (IH _ _ Hrun) as (new & -> & Hrel).
      exists (df :: new). split; [by rewrite <- app_assoc|].
      constructor; [eauto|done].
    + rewrite table_frame_none_iff in Hframe by done. injection Hframe as <-.
      intros Hrun. by apply IH in Hrun.
Qed.

Lemma collect_pages_frames (k : nat) (pages : list Page)
    (acc acc' : list DataFrame) :
  for_each collect_page (enumerate_from k pages) acc = Ok acc' ->
  exists new,
    acc' = acc ++ new /\
    Forall2
      (fun table df =>
         exists page_num table_idx,
           table_frame page_num table_idx table = Ok (Some df))
      (List.filter (fun table => 1 <? length table)
         (flat_map extract_tables pages)) new.
Proof.
  revert k acc. induction pages as [|page pages IH]; intros k acc.
  - cbn [enumerate_from for_each]. intros [= <-].
    exists []. split; [by rewrite app_nil_r|constructor].
  - cbn [enumerate_from]. rewrite for_each_cons, collect_page_eq.
    unfold enumerate.
    destruct (for_each (collect_table k) _ acc) as [acc1|e] eqn:Hpage;
      cbn [mbind result_bind]; [|done].
    intros Hrun.
    apply collect_tables_frames in Hpage as (new1 & -> & Hrel1).
    apply IH in Hrun as (new2 & -> & Hrel2).
    exists (new1 ++ new2). split; [by rewrite app_assoc|].
    cbn [flat_map]. rewrite List.filter_app. by apply Forall2_app.
Qed.

(** X4. When extraction succeeds it gives one frame for each table
    that has rows after row 0, in the order of the pages and of the
    tables in a page; a frame has as many rows as its table has after
    row 0. Tables without data rows leave no trace. *)
Theorem extraction_keeps_order (pages : list Page) (all_tables : list DataFrame) :
  extract_all_tables pages = Ok all_tables ->
  Forall2
    (fun table df =>
       length (rows df) = length table - 1 /\
       exists page_num table_idx,
         table_frame page_num table_idx table = Ok (Some df))
    (tables_with_data pages) all_tables.
Proof.
  intros Hrun. apply collect_pages_frames in Hrun as (new & -> & Hrel).
  cbn [app]. eapply Forall2_impl; [exact Hrel|].
  intros table df (page_num & table_idx & Hframe). split; [|eauto].
  apply table_frame_shape in Hframe as [_ ->].
  destruct table; [done|]. rewrite table_data_tail. cbn. lia.
Qed.

Lemma extraction_keeps_order_witness :
  Forall2
    (fun table df =>
       length (rows df) = length table - 1 /\
       exists page_num table_idx,
         table_frame page_num table_idx table = Ok (Some df))
    (tables_with_data
       [mkPage [[[VStr "A"]]; [[VStr "B"]; [VStr "1"]; [VStr "2"]]] VNone])
    [mkDataFrame [VStr "B"; VStr "_page"; VStr "_table"]
       [[VStr "1"; VInt 1; VInt 2]; [VStr "2"; VInt 1; VInt 2]]].
Proof.
  apply extraction_keeps_order. reflexivity.
Defined.

(** ** What a conversion writes *)

Lemma separate_sheets_ok (series_repr : list value -> string)
    (all_tables : list DataFrame) :
  Forall tagged all_tables ->
  exists sheets,
    separate_sheets series_repr all_tables = Ok sheets /\
    Forall2
      (fun df sheet =>
         sheet_header sheet = Some (columns (drop_provenance df)) /\
         sheet_rows sheet = map (map fill) (rows (drop_provenance df)))
      all_tables sheets.
Proof.
  intros Hall.
  destruct (separate_sheets_from series_repr 0 all_tables [] Hall)
    as (sheets & Hrun & Hrel).
  exists sheets. split; [exact Hrun|].
  eapply Forall2_impl; [exact Hrel|].
  by intros df sheet (page & table & _ & _ & ->).
Qed.

Lemma merged_sheet_rows (all_tables : list DataFrame) :
  sheet_rows (merged_sheet all_tables)
  = map (map fill) (map (pad_right VNone (max_len (all_rows all_tables)))
                        (all_rows all_tables)).
Proof. reflexivity. Qed.

Lemma map_fill_not_none (data : list (list value)) :
  Forall (Forall (fun v => v <> VNone)) (map (map fill) data).
Proof.
  apply Forall_forall. intros row Hin.
  apply list_elem_of_fmap in Hin as (row' & -> & _).
  apply Forall_forall. intros v Hv.
  apply list_elem_of_fmap in Hv as (v' & -> & _). by destruct v'.
Qed.

Lemma length_flat_map_block (all_tables : list DataFrame) :
  length (flat_map block all_tables)
  = sum_list (map (fun df => length (rows df) + 2) all_tables).
Proof.
  induction all_tables as [|df tables IH]; [done|].
  cbn [flat_map map sum_list]. rewrite length_app, IH. f_equal.
  unfold block, drop_provenance, drop_labels. cbn [columns rows].
  cbn [length]. rewrite length_app, length_map. cbn [length]. unfold id. lia.
Qed.

(** X6. The merged sheet has, for each frame, its rows and two more
    lines (header and blank), and none of its cells is None. *)
Theorem merged_sheet_size (all_tables : list DataFrame) :
  length (sheet_rows (merged_sheet all_tables))
  = sum_list (map (fun df => length (rows df) + 2) all_tables)
  /\ Forall (Forall (fun v => v <> VNone)) (sheet_rows (merged_sheet all_tables)).
Proof.
  rewrite merged_sheet_rows. split; [|apply map_fill_not_none].
  rewrite !length_map. unfold all_rows. rewrite length_map.
  apply length_flat_map_block.
Qed.

Lemma text_data_not_none (pages : list Page) :
  Forall (Forall (fun v => v <> VNone)) (text_data pages).
Proof.
  unfold text_data, enumerate. rewrite text_data_filter_from.
  apply Forall_forall. intros row Hin.
  apply list_elem_of_fmap in Hin as ([i page] & -> & Hin).
  apply list_elem_of_In, filter_In in Hin as [_ Htext]. cbn [fst snd] in *.
  repeat constructor; [done|]. intros Heq. by rewrite Heq in Htext.
Qed.

Lemma Forall2_right {A B : Type} (R : A -> B -> Prop) (Q : B -> Prop)
    (l : list A) (k : list B) :
  Forall2 R l k -> (forall x y, R x y -> Q y) -> Forall Q k.
Proof. intros H HQ. induction H; constructor; eauto. Qed.

(** X7. A conversion that succeeds writes at its output path and
    nowhere else; the workbook has at least one sheet and no None cell.
    Without a table that has data rows it is the sheet "Text Content"
    alone; with such tables it is the sheet "All Tables" alone in merge
    mode, and one sheet per such table otherwise. *)
Theorem convert_writes_one_workbook
    (pdfplumber_open : string -> result (list Page))
    (writer_open : string -> result unit) (series_repr : list value -> string)
    (pdf_path excel_path : string) (merge_tables : bool)
    (disk disk' : gmap string (list Sheet)) :
  convert_single_file pdfplumber_open writer_open series_repr
    pdf_path excel_path merge_tables disk = Ok disk' ->
  exists pages sheets,
    pdfplumber_open pdf_path = Ok pages /\
    disk' = <[excel_path := sheets]> disk /\
    (forall path, path <> excel_path -> disk' !! path = disk !! path) /\
    sheets <> [] /\
    Forall (fun sheet => Forall (Forall (fun v => v <> VNone)) (sheet_rows sheet))
           sheets /\
    (tables_with_data pages = [] ->
     sheets = [mkSheet "Text Content" (Some [VStr "Page"; VStr "Content"])
                 (text_data pages)]) /\
    (tables_with_data pages <> [] ->
     if merge_tables
     then exists sheet, sheets = [sheet] /\ sheet_name sheet = "All Tables"
     else length sheets = length (tables_with_data pages)).
Proof.
  unfold convert_single_file.
  destruct (pdfplumber_open pdf_path) as [pages|e0] eqn:Hopen;
    cbn [mbind result_bind]; [|done].
  destruct (extract_all_tables pages) as [all_tables|e1] eqn:Hextract;
    cbn [mbind result_bind]; [|done].
  pose proof (collect_pages_frames 0 pages [] all_tables Hextract)
    as (new & Hnew & Hrel). cbn [app] in Hnew. subst new.
  apply Forall2_length in Hrel. fold (tables_with_data pages) in Hrel.
  destruct all_tables as [|df tables].
  - cbn [list_truthy length Nat.eqb negb].
    destruct (text_data pages) as [|r rs] eqn:Htext; [done|].
    cbn [list_truthy length Nat.eqb negb].
    destruct (writer_open excel_path) as [u|e2]; cbn [mbind result_bind]; [|done].
    intros [= <-]. eexists pages, _. split; [done|]. split; [reflexivity|].
    split; [by intros; apply lookup_insert_ne|]. split; [done|].
    split.
    { constructor; [|done]. cbn [to_excel sheet_rows text_frame rows].
      rewrite <- Htext. apply text_data_not_none. }
    split; [intros _; by rewrite Htext|].
    intros Hne. destruct (tables_with_data pages); done.
  - cbn [list_truthy length Nat.eqb negb].
    destruct (writer_open excel_path) as [u|e2]; cbn [mbind result_bind]; [|done].
    assert (Hdata : tables_with_data pages <> []).
    { intros Heq. by rewrite Heq in Hrel. }
    destruct merge_tables.
    + intros [= <-]. eexists pages, _. split; [done|]. split; [reflexivity|].
      split; [by intros; apply lookup_insert_ne|]. split; [done|].
      split; [constructor; [apply merged_sheet_size|done]|].
      split; [done|]. intros _. eauto.
    + destruct (separate_sheets_ok series_repr (df :: tables))
        as (sheets & Hrun & Hsheets); [by eapply extract_all_tables_tagged|].
      rewrite Hrun. cbn [mbind result_bind].
      intros [= <-]. exists pages, sheets. split; [done|]. split; [reflexivity|].
      split; [by intros; apply lookup_insert_ne|].
      pose proof (Forall2_length _ _ _ Hsheets) as Hlen.
      split; [by destruct sheets|].
      split.
      { eapply Forall2_right; [exact Hsheets|].
        intros df' sheet [_ ->]. apply map_fill_not_none. }
      split; [done|]. intros _. congruence.
Qed.

Lemma convert_writes_one_workbook_witness :
  exists pages sheets,
    sample_open "a.pdf" = Ok pages /\
    sheets <> [] /\
    (tables_with_data pages = [] ->
     sheets = [mkSheet "Text Content" (Some [VStr "Page"; VStr "Content"])
                 (text_data pages)]).
Proof.
  destruct (convert_writes_one_workbook sample_open (fun _ => Ok ()) (fun _ => "")
              "a.pdf" "a.xlsx" true ∅
              (<["a.xlsx" :=
                   [mkSheet "Text Content" (Some [VStr "Page"; VStr "Content"])
                      [[VInt 1; VStr "text of a"]]]]> ∅) eq_refl)
    as (pages & sheets & Hopen & _ & _ & Hne & _ & Htext & _).
  exists pages, sheets. split; [exact Hopen|]. split; [exact Hne|exact Htext].
Defined.

(** ** Separate sheets and text records *)

Lemma take_mask_keeps (labels : list value) (cols : list value) :
  Forall (fun c => c ∉ labels)
    (take_mask (map (fun c => bool_decide (c ∉ labels)) cols) cols).
Proof.
  induction cols as [|c cols IH]; [constructor|].
  cbn [map take_mask]. destruct (bool_decide (c ∉ labels)) eqn:Hc; [|done].
  constructor; [|done]. by apply bool_decide_eq_true in Hc.
Qed.

(** X8. In separate mode the header of a sheet never has a cell named
    _page or _table, every row of the sheet is as long as that header,
    and no cell is None. *)
Theorem separate_sheets_headers (series_repr : list value -> string)
    (all_tables : list DataFrame) (sheets : list Sheet) :
  Forall (fun df => rectangular df /\ tagged df) all_tables ->
  separate_sheets series_repr all_tables = Ok sheets ->
  Forall
    (fun sheet =>
       exists header,
         sheet_header sheet = Some header /\
         Forall (fun c => c ∉ provenance) header /\
         Forall (fun row => length row = length header) (sheet_rows sheet) /\
         Forall (Forall (fun v => v <> VNone)) (sheet_rows sheet))
    sheets.
Proof.
  intros Hall Hrun. apply Forall_and in Hall as [Hrect Htagged].
  destruct (separate_sheets_ok series_repr all_tables Htagged)
    as (sheets' & Hrun' & Hrel).
  assert (sheets' = sheets) as -> by congruence. clear Hrun Hrun' Htagged.
  induction Hrel as [|df sheet tables sheets [Hh Hr] Hrel IH]; [constructor|].
  inversion Hrect as [|? ? Hdf Hrest]; subst.
  constructor; [|by apply IH].
  exists (columns (drop_provenance df)). split; [done|].
  split; [apply take_mask_keeps|]. rewrite Hr. split; [|apply map_fill_not_none].
  apply (drop_labels_rectangular provenance) in Hdf.
  apply Forall_forall. intros row Hin.
  apply list_elem_of_fmap in Hin as (row' & -> & Hin'). rewrite length_map.
  eapply Forall_forall in Hdf; eauto.
Qed.

Lemma separate_sheets_headers_witness :
  Forall
    (fun sheet =>
       exists header,
         sheet_header sheet = Some header /\
         Forall (fun c => c ∉ provenance) header /\
         Forall (fun row => length row = length header) (sheet_rows sheet) /\
         Forall (Forall (fun v => v <> VNone)) (sheet_rows sheet))
    [mkSheet "Page1_Table1" (Some [VStr "B"]) [[VStr ""]]].
Proof.
  apply (separate_sheets_headers (fun _ => "")
           [mkDataFrame [VStr "_page"; VStr "B"; VStr "_table"]
              [[VInt 1; VNone; VInt 1]]]).
  - repeat constructor; try discriminate;
      apply (bool_decide_unpack _); vm_compute; exact I.
  - reflexivity.
Defined.

Lemma enumerate_from_elem {A : Type} (k i : nat) (l : list A) (x : A) :
  (i, x) ∈ enumerate_from k l <-> k <= i /\ l !! (i - k) = Some x.
Proof.
  revert k. induction l as [|y l IH]; intros k; cbn [enumerate_from].
  - split; [inversion 1|by intros [_ ?]].
  - rewrite elem_of_cons, IH. split.
    + intros [[= -> ->]|[Hle Hl]].
      * split; [lia|]. by rewrite Nat.sub_diag.
      * split; [lia|]. by replace (i - k) with (S (i - S k)) by lia.
    + intros [Hle Hl]. destruct (decide (i = k)) as [->|Hne].
      * left. rewrite Nat.sub_diag in Hl. by injection Hl as ->.
      * right. split; [lia|]. by replace (i - k) with (S (i - S k)) in Hl by lia.
Qed.

(** X9. The text records are exactly the pairs of a 1-based page
    number and the text of that page, for the pages whose text is
    non-empty. *)
Theorem text_data_records (pages : list Page) (row : list value) :
  row ∈ text_data pages <->
  exists page_num page,
    pages !! page_num = Some page /\
    truthy (extract_text page) = true /\
    row = [VInt (page_num + 1); extract_text page].
Proof.
  unfold text_data, enumerate. rewrite text_data_filter_from.
  rewrite list_elem_of_fmap. split.
  - intros ([i page] & -> & Hin).
    apply list_elem_of_In, filter_In in Hin as [Hin Htext]. cbn [fst snd] in *.
    exists i, page. split; [|done].
    apply list_elem_of_In, enumerate_from_elem in Hin as [_ Hl].
    by rewrite Nat.sub_0_r in Hl.
  - intros (i & page & Hl & Htext & ->). exists (i, page). split; [done|].
    apply list_elem_of_In, filter_In. split; [|done].
    apply list_elem_of_In, enumerate_from_elem. split; [lia|].
    by rewrite Nat.sub_0_r.
Qed.

Lemma text_data_records_witness :
  [VInt 2; VStr "hello"]
  ∈ text_data [mkPage [] (VStr ""); mkPage [] (VStr "hello")].
Proof.
  apply (proj2 (text_data_records [mkPage [] (VStr ""); mkPage [] (VStr "hello")]
                  [VInt 2; VStr "hello"])).
  exists 1, (mkPage [] (VStr "hello")). repeat split.
Defined.

(** ** The batch: messages and untouched files *)

Lemma batch_effect_messages (pdfplumber_open : string -> result (list Page))
    (writer_open : string -> result unit) (series_repr : list value -> string)
    (path_name : string -> string) (merge_tables : bool)
    (save_paths : list (string * string)) (d : gmap string (list Sheet))
    (q : list Dialog) :
  (batch_effect pdfplumber_open writer_open series_repr path_name merge_tables
     save_paths d q).2
  = q ++ omap
           (fun job =>
              match convert_single_file pdfplumber_open writer_open series_repr
                      job.1 job.2 merge_tables ∅ with
              | Ok _ => None
              | Raise e => Some (ConversionFailed (path_name job.1) e)
              end)
           save_paths.
Proof.
  revert d q. induction save_paths as [|[pdf_path excel_path] rest IH]; intros d q.
  - cbn. by rewrite app_nil_r.
  - cbn [batch_effect omap list_omap fst snd].
    destruct (convert_outcome pdfplumber_open writer_open series_repr
                merge_tables pdf_path excel_path) as [[sheets H]|[e H]];
      rewrite (H d), (H ∅).
    + apply IH.
    + rewrite IH. by rewrite <- app_assoc.
Qed.

(** X10. The messages a batch queues are, after those already there,
    one failure message for each file whose conversion raises, in the
    order of the batch and with the error that file raises on its own,
    and then the completion message. *)
Theorem batch_messages (pdfplumber_open : string -> result (list Page))
    (writer_open : string -> result unit) (series_repr : list value -> string)
    (path_name : string -> string) (save_paths : list (string * string))
    (merge_tables : bool) (gui : Gui) :
  after_queue
    (convert_files pdfplumber_open writer_open series_repr path_name
       save_paths merge_tables gui)
  = after_queue gui
    ++ omap
         (fun job =>
            match convert_single_file pdfplumber_open writer_open series_repr
                    job.1 job.2 merge_tables ∅ with
            | Ok _ => None
            | Raise e => Some (ConversionFailed (path_name job.1) e)
            end)
         save_paths
    ++ [ConversionDone].
Proof.
  destruct (convert_files_effect pdfplumber_open writer_open series_repr path_name
              merge_tables save_paths gui) as (_ & -> & _).
  rewrite batch_effect_messages. by rewrite <- app_assoc.
Qed.

(** X11. A batch leaves as it was every file that is not the output
    path of one of its jobs. *)
Theorem batch_touches_only_outputs
    (pdfplumber_open : string -> result (list Page))
    (writer_open : string -> result unit) (series_repr : list value -> string)
    (path_name : string -> string) (save_paths : list (string * string))
    (merge_tables : bool) (gui : Gui) (path : string) :
  path ∉ map snd save_paths ->
  disk (convert_files pdfplumber_open writer_open series_repr path_name
          save_paths merge_tables gui) !! path
  = disk gui !! path.
Proof.
  intros Hpath.
  destruct (convert_files_effect pdfplumber_open writer_open series_repr path_name
              merge_tables save_paths gui) as (-> & _ & _).
  apply effect_keeps. apply Forall_forall. intros job Hin Heq.
  apply Hpath. apply list_elem_of_fmap. by exists job.
Qed.

Lemma batch_touches_only_outputs_witness :
  disk (convert_files sample_open (fun _ => Ok ()) (fun _ => "") (fun p => p)
          [("a.pdf", "a.xlsx"); ("b.pdf", "b.xlsx")] true
          (mkGui ∅ Waiting 0%Q []))
  !! "old.xlsx"
  = disk (mkGui ∅ Waiting 0%Q []) !! "old.xlsx".
Proof.
  apply (batch_touches_only_outputs sample_open (fun _ => Ok ()) (fun _ => "")
           (fun p => p) [("a.pdf", "a.xlsx"); ("b.pdf", "b.xlsx")] true
           (mkGui ∅ Waiting 0%Q []) "old.xlsx").
  apply (bool_decide_unpack _). vm_compute. exact I.
Defined.

Local Open Scope Q_scope.

(** ** Selecting and starting a move (lines 758-779, 1020-1080) *)

Lemma find_first {A : Type} (f : A -> bool) (before after : list A) (x : A) :
  Forall (fun y => f y = false) before -> f x = true ->
  List.find f (before ++ x :: after) = Some x.
Proof.
  intros Hbefore Hx. induction Hbefore as [|y before Hy _ IH]; cbn [app List.find].
  - by rewrite Hx.
  - by rewrite Hy.
Qed.

Lemma find_none_all {A : Type} (f : A -> bool) (l : list A) :
  Forall (fun y => f y = false) l -> List.find f l = None.
Proof.
  intros Hall. induction Hall as [|y l Hy _ IH]; cbn [List.find]; [done|].
  by rewrite Hy.
Qed.

(** X12. Clicking with the select tool selects the first annotation,
    in page order, whose rectangle holds the point, and clears the
    selection when none does; what is selected is always an annotation
    of the page that holds the point. Nothing is called on the document
    and the modified flag is untouched. *)
Theorem select_annotation_at_first_match (canvasx canvasy : Q -> Q)
    (rect_contains : Rect -> Point -> bool) (x y : Q) (annots : list Annot)
    (e : Editor) (doc : string) :
  current_pdf e = Some doc ->
  let point := canvas_to_pdf canvasx canvasy e x y in
  let e' := select_annotation_at canvasx canvasy rect_contains x y annots e in
  (forall before annot after,
     annots = before ++ annot :: after ->
     misses rect_contains point before ->
     rect_contains (rect annot) point = true ->
     selected_annot_xref e' = Some (xref annot))
  /\ (misses rect_contains point annots -> selected_annot_xref e' = None)
  /\ (forall sel, selected_annot_xref e' = Some sel ->
        exists annot, annot ∈ annots /\ xref annot = sel /\
                      rect_contains (rect annot) point = true)
  /\ calls e' = calls e /\ modified e' = modified e.
Proof.
  intros Hpdf point e'. unfold e', select_annotation_at. rewrite Hpdf.
  fold point. split; [|split; [|split]].
  - intros before annot after -> Hmiss Hhit.
    rewrite (find_first (fun a => rect_contains (rect a) point) before after annot)
      by done.
    reflexivity.
  - intros Hmiss.
    rewrite (find_none_all (fun a => rect_contains (rect a) point)) by done.
    reflexivity.
  - intros sel.
    destruct (List.find _ annots) as [annot|] eqn:Hfind; cbn; [|done].
    intros [= <-]. apply find_some in Hfind as [Hin Hhit].
    exists annot. split; [by apply list_elem_of_In|done].
  - by destruct (List.find _ annots).
Qed.

Lemma select_annotation_at_first_match_witness :
  selected_annot_xref
    (select_annotation_at (fun x => x) (fun y => y)
       (fun r p => negb (Qltb (fst p) (x0 r)) && negb (Qltb (x1 r) (fst p)))
       30 30 [mkAnnot 5 4 (mkRect 100 0 200 50) None; sample_rect_annot;
              sample_line_annot]
       (sample_editor tool_select))
  = Some (xref sample_rect_annot).
Proof.
  refine (proj1 (select_annotation_at_first_match (fun x => x) (fun y => y)
                   (fun r p => negb (Qltb (fst p) (x0 r)) && negb (Qltb (x1 r) (fst p)))
                   30 30 [mkAnnot 5 4 (mkRect 100 0 200 50) None; sample_rect_annot;
                          sample_line_annot]
                   (sample_editor tool_select) "a.pdf" eq_refl)
                [mkAnnot 5 4 (mkRect 100 0 200 50) None] sample_rect_annot
                [sample_line_annot] eq_refl _ eq_refl).
  repeat constructor.
Defined.

(** X13. With the select tool, a press starts a move exactly when an
    annotation is selected, is on the page and holds the point; the move
    then remembers that annotation's rectangle and keeps the selection.
    The press is recorded as the start of the drag and nothing is called
    on the document. *)
Theorem press_enters_move_iff (canvasx canvasy : Q -> Q)
    (rect_contains : Rect -> Point -> bool) (ex ey : Q) (annots : list Annot)
    (text : option string) (font_size : option Z) (e : Editor) (doc : string) :
  current_pdf e = Some doc ->
  current_tool e = tool_select ->
  is_moving e = false ->
  let point := canvas_to_pdf canvasx canvasy e ex ey in
  let e' :=
    on_mouse_press canvasx canvasy rect_contains ex ey annots text font_size e in
  (is_moving e' = true <->
   exists sel annot,
     selected_annot_xref e = Some sel /\
     List.find (has_xref sel) annots = Some annot /\
     rect_contains (rect annot) point = true)
  /\ (forall sel annot,
        selected_annot_xref e = Some sel ->
        List.find (has_xref sel) annots = Some annot ->
        rect_contains (rect annot) point = true ->
        moving_annot_rect e' = Some (rect annot) /\
        selected_annot_xref e' = Some sel)
  /\ drag_start e' = Some (canvasx ex, canvasy ey)
  /\ calls e' = calls e /\ modified e' = modified e.
Proof.
  intros Hpdf Htool Hmoving point e'.
  unfold e', on_mouse_press. rewrite Hpdf.
  cbn [current_tool set_drag_start]. rewrite Htool.
  unfold check_click_on_selected, start_move_annotation, select_annotation_at.
  cbn [current_pdf selected_annot_xref set_drag_start set_is_moving].
  rewrite Hpdf.
  change (canvas_to_pdf canvasx canvasy _ ex ey) with point.
  destruct (selected_annot_xref e) as [sel|] eqn:Hsel.
  - rewrite bool_decide_eq_true_2 by done. cbn [andb].
    destruct (List.find (has_xref sel) annots) as [annot|] eqn:Hfind.
    + destruct (rect_contains (rect annot) point) eqn:Hhit.
      * cbn. split; [split; [eauto|done]|].
        split; [|done]. intros sel' annot' [= <-] Hf _.
        rewrite Hfind in Hf. by injection Hf as <-.
      * split.
        { split.
          - destruct (List.find (fun a => rect_contains (rect a) point) annots); cbn; by rewrite Hmoving.
          - intros (sel' & annot' & [= <-] & Hf & Hhit').
            rewrite Hfind in Hf. injection Hf as <-. congruence. }
        split.
        { intros sel' annot' [= <-] Hf Hhit'.
          rewrite Hfind in Hf. injection Hf as <-. congruence. }
        by destruct (List.find (fun a => rect_contains (rect a) point) annots).
    + split.
      { split.
        - destruct (List.find (fun a => rect_contains (rect a) point) annots); cbn; by rewrite Hmoving.
        - intros (sel' & annot' & [= <-] & Hf & _). congruence. }
      split; [intros sel' annot' [= <-] Hf; congruence|].
      by destruct (List.find (fun a => rect_contains (rect a) point) annots).
  - rewrite bool_decide_eq_false_2 by (by intros H; apply H). cbn [andb].
    split.
    { split.
      - destruct (List.find (fun a => rect_contains (rect a) point) annots); cbn; by rewrite Hmoving.
      - by intros (sel' & annot' & [=] & _). }
    split; [by intros sel' annot' [=]|].
    by destruct (List.find (fun a => rect_contains (rect a) point) annots).
Qed.

Lemma press_enters_move_iff_witness :
  moving_annot_rect
    (on_mouse_press (fun x => x) (fun y => y) (fun _ _ => true) 30 30
       [sample_rect_annot] None None
       (set_is_moving false (set_moving_annot_rect None sample_moving)))
  = Some (rect sample_rect_annot).
Proof.
  refine (proj1 (proj1 (proj2 (press_enters_move_iff (fun x => x) (fun y => y)
                                 (fun _ _ => true) 30 30 [sample_rect_annot]
                                 None None
                                 (set_is_moving false
                                    (set_moving_annot_rect None sample_moving))
                                 "a.pdf" eq_refl eq_refl eq_refl))
                  7%nat sample_rect_annot eq_refl eq_refl eq_refl)).
Defined.

(** X14. With the note or text tool, a press whose text dialog is
    cancelled or left empty only records the press point: no annotation,
    no change of the modified flag. Without a document it does nothing. *)
Theorem press_without_text_is_noop (canvasx canvasy : Q -> Q)
    (rect_contains : Rect -> Point -> bool) (ex ey : Q) (annots : list Annot)
    (text : option string) (font_size : option Z) (e : Editor) :
  current_tool e = tool_note \/ current_tool e = tool_text ->
  text = None \/ text = Some "" ->
  on_mouse_press canvasx canvasy rect_contains ex ey annots text font_size e
  = match current_pdf e with
    | Some _ => set_drag_start (Some (canvasx ex, canvasy ey)) e
    | None => e
    end.
Proof.
  intros Htool Htext. unfold on_mouse_press.
  destruct (current_pdf e) as [doc|] eqn:Hpdf; [|done].
  cbn [current_tool set_drag_start].
  destruct Htool as [-> | ->]; unfold add_sticky_note, add_text_box;
    cbn [current_pdf set_drag_start]; rewrite Hpdf;
    by destruct Htext as [-> | ->].
Qed.

Lemma press_without_text_is_noop_witness :
  calls (on_mouse_press (fun x => x) (fun y => y) (fun _ _ => true) 30 30 []
           (Some "") None (sample_editor tool_note))
  = [].
Proof.
  rewrite (press_without_text_is_noop (fun x => x) (fun y => y) (fun _ _ => true)
             30 30 [] (Some "") None (sample_editor tool_note)
             (or_introl eq_refl) (or_intror eq_refl)).
  reflexivity.
Defined.

(** ** The rectangle of a drag (lines 893-897) *)

Lemma normalize_corners (r : Rect) :
  x0 (normalize r) = (if Qltb (x1 r) (x0 r) then x1 r else x0 r)
  /\ x1 (normalize r) = (if Qltb (x1 r) (x0 r) then x0 r else x1 r)
  /\ y0 (normalize r) = (if Qltb (y1 r) (y0 r) then y1 r else y0 r)
  /\ y1 (normalize r) = (if Qltb (y1 r) (y0 r) then y0 r else y1 r).
Proof.
  unfold normalize.
  destruct (Qltb (x1 r) (x0 r)); cbn [x0 y0 x1 y1];
    destruct (Qltb (y1 r) (y0 r)); cbn [x0 y0 x1 y1]; done.
Qed.

Lemma swap_low_high (a b : Q) :
  (if Qltb b a then b else a) <= (if Qltb b a then a else b)
  /\ (if Qltb a b then a else b) == (if Qltb b a then b else a)
  /\ (if Qltb a b then b else a) == (if Qltb b a then a else b).
Proof.
  destruct (Qltb b a) eqn:Hba; destruct (Qltb a b) eqn:Hab;
    repeat match goal with
           | H : Qltb _ _ = true |- _ => apply Qltb_lt in H
           | H : Qltb _ _ = false |- _ => apply Qltb_ge in H
           end.
  - exfalso. eapply Qlt_irrefl, Qlt_trans; eassumption.
  - repeat split; [by apply Qlt_le_weak|reflexivity..].
  - repeat split; [done|reflexivity..].
  - repeat split; [done|by apply Qle_antisym..].
Qed.

(** X15. The rectangle of a drag is ordered (x0 <= x1, y0 <= y1)
    whatever the direction of the drag, and dragging from the opposite
    corner gives the same rectangle. *)
Theorem drag_rect_ordered (e : Editor) (start end_ : Point) :
  let r := drag_rect e start end_ in
  x0 r <= x1 r /\ y0 r <= y1 r
  /\ (x0 (drag_rect e end_ start) == x0 r /\ x1 (drag_rect e end_ start) == x1 r
      /\ y0 (drag_rect e end_ start) == y0 r /\ y1 (drag_rect e end_ start) == y1 r).
Proof.
  destruct start as [sx sy], end_ as [ex ey].
  unfold drag_rect, canvas_to_pdf_point. cbn [fst snd].
  set (z := zoom_level e * 1.5).
  destruct (normalize_corners (mkRect (sx / z) (sy / z) (ex / z) (ey / z)))
    as (-> & -> & -> & ->).
  destruct (normalize_corners (mkRect (ex / z) (ey / z) (sx / z) (sy / z)))
    as (-> & -> & -> & ->).
  cbn [x0 y0 x1 y1].
  destruct (swap_low_high (sx / z) (ex / z)) as (Hx1 & Hx2 & Hx3).
  destruct (swap_low_high (sy / z) (ey / z)) as (Hy1 & Hy2 & Hy3).
  repeat split; assumption.
Qed.

(** ** The end of a gesture (lines 795-836) *)

Lemma finish_move_keeps (x y : Q) (annots : list Annot) (e : Editor) :
  let e' := finish_move_annotation x y annots e in
  current_pdf e' = current_pdf e /\ current_tool e' = current_tool e
  /\ selected_annot_xref e' = selected_annot_xref e
  /\ zoom_level e' = zoom_level e
  /\ (modified e = true -> modified e' = true)
  /\ exists added, calls e' = calls e ++ added.
Proof.
  unfold finish_move_annotation.
  cbn [moving_annot_rect selected_annot_xref drag_start zoom_level set_move_preview].
  destruct (moving_annot_rect e); [|repeat split; try done; exists []; by rewrite app_nil_r].
  destruct (selected_annot_xref e) as [sel|] eqn:Hsel;
    [|repeat split; try done; exists []; by rewrite app_nil_r].
  destruct (drag_start e) as [[sx sy]|];
    [|repeat split; try done; exists []; by rewrite app_nil_r].
  destruct (_ && _); [repeat split; try done; exists []; by rewrite app_nil_r|].
  destruct (List.find (has_xref sel) annots) as [annot|];
    [|repeat split; try done; exists []; by rewrite app_nil_r].
  repeat split; try done. cbn. eauto.
Qed.

(** X16. Releasing the button without a document or without a
    recorded press changes nothing. Otherwise it always forgets the
    press point, and with the select tool it leaves move mode. It never
    changes the tool, the selection or the zoom. *)
Theorem release_ends_gesture (canvasx canvasy : Q -> Q) (ex ey : Q)
    (annots : list Annot) (apply_now : bool) (e : Editor) :
  let e' := on_mouse_release canvasx canvasy ex ey annots apply_now e in
  (current_pdf e = None \/ drag_start e = None -> e' = e)
  /\ (current_pdf e <> None -> drag_start e' = None)
  /\ (current_pdf e <> None -> drag_start e <> None ->
      current_tool e = tool_select -> is_moving e' = false)
  /\ current_tool e' = current_tool e
  /\ selected_annot_xref e' = selected_annot_xref e
  /\ zoom_level e' = zoom_level e.
Proof.
  intros e'. unfold e', on_mouse_release.
  destruct (current_pdf e) as [doc|] eqn:Hpdf; [|by repeat split].
  destruct (drag_start e) as [[sx sy]|] eqn:Hdrag; [|by repeat split].
  split; [by intros [?|?]|].
  destruct (finish_move_keeps (canvasx ex) (canvasy ey) annots e)
    as (_ & Htool & Hsel & Hzoom & _).
  destruct (bool_decide (current_tool e = tool_select)) eqn:Hselect.
  - apply bool_decide_eq_true in Hselect. cbn [andb].
    destruct (is_moving e) eqn:Hmoving.
    + cbn [drag_start is_moving current_tool selected_annot_xref zoom_level
           set_drag_start set_is_moving].
      repeat split; done.
    + rewrite Hselect. rewrite bool_decide_eq_true_2 by set_solver.
      rewrite andb_false_r. cbn. repeat split; done.
  - cbn [andb]. apply bool_decide_eq_false in Hselect.
    destruct (_ && _); [by repeat split|].
    destruct (current_tool e) eqn:Ht; cbn; rewrite ?Ht; by repeat split.
Qed.

Lemma release_ends_gesture_witness :
  drag_start (on_mouse_release (fun x => x) (fun y => y) 130 120 [] false
                (sample_editor tool_rect))
  = None.
Proof.
  refine (proj1 (proj2 (release_ends_gesture (fun x => x) (fun y => y) 130 120
                          [] false (sample_editor tool_rect))) _).
  discriminate.
Defined.

Lemma release_extends (canvasx canvasy : Q -> Q) (ex ey : Q)
    (annots : list Annot) (apply_now : bool) (e : Editor) :
  let e' := on_mouse_release canvasx canvasy ex ey annots apply_now e in
  (modified e' = modified e /\ calls e' = calls e)
  \/ (modified e' = true /\ exists c rest, calls e' = calls e ++ c :: rest).
Proof.
  intros e'. unfold e', on_mouse_release.
  destruct (current_pdf e) as [doc|]; [|by left].
  destruct (drag_start e) as [[sx sy]|] eqn:Hdrag; [|by left].
  destruct (_ && _).
  - unfold finish_move_annotation.
    cbn [moving_annot_rect selected_annot_xref drag_start zoom_level
         set_move_preview].
    rewrite Hdrag.
    destruct (moving_annot_rect e); [|by left].
    destruct (selected_annot_xref e) as [sel|]; [|by left].
    destruct (_ && _); [by left|].
    destruct (List.find (has_xref sel) annots) as [annot|]; [|by left].
    right. split; [done|]. cbn. unfold move_calls.
    destruct (Nat.eqb (annot_type annot) 3); [|cbn; eauto].
    destruct (vertices annot) as [[|v0 [|v1 more]]|]; cbn; eauto.
  - destruct (_ && _); [by left|].
    destruct (current_tool e); try (by left); right; (split; [done|]); cbn; eauto.
Qed.

Lemma press_extends (canvasx canvasy : Q -> Q)
    (rect_contains : Rect -> Point -> bool) (ex ey : Q) (annots : list Annot)
    (text : option string) (font_size : option Z) (e : Editor) :
  let e' :=
    on_mouse_press canvasx canvasy rect_contains ex ey annots text font_size e in
  (modified e' = modified e /\ calls e' = calls e)
  \/ (modified e' = true /\ exists c rest, calls e' = calls e ++ c :: rest).
Proof.
  intros e'. unfold e', on_mouse_press.
  destruct (current_pdf e) as [doc|] eqn:Hpdf; [|by left].
  cbn [current_tool set_drag_start].
  destruct (current_tool e); try (by left).
  - destruct (_ && _).
    + unfold start_move_annotation. cbn [current_pdf selected_annot_xref set_is_moving set_drag_start].
      rewrite Hpdf. destruct (selected_annot_xref e) as [sel|]; [|by left].
      by destruct (List.find (has_xref sel) annots); left.
    + unfold select_annotation_at. cbn [current_pdf set_drag_start]. rewrite Hpdf.
      by destruct (List.find _ annots); left.
  - unfold add_sticky_note. cbn [current_pdf set_drag_start]. rewrite Hpdf.
    destruct text as [text|]; [|by left].
    destruct (truthy (VStr text)); [|by left].
    right. split; [done|]. cbn. eauto.
  - unfold add_text_box. cbn [current_pdf set_drag_start]. rewrite Hpdf.
    destruct text as [text|]; [|by left].
    destruct (truthy (VStr text)); [|by left].
    right. split; [done|]. cbn. eauto.
Qed.

Lemma extends_facts (e e' : Editor) :
  (modified e' = modified e /\ calls e' = calls e)
  \/ (modified e' = true /\ exists c rest, calls e' = calls e ++ c :: rest) ->
  (modified e = true -> modified e' = true)
  /\ (exists added, calls e' = calls e ++ added)
  /\ (modified e' <> modified e -> calls e' <> calls e).
Proof.
  intros [[Hm Hc]|[Hm (c & rest & Hc)]].
  - split; [congruence|]. split; [exists []; by rewrite app_nil_r|congruence].
  - split; [done|]. split; [eauto|]. intros _ Heq. rewrite Hc in Heq.
    rewrite <- (app_nil_r (calls e)) in Heq at 2. by apply app_inv_head in Heq.
Qed.

(** X17. Pressing and releasing never clear the modified flag and
    never remove a call already made on the document; the flag changes
    only when a call is added. *)
Theorem handlers_keep_modified (canvasx canvasy : Q -> Q)
    (rect_contains : Rect -> Point -> bool) (ex ey : Q) (annots : list Annot)
    (text : option string) (font_size : option Z) (apply_now : bool) (e : Editor) :
  let pressed :=
    on_mouse_press canvasx canvasy rect_contains ex ey annots text font_size e in
  let released := on_mouse_release canvasx canvasy ex ey annots apply_now e in
  (modified e = true -> modified pressed = true /\ modified released = true)
  /\ (exists added, calls pressed = calls e ++ added)
  /\ (exists added, calls released = calls e ++ added)
  /\ (modified pressed <> modified e -> calls pressed <> calls e)
  /\ (modified released <> modified e -> calls released <> calls e).
Proof.
  intros pressed released.
  destruct (extends_facts e pressed
              (press_extends canvasx canvasy rect_contains ex ey annots text
                 font_size e)) as (Hp1 & Hp2 & Hp3).
  destruct (extends_facts e released
              (release_extends canvasx canvasy ex ey annots apply_now e))
    as (Hr1 & Hr2 & Hr3).
  repeat split; auto.
Qed.

Lemma handlers_keep_modified_witness :
  modified (on_mouse_press (fun x => x) (fun y => y) (fun _ _ => false) 10 10 []
              None None (set_modified true (sample_editor tool_select)))
  = true.
Proof.
  refine (proj1 (proj1 (handlers_keep_modified (fun x => x) (fun y => y)
                          (fun _ _ => false) 10 10 [] None None false
                          (set_modified true (sample_editor tool_select))) _)).
  reflexivity.
Defined.

Local Open Scope Q_scope.

(** ** Zoom (lines 426-431, 483-487, 1413-1421) *)

(** X18. Zooming in never goes above 3.0 and zooming out never goes
    below 0.5; from a level in range both stay in range, zooming in does
    not decrease the level and zooming out does not increase it; reset
    gives 1.0 and each percentage of the combobox gives a level between
    0.5 and 3.0. *)
Theorem zoom_stays_in_range (e : Editor) :
  zoom_level (zoom_in e) <= 3
  /\ 0.5 <= zoom_level (zoom_out e)
  /\ (0.5 <= zoom_level e -> 0.5 <= zoom_level (zoom_in e))
  /\ (zoom_level e <= 3 -> zoom_level (zoom_out e) <= 3)
  /\ (zoom_level e <= 3 -> zoom_level e <= zoom_level (zoom_in e))
  /\ (0.5 <= zoom_level e -> zoom_level (zoom_out e) <= zoom_level e)
  /\ zoom_level (reset_zoom e) = 1
  /\ (forall percent, percent ∈ zoom_combo_values ->
        0.5 <= zoom_level (on_zoom_combo_change percent e) <= 3).
Proof.
  unfold zoom_in, zoom_out, reset_zoom, on_zoom_combo_change.
  cbn [zoom_level set_zoom_level].
  destruct (Qltb (zoom_level e + 0.1) 3) eqn:Hin;
    destruct (Qltb 0.5 (zoom_level e - 0.1)) eqn:Hout;
    repeat match goal with
           | H : Qltb _ _ = true |- _ => apply Qltb_lt in H
           | H : Qltb _ _ = false |- _ => apply Qltb_ge in H
           end;
    (split; [lra|]); (split; [lra|]); (split; [intros; lra|]);
    (split; [intros; lra|]); (split; [intros; lra|]); (split; [intros; lra|]);
    (split; [reflexivity|]);
    intros percent Hp; unfold zoom_combo_values in Hp;
    repeat (apply elem_of_cons in Hp as [->|Hp]; [split; discriminate|]);
    inversion Hp.
Qed.

Lemma zoom_stays_in_range_witness :
  0.5 <= zoom_level (zoom_in (sample_editor tool_select)).
Proof.
  refine (proj1 (proj2 (proj2 (zoom_stays_in_range (sample_editor tool_select)))) _).
  discriminate.
Defined.

Example zoom_in_at_the_top :
  zoom_level (zoom_in (set_zoom_level 2.95 (sample_editor tool_select))) = 3.
Proof. reflexivity. Qed.

Local Close Scope Q_scope.

(** ** Page navigation (lines 443-481, 1383-1411) *)

(** X19. When the current page is a page of the document, it still is
    after go_to_page, go_to_first_page, go_to_last_page, prev_page,
    next_page and a spinbox entry, whatever their argument; they leave
    the page count, the calls and the modified flag alone, and when they
    change anything the selection is cleared. *)
Theorem navigation_stays_in_document (v : View) (page : Z) (entry : option Z) :
  current_page (editor v) < total_pages v ->
  Forall
    (fun v' =>
       current_page (editor v') < total_pages v'
       /\ total_pages v' = total_pages v
       /\ calls (editor v') = calls (editor v)
       /\ modified (editor v') = modified (editor v)
       /\ (v' = v \/ selected_annot_xref (editor v') = None))
    [go_to_page page v; go_to_first_page v; go_to_last_page v;
     prev_page v; next_page v; on_page_spinbox_change entry v].
Proof.
  intros Hin.
  assert (Hgo : forall p,
             let v' := go_to_page p v in
             current_page (editor v') < total_pages v'
             /\ total_pages v' = total_pages v
             /\ calls (editor v') = calls (editor v)
             /\ modified (editor v') = modified (editor v)
             /\ (v' = v \/ selected_annot_xref (editor v') = None)).
  { intros p. unfold go_to_page.
    destruct (current_pdf (editor v)); [|by repeat split; auto].
    destruct ((0 <=? p)%Z && (p <? Z.of_nat (total_pages v))%Z) eqn:Hp;
      [|by repeat split; auto].
    apply andb_true_iff in Hp as [H0 H1].
    apply Z.leb_le in H0. apply Z.ltb_lt in H1.
    cbn. repeat split; auto. lia. }
  change (go_to_first_page v) with (go_to_page 0 v).
  repeat (apply Forall_cons; split); try apply Forall_nil; try apply Hgo.
  - unfold go_to_last_page. destruct (current_pdf (editor v)); [apply Hgo|].
    repeat split; auto.
  - unfold prev_page. destruct (current_pdf (editor v)); [|by repeat split; auto].
    destruct (0 <? current_page (editor v)) eqn:Hp; [|by repeat split; auto].
    cbn. repeat split; auto. lia.
  - unfold next_page. destruct (current_pdf (editor v)); [|by repeat split; auto].
    destruct (_ <? _)%Z eqn:Hp; [|by repeat split; auto].
    apply Z.ltb_lt in Hp. cbn. repeat split; auto. lia.
  - unfold on_page_spinbox_change. destruct entry as [n|]; [|by repeat split; auto].
    destruct (_ && _); [apply Hgo|by repeat split; auto].
  - exact I.
Qed.

Lemma navigation_stays_in_document_witness :
  current_page (editor (next_page sample_view)) < total_pages (next_page sample_view).
Proof.
  pose proof (navigation_stays_in_document sample_view 0 None) as H.
  assert (Hstart : current_page (editor sample_view) < total_pages sample_view)
    by (vm_compute; lia).
  specialize (H Hstart).
  apply Forall_cons in H as [_ H]. apply Forall_cons in H as [_ H].
  apply Forall_cons in H as [_ H]. apply Forall_cons in H as [_ H].
  apply Forall_cons in H as [H _]. exact (proj1 H).
Defined.

(** X20. With a document open: prev_page on the first page and
    next_page on the last do nothing; next_page elsewhere goes one page
    forward and prev_page after it comes back; go_to_page does nothing
    for a page outside the document and goes to a page inside it; a
    spinbox entry that is not a number or is outside 1..total does
    nothing, and an entry n inside goes to page n - 1. *)
Theorem page_turns_at_the_ends (v : View) (doc : string) :
  current_pdf (editor v) = Some doc ->
  (current_page (editor v) = 0 -> prev_page v = v)
  /\ (total_pages v <= S (current_page (editor v)) -> next_page v = v)
  /\ (S (current_page (editor v)) < total_pages v ->
      current_page (editor (next_page v)) = S (current_page (editor v)) /\
      current_page (editor (prev_page (next_page v))) = current_page (editor v))
  /\ (forall page, (page < 0 \/ Z.of_nat (total_pages v) <= page)%Z ->
        go_to_page page v = v)
  /\ (forall page, (0 <= page < Z.of_nat (total_pages v))%Z ->
        current_page (editor (go_to_page page v)) = Z.to_nat page)
  /\ on_page_spinbox_change None v = v
  /\ (forall n, (n < 1 \/ Z.of_nat (total_pages v) < n)%Z ->
        on_page_spinbox_change (Some n) v = v)
  /\ (forall n, (1 <= n <= Z.of_nat (total_pages v))%Z ->
        current_page (editor (on_page_spinbox_change (Some n) v)) = Z.to_nat (n - 1)).
Proof.
  intros Hpdf.
  assert (Hout : forall page, (page < 0 \/ Z.of_nat (total_pages v) <= page)%Z ->
                              go_to_page page v = v).
  { intros page Hp. unfold go_to_page. rewrite Hpdf.
    destruct ((0 <=? page)%Z && (page <? Z.of_nat (total_pages v))%Z) eqn:Hb; [|done].
    apply andb_true_iff in Hb as [H0 H1].
    apply Z.leb_le in H0. apply Z.ltb_lt in H1. lia. }
  assert (Hgo : forall page, (0 <= page < Z.of_nat (total_pages v))%Z ->
                  current_page (editor (go_to_page page v)) = Z.to_nat page).
  { intros page [H0 H1]. unfold go_to_page. rewrite Hpdf.
    apply Z.leb_le in H0. apply Z.ltb_lt in H1. by rewrite H0, H1. }
  split; [|split; [|split; [|split; [|split; [|split; [|split]]]]]].
  - intros H0. unfold prev_page. rewrite Hpdf, H0. done.
  - intros Hlast. unfold next_page. rewrite Hpdf.
    destruct (_ <? _)%Z eqn:Hb; [|done]. apply Z.ltb_lt in Hb. lia.
  - intros Hmid. unfold next_page. rewrite Hpdf.
    assert (Hb : (Z.of_nat (current_page (editor v))
                  <? Z.of_nat (total_pages v) - 1)%Z = true)
      by (apply Z.ltb_lt; lia).
    rewrite Hb. split; [cbn; lia|].
    unfold prev_page. cbn [editor with_editor current_pdf current_page
                           set_selected_annot_xref set_current_page].
    rewrite Hpdf.
    replace (0 <? current_page (editor v) + 1) with true
      by (symmetry; apply Nat.ltb_lt; lia).
    cbn. lia.
  - exact Hout.
  - exact Hgo.
  - done.
  - intros n Hn. unfold on_page_spinbox_change.
    destruct (_ && _) eqn:Hb; [|done]. apply Hout. lia.
  - intros n Hn. unfold on_page_spinbox_change.
    destruct (_ && _) eqn:Hb; [apply Hgo; lia|].
    apply andb_false_iff in Hb as [Hb|Hb].
    + apply andb_false_iff in Hb as [Hb|Hb].
      * apply Z.leb_gt in Hb. lia.
      * apply Z.ltb_ge in Hb. lia.
    + apply negb_false_iff, Z.eqb_eq in Hb. rewrite Hb. by rewrite Nat2Z.id.
Qed.

Lemma page_turns_at_the_ends_witness :
  prev_page sample_view = sample_view.
Proof.
  refine (proj1 (page_turns_at_the_ends sample_view "a.pdf" _) _); reflexivity.
Defined.

(** ** The continuous view (lines 506-533, 1343-1381) *)

Lemma length_positions_from (pix_height : nat -> Z) (y : Z) (pages : list nat) :
  length (positions_from pix_height y pages) = length pages.
Proof.
  revert y. induction pages as [|i pages IH]; intros y; cbn; [done|].
  by rewrite IH.
Qed.

Lemma positions_from_step (pix_height : nat -> Z) (y : Z) (k n i : nat) (p : Z) :
  positions_from pix_height y (seq k n) !! i = Some p ->
  S i < n ->
  positions_from pix_height y (seq k n) !! S i
  = Some (p + pix_height (k + i)%nat + 10)%Z.
Proof.
  revert y k i. induction n as [|n IH]; intros y k i Hi Hlt; [lia|].
  cbn [seq positions_from] in *. destruct i as [|i].
  - injection Hi as <-. destruct n as [|n]; [lia|].
    cbn [seq positions_from]. rewrite Nat.add_0_r. reflexivity.
  - rewrite lookup_cons in Hi. rewrite lookup_cons.
    rewrite (IH _ _ _ Hi) by lia.
    by replace (S k + i)%nat with (k + S i)%nat by lia.
Qed.

Lemma positions_from_lower (pix_height : nat -> Z) (y : Z) (pages : list nat)
    (i : nat) (p : Z) :
  (forall j, 0 <= pix_height j)%Z ->
  positions_from pix_height y pages !! i = Some p ->
  (y + 10 * Z.of_nat i <= p)%Z.
Proof.
  intros Hpos. revert y i. induction pages as [|k pages IH]; intros y i; [done|].
  destruct i as [|i]; cbn [positions_from]; rewrite lookup_cons.
  - intros [= <-]. lia.
  - intros Hi. apply IH in Hi. specialize (Hpos k). lia.
Qed.

Lemma positions_from_increase (pix_height : nat -> Z) (y : Z) (pages : list nat)
    (i j : nat) (pi pj : Z) :
  (forall k, 0 <= pix_height k)%Z ->
  i < j ->
  positions_from pix_height y pages !! i = Some pi ->
  positions_from pix_height y pages !! j = Some pj ->
  (pi + 10 * Z.of_nat (j - i) <= pj)%Z.
Proof.
  intros Hpos. revert y i j. induction pages as [|k pages IH]; intros y i j Hij; [done|].
  destruct j as [|j]; [lia|]. destruct i as [|i]; cbn [positions_from];
    rewrite !lookup_cons.
  - intros [= <-] Hj. apply (positions_from_lower _ _ _ _ _ Hpos) in Hj.
    specialize (Hpos k). lia.
  - intros Hi Hj. replace (S j - S i) with (j - i) by lia.
    eapply (IH _ i j); [lia|exact Hi|exact Hj].
Qed.

(** X21. In the continuous view there is one offset per page, the
    first is 0, each next one is the previous plus the page's height
    plus 10, and offsets of later pages are larger by at least 10 per
    page, when no height is negative. Rendering leaves the editor state
    as it was. *)
Theorem continuous_positions (pix_height : nat -> Z) (v : View) (doc : string) :
  current_pdf (editor v) = Some doc ->
  (forall i, 0 <= pix_height i)%Z ->
  let positions := page_positions (render_continuous pix_height v) in
  length positions = total_pages v
  /\ (0 < total_pages v -> positions !! 0 = Some 0%Z)
  /\ (forall i p, positions !! i = Some p -> S i < total_pages v ->
        positions !! S i = Some (p + pix_height i + 10)%Z)
  /\ (forall i j pi pj, i < j ->
        positions !! i = Some pi -> positions !! j = Some pj ->
        (pi + 10 * Z.of_nat (j - i) <= pj)%Z)
  /\ editor (render_continuous pix_height v) = editor v.
Proof.
  intros Hpdf Hpos positions. unfold positions, render_continuous.
  rewrite Hpdf. cbn [page_positions editor].
  split; [by rewrite length_positions_from, length_seq|].
  split; [intros Hn; by destruct (total_pages v); [lia|]|].
  split; [intros i p Hi Hlt; by apply (positions_from_step _ _ 0)|].
  split; [|done].
  intros i j pi pj. by apply positions_from_increase.
Qed.

Lemma continuous_positions_witness :
  length (page_positions sample_view) = 3.
Proof.
  refine (proj1 (continuous_positions
                   (fun i => match i with 0%nat => 100 | 1%nat => 200 | _ => 50 end)%Z
                   (mkView (sample_editor tool_select) 3 true []) "a.pdf"
                   eq_refl _)).
  intros [|[|i]]; lia.
Defined.

Local Open Scope Q_scope.

Lemma page_at_sound (center_y : Q) (k : nat) (positions : list Z) (i : nat) :
  page_at center_y k positions = Some i ->
  (k <= i)%nat /\
  exists p, positions !! (i - k)%nat = Some p /\ inject_Z p <= center_y /\
            forall q, positions !! S (i - k) = Some q -> center_y < inject_Z q.
Proof.
  revert k. induction positions as [|pos rest IH]; intros k; [done|].
  cbn [page_at]. destruct rest as [|next rest'].
  - destruct (Qltb center_y (inject_Z pos)) eqn:Hlt; cbn [negb]; [done|].
    intros [= <-]. split; [lia|]. rewrite Nat.sub_diag. exists pos.
    split; [done|]. apply Qltb_ge in Hlt. split; [done|]. by intros q.
  - destruct (negb (Qltb center_y (inject_Z pos)) && Qltb center_y (inject_Z next))
      eqn:Hhit.
    + intros [= <-]. split; [lia|]. rewrite Nat.sub_diag. exists pos.
      apply andb_true_iff in Hhit as [Hlo Hhi].
      apply negb_true_iff, Qltb_ge in Hlo. apply Qltb_lt in Hhi.
      split; [done|]. split; [done|]. by intros q [= <-].
    + intros Hrec. apply IH in Hrec as (Hle & p & Hp & Hlo & Hhi).
      split; [lia|]. exists p.
      replace (i - k)%nat with (S (i - S k)) by lia. done.
Qed.

Lemma page_at_next (center_y : Q) (k : nat) (pos next : Z) (rest : list Z) :
  page_at center_y k (pos :: next :: rest)
  = if negb (Qltb center_y (inject_Z pos)) && Qltb center_y (inject_Z next)
    then Some k
    else page_at center_y (S k) (next :: rest).
Proof. reflexivity. Qed.

Lemma page_at_found (center_y : Q) (k : nat) (pos : Z) (rest : list Z) :
  inject_Z pos <= center_y ->
  exists i, page_at center_y k (pos :: rest) = Some i.
Proof.
  revert k pos. induction rest as [|next rest IH]; intros k pos Hle.
  - cbn [page_at]. apply Qltb_ge in Hle. rewrite Hle. cbn. eauto.
  - rewrite page_at_next.
    destruct (negb (Qltb center_y (inject_Z pos)) && Qltb center_y (inject_Z next))
      eqn:Hhit; [eauto|].
    apply IH. apply Qltb_ge in Hle. rewrite Hle in Hhit. cbn [negb andb] in Hhit.
    by apply Qltb_ge.
Qed.

(** X22. When the middle of the window is at or past the first page
    offset, scrolling sets the current page to a page whose offset is at
    most the middle while the next page's offset, if any, is past it.
    Scrolling never changes the selection, the modified flag, the calls
    or the offsets. *)
Theorem scroll_finds_page (scroll_top : Q) (canvas_height : Z) (v : View)
    (first : Z) (rest : list Z) :
  page_positions v = first :: rest ->
  let center_y := scroll_top + inject_Z canvas_height / 2 in
  let v' := update_current_page_from_scroll scroll_top canvas_height v in
  (inject_Z first <= center_y ->
   exists p,
     page_positions v !! current_page (editor v') = Some p /\
     inject_Z p <= center_y /\
     forall q, page_positions v !! S (current_page (editor v')) = Some q ->
               center_y < inject_Z q)
  /\ selected_annot_xref (editor v') = selected_annot_xref (editor v)
  /\ modified (editor v') = modified (editor v)
  /\ calls (editor v') = calls (editor v)
  /\ page_positions v' = page_positions v.
Proof.
  intros Hpos center_y v'. unfold v', update_current_page_from_scroll.
  rewrite Hpos. fold center_y.
  destruct (page_at center_y 0 (first :: rest)) as [i|] eqn:Hat.
  - split; [|by rewrite <- Hpos].
    intros _. apply page_at_sound in Hat as (_ & p & Hp & Hlo & Hhi).
    rewrite Nat.sub_0_r in Hp, Hhi. cbn [editor with_editor current_page set_current_page].
    eauto.
  - split; [|done]. intros Hle.
    destruct (page_at_found center_y 0 first rest Hle) as [i Hi]. congruence.
Qed.

Lemma scroll_finds_page_witness :
  exists p,
    page_positions sample_view
      !! current_page (editor (update_current_page_from_scroll 100 300 sample_view))
    = Some p /\
    inject_Z p <= 100 + inject_Z 300 / 2.
Proof.
  destruct (proj1 (scroll_finds_page 100 300 sample_view 0 [110; 320]%Z eq_refl))
    as (p & Hp & Hlo & _).
  - discriminate.
  - exists p. split; [exact Hp|exact Hlo].
Defined.

Example scroll_to_second_page :
  current_page (editor (update_current_page_from_scroll 100 300 sample_view)) = 1%nat.
Proof. reflexivity. Qed.

(** ** The move preview (lines 1082-1107) *)

(** X23. During a move the preview rectangle is, at the zoom of the
    editor, the rectangle of the annotation translated by the page delta
    that finish_move_annotation applies: mapped back to the page, its
    corners are those of the moved rectangle. *)
Theorem preview_matches_move (x y : Q) (e : Editor) (r : Rect) (sx sy : Q) :
  moving_annot_rect e = Some r ->
  drag_start e = Some (sx, sy) ->
  0.5 <= zoom_level e ->
  let moved :=
    translate r ((x - sx) / (zoom_level e * 1.5)) ((y - sy) / (zoom_level e * 1.5)) in
  exists shown,
    preview_move_annotation x y e = Some shown /\
    fst (canvas_to_pdf_point e (x0 shown, y0 shown)) == x0 moved /\
    snd (canvas_to_pdf_point e (x0 shown, y0 shown)) == y0 moved /\
    fst (canvas_to_pdf_point e (x1 shown, y1 shown)) == x1 moved /\
    snd (canvas_to_pdf_point e (x1 shown, y1 shown)) == y1 moved.
Proof.
  intros Hrect Hdrag Hzoom moved. pose proof (zoom_factor_nonzero e Hzoom) as Hnz.
  unfold preview_move_annotation. rewrite Hrect, Hdrag.
  eexists. split; [reflexivity|].
  unfold moved, translate, canvas_to_pdf_point. cbn [fst snd x0 y0 x1 y1].
  repeat split; field; intros H0; apply Hnz; rewrite H0; reflexivity.
Qed.

Lemma preview_matches_move_witness :
  exists shown,
    preview_move_annotation 120 120 sample_moving = Some shown /\
    fst (canvas_to_pdf_point sample_moving (x0 shown, y0 shown))
    == x0 (translate (mkRect 10 10 50 40)
             ((120 - 100) / (zoom_level sample_moving * 1.5))
             ((120 - 100) / (zoom_level sample_moving * 1.5))).
Proof.
  destruct (preview_matches_move 120 120 sample_moving (mkRect 10 10 50 40)
              100 100 eq_refl eq_refl) as (shown & Hshown & Hx & _).
  - discriminate.
  - exists shown. split; [exact Hshown|exact Hx].
Defined.
